(** * RenumberSequence: a verification development for [renumber_seq.py]

    The script renumbers image sequences [<name>.<number>.<ext>] inside the
    directories it is given.  This file embeds the part of the script that
    touches the file system ([restore_original_names], [renumber_files] and
    the loop of [main]) and the function that makes the date of its help
    screen ([get_script_last_mod_datetime]), together with the Python and
    operating-system primitives they call, and proves properties of them.

    Conventions of the embedding:
    - a Python [str] is a [string]; a character is a code point below 256;
    - a Python [int] is a [Z];
    - a Python [dict] is an association list that keeps insertion order
      ([dict_set] replaces in place or appends), because the script iterates
      over its dictionaries;
    - the file system is a finite map from full paths to nodes; a run also
      carries the schedule of externally caused rename failures, the record
      of the renames that were carried out and the lines sent to the logger;
    - an exception is a value of [exn]; a block that may raise returns an
      [outcome] holding the state reached when it stopped. *)

From Stdlib Require Import ZArith Ascii String Decimal DecimalString DecimalZ.
From Stdlib Require Import Sorted Permutation.
From stdpp Require Import base gmap list strings.

Local Open Scope Z_scope.

(** ** Python strings *)

Module Py.

(** [s.split(sep)] for a one-character separator: never returns the empty
    list, and keeps empty pieces. *)
Fixpoint split (sep : ascii) (s : string) : list string :=
  match s with
  | EmptyString => [EmptyString]
  | String c r =>
      if decide (c = sep) then EmptyString :: split sep r
      else match split sep r with
           | h :: t => String c h :: t
           | [] => [String c EmptyString]
           end
  end.

(** The characters below code point 256 that [str.isnumeric] accepts: the
    ten ASCII digits, the superscripts 2, 3 and 1 (178, 179, 185) and the
    vulgar fractions 1/4, 1/2 and 3/4 (188, 189, 190). *)
Definition numeric_char (c : ascii) : bool :=
  let n := N_of_ascii c in
  ((48 <=? n) && (n <=? 57) || (n =? 178) || (n =? 179) || (n =? 185)
   || (n =? 188) || (n =? 189) || (n =? 190))%N.

Fixpoint all_chars (p : ascii → bool) (s : string) : bool :=
  match s with
  | EmptyString => true
  | String c r => p c && all_chars p r
  end.

(** [s.isnumeric()]: at least one character, all of them numeric. *)
Definition isnumeric (s : string) : bool :=
  match s with
  | EmptyString => false
  | _ => all_chars numeric_char s
  end.

(** [int(s)] on the strings the script converts, which all passed
    [isnumeric]: the value of a non-empty run of ASCII digits, [None]
    (a [ValueError]) as soon as another numeric character occurs. *)
Definition int (s : string) : option Z :=
  match NilZero.uint_of_string s with
  | Some d => Some (Z.of_uint d)
  | None => None
  end.

(** [str(n)] for an integer. *)
Definition str (n : Z) : string := NilZero.string_of_int (Z.to_int n).

Fixpoint zeros (n : nat) : string :=
  match n with
  | O => EmptyString
  | S n => String "0" (zeros n)
  end.

(** [s.zfill(width)]: pad with zeros on the left up to [width] characters,
    after a leading sign if there is one; never shortens. *)
Definition zfill (s : string) (width : Z) : string :=
  let len := Z.of_nat (String.length s) in
  if width <=? len then s
  else
    let fill := zeros (Z.to_nat (width - len)) in
    match s with
    | String c r =>
        if decide (c = "+"%char ∨ c = "-"%char) then String c (fill +:+ r)
        else fill +:+ s
    | EmptyString => fill
    end.

(** [sub in s] for strings. *)
Fixpoint startswith (p s : string) : bool :=
  match p, s with
  | EmptyString, _ => true
  | String a p', String b s' => if decide (a = b) then startswith p' s' else false
  | String _ _, EmptyString => false
  end.

Fixpoint contains (sub s : string) : bool :=
  startswith sub s ||
  match s with
  | EmptyString => false
  | String _ r => contains sub r
  end.

(** [l.sort(key=k)] where the keys are already computed: a stable sort of
    the pairs on their first component.  Python's sort is stable, and a
    stable sort has only one possible result, so inserting each element
    before the first one that is not smaller gives the same list. *)
Fixpoint insert_by_key {A} (x : Z * A) (l : list (Z * A)) : list (Z * A) :=
  match l with
  | [] => [x]
  | y :: l' => if x.1 <=? y.1 then x :: y :: l' else y :: insert_by_key x l'
  end.

Definition sort_by_key {A} (l : list (Z * A)) : list (Z * A) :=
  foldr insert_by_key [] l.

(** [l.sort(key=int)]: every key is computed first, and a failing [int]
    aborts the sort. *)
Definition sort_key_int (l : list string) : option (list string) :=
  keys ← mapM int l;
  Some ((sort_by_key (zip keys l)).*2).

(** [s[:n]] for [n >= 0]. *)
Fixpoint slice_to (n : nat) (s : string) : string :=
  match n, s with
  | S n', String c r => String c (slice_to n' r)
  | _, _ => EmptyString
  end.

(** [s[n:]] for [n >= 0]. *)
Fixpoint slice_from (n : nat) (s : string) : string :=
  match n, s with
  | S n', String _ r => slice_from n' r
  | _, _ => s
  end.

(** [s.upper()] on ASCII text: the letters [a] to [z] become capitals,
    every other character stays. *)
Definition upper_char (c : ascii) : ascii :=
  let n := N_of_ascii c in
  if ((97 <=? n) && (n <=? 122))%N then ascii_of_N (n - 32) else c.

Fixpoint upper (s : string) : string :=
  match s with
  | EmptyString => EmptyString
  | String c r => String (upper_char c) (upper r)
  end.

End Py.

(** ** Insertion-ordered dictionaries *)

Section dict.
Context {K V : Type} `{EqDecision K}.

(** [d[k]], [None] standing for a [KeyError]. *)
Fixpoint dict_get (k : K) (d : list (K * V)) : option V :=
  match d with
  | [] => None
  | (k', v) :: d' => if decide (k = k') then Some v else dict_get k d'
  end.

(** [d[k] = v]: an existing key keeps its position, a new key goes last. *)
Fixpoint dict_set (k : K) (v : V) (d : list (K * V)) : list (K * V) :=
  match d with
  | [] => [(k, v)]
  | (k', v') :: d' =>
      if decide (k = k') then (k, v) :: d' else (k', v') :: dict_set k v d'
  end.
End dict.

(** ** The file system, the logger and the clock *)

(** A regular file carries an identity, so that a theorem can say which file
    ends up under which name. *)
Inductive node :=
  | File (ino : nat)
  | Dir.

Global Instance node_eq_dec : EqDecision node.
Proof. solve_decision. Defined.

Inductive exn :=
  | FileNotFoundError
  | IsADirectoryError
  | PermissionError
  | OSError
  | ValueError
  | KeyError.

Global Instance exn_eq_dec : EqDecision exn.
Proof. solve_decision. Defined.

Inductive level := WARNING | ERROR.

(** One rename that was carried out, with what it found at the destination. *)
Record rename_event := {
  ev_src : string;
  ev_dst : string;
  ev_replaced : option node
}.

Global Instance rename_event_eq_dec : EqDecision rename_event.
Proof. solve_decision. Defined.

(** - [nodes]: what exists, by full path;
    - [faults]: for each coming call of [os.rename], whether it fails for a
      reason outside the model (permissions, a full disk, a name longer than
      the file system takes, ...); a call made after the schedule is used up
      is not disturbed;
    - [renames]: the renames carried out so far, oldest first;
    - [logged]: the records sent to the logger, oldest first. *)
Record World := {
  nodes : gmap string node;
  faults : list bool;
  renames : list rename_event;
  logged : list (level * string)
}.

Definition os_path_exists (w : World) (p : string) : bool :=
  match nodes w !! p with Some _ => true | None => false end.

Definition os_path_isdir (w : World) (p : string) : bool :=
  match nodes w !! p with Some Dir => true | _ => false end.

Definition os_path_isfile (w : World) (p : string) : bool :=
  match nodes w !! p with Some (File _) => true | _ => false end.

Fixpoint strip_prefix (p s : string) : option string :=
  match p, s with
  | EmptyString, _ => Some s
  | String a p', String b s' => if decide (a = b) then strip_prefix p' s' else None
  | String _ _, EmptyString => None
  end.

(** The name under which [k] is an immediate entry of directory [path]. *)
Definition entry_name (path k : string) : option string :=
  match strip_prefix (path +:+ "/") k with
  | Some n =>
      if decide (n ≠ EmptyString ∧ Py.contains "/" n = false) then Some n else None
  | None => None
  end.

(** [os.listdir(path)] for a directory that can be read.  The order in which
    an operating system lists a directory is unspecified; this function
    fixes one, and the results on the body of [renumber_files] are stated
    for every permutation of it.  The call of line 124 stands before the
    [try] block: a listing that the operating system refuses raises there
    and leaves [renumber_files] and [main] at once.  A world has no
    directory that cannot be read, so what is proved of [renumber_files] and
    of [main] is about the runs in which every listing is obtained. *)
Definition os_listdir (w : World) (path : string) : list string :=
  omap (entry_name path) (map_to_list (nodes w)).*1.

(** [os.rename(src, dst)] with POSIX semantics for a regular file: a missing
    source and a directory at the destination are errors, an existing
    regular file at the destination is silently replaced.  A call that the
    schedule [faults] disturbs fails whatever its arguments; the exception
    is shown as [PermissionError], whichever subclass of Python's [OSError]
    the real call raises (a name that is too long gives a plain
    [OSError]).  The script only ever passes
    as source a path that has just passed [os.path.isfile] or one that an
    earlier rename of the same run created, and no rename creates a
    directory; moving a directory with its subtree is therefore left out of
    the model: an undisturbed call whose source is a directory answers the
    constructor [OSError], which stands for nothing else here, and the
    section on the sources of the renames shows that the script never gets
    that answer. *)
Definition os_rename (src dst : string) (w : World) : World * option exn :=
  let failed e :=
    ({| nodes := nodes w; faults := tail (faults w);
        renames := renames w; logged := logged w |}, Some e) in
  match faults w with
  | true :: _ => failed PermissionError
  | _ =>
      match nodes w !! src with
      | None => failed FileNotFoundError
      | Some Dir => failed OSError
      | Some (File i) =>
          match nodes w !! dst with
          | Some Dir => failed IsADirectoryError
          | old =>
              ({| nodes := <[dst := File i]> (delete src (nodes w));
                  faults := tail (faults w);
                  renames := renames w ++ [{| ev_src := src; ev_dst := dst; ev_replaced := old |}];
                  logged := logged w |}, None)
          end
      end
  end.

Definition logger_log (l : level) (msg : string) (w : World) : World :=
  {| nodes := nodes w; faults := faults w; renames := renames w;
     logged := logged w ++ [(l, msg)] |}.

Definition logger_warning := logger_log WARNING.
Definition logger_error := logger_log ERROR.

(** The double-quote character as a string, for the messages. *)
Definition dquote : string := String (ascii_of_nat 34) EmptyString.

(** [str(e)]; the text of the message is abstracted to the class name. *)
Definition exn_str (e : exn) : string :=
  match e with
  | FileNotFoundError => "FileNotFoundError"
  | IsADirectoryError => "IsADirectoryError"
  | PermissionError => "PermissionError"
  | OSError => "OSError"
  | ValueError => "ValueError"
  | KeyError => "KeyError"
  end.

(** The fields of [datetime.now()] that the script formats. *)
Record datetime := {
  year : nat; month : nat; day : nat;
  hour : nat; minute : nat; second : nat
}.

Definition digit (n : nat) : ascii := ascii_of_nat (48 + n mod 10).

Definition two_digits (n : nat) : string :=
  String (digit (n / 10)) (String (digit n) EmptyString).

(** [t.strftime('%y-%m-%d_%H-%M-%S')] *)
Definition strftime (t : datetime) : string :=
  two_digits (year t) +:+ "-" +:+ two_digits (month t) +:+ "-" +:+
  two_digits (day t) +:+ "_" +:+ two_digits (hour t) +:+ "-" +:+
  two_digits (minute t) +:+ "-" +:+ two_digits (second t).

(** [%b] in the C locale, which is the one in force when the script does
    not set another. *)
Definition month_abbr (m : nat) : string :=
  nth (m - 1) ["Jan"; "Feb"; "Mar"; "Apr"; "May"; "Jun";
               "Jul"; "Aug"; "Sep"; "Oct"; "Nov"; "Dec"] EmptyString.

(** [%e]: the day of the month on two characters, padded with a space. *)
Definition space_padded (n : nat) : string :=
  if (n <? 10)%nat then String " " (String (digit n) EmptyString) else two_digits n.

(** The hour on the 12-hour clock, from 1 to 12. *)
Definition hour12 (t : datetime) : nat :=
  match (hour t mod 12)%nat with
  | O => 12%nat
  | h => h
  end.

(** [%p] in the C locale. *)
Definition am_pm (t : datetime) : string :=
  if (hour t <? 12)%nat then "AM" else "PM".

(** [t.strftime('%b%e %Y %I:%M:%S %p')], for a year of four digits. *)
Definition strftime_last_mod (t : datetime) : string :=
  month_abbr (month t) +:+ space_padded (day t) +:+ " " +:+
  Py.str (Z.of_nat (year t)) +:+ " " +:+
  two_digits (hour12 t) +:+ ":" +:+ two_digits (minute t) +:+ ":" +:+
  two_digits (second t) +:+ " " +:+ am_pm t.

(** ** The script *)

(** The dictionaries of one call of [renumber_files], with the world. *)
Record State := {
  world : World;
  renaming_dict : list (string * string);
  seqs_data_dict : list (string * string * list string)
}.

(** What a block that may raise returns: the state it reached. *)
Inductive outcome :=
  | Done (s : State)
  | Raised (e : exn) (s : State).

Section script.

(** The time at which the module was loaded. *)
Variable now : datetime.

Definition DATE : string := strftime now.
Definition TEMP_SUFIX : string := "_tmp_" +:+ DATE.

(** ['%s/%s'%(path, file)] *)
Definition full_path_of (path file : string) : string :=
  path +:+ "/" +:+ file.

(** ['%s/%s.%s.%s'%(path, name, number + TEMP_SUFIX, ext)] *)
Definition tmp_path_of (path name number ext : string) : string :=
  path +:+ "/" +:+ name +:+ "." +:+ (number +:+ TEMP_SUFIX) +:+ "." +:+ ext.

(** ['%s/%s.%s.%s'%(path, name, str(frame_number).zfill(length), ext)] *)
Definition new_path_of (path name : string) (frame_number length : Z) (ext : string) : string :=
  path +:+ "/" +:+ name +:+ "." +:+ Py.zfill (Py.str frame_number) length +:+ "." +:+ ext.

Fixpoint restore_original_names (renaming_dict : list (string * string)) (w : World)
    : World * option exn :=
  match renaming_dict with
  | [] => (w, None)
  | (org_name, curr_name) :: items =>
      match os_rename curr_name org_name w with
      | (w', None) => restore_original_names items w'
      | (w', Some e) => (w', Some e)
      end
  end.

(** One turn of the first loop of the [try] block. *)
Definition stage_file (path file : string) (s : State) : outcome :=
  let full_path := full_path_of path file in
  if negb (os_path_isfile (world s) full_path) then Done s
  else
    match Py.split "." file with
    | [name; number; ext] =>
        if negb (Py.isnumeric number) then Done s
        else
          let seqs :=
            match dict_get (name, ext) (seqs_data_dict s) with
            | None => dict_set (name, ext) [number] (seqs_data_dict s)
            | Some img_list =>
                dict_set (name, ext) (img_list ++ [number]) (seqs_data_dict s)
            end in
          let tmp_path := tmp_path_of path name number ext in
          match os_rename full_path tmp_path (world s) with
          | (w', Some e) =>
              Raised e {| world := w'; renaming_dict := renaming_dict s;
                          seqs_data_dict := seqs |}
          | (w', None) =>
              Done {| world := w';
                      renaming_dict := dict_set full_path tmp_path (renaming_dict s);
                      seqs_data_dict := seqs |}
          end
    | _ => Done s
    end.

Fixpoint stage_loop (path : string) (files : list string) (s : State) : outcome :=
  match files with
  | [] => Done s
  | file :: files' =>
      match stage_file path file s with
      | Done s' => stage_loop path files' s'
      | Raised e s' => Raised e s'
      end
  end.

(** The loop over one sorted [img_list]. *)
Fixpoint number_loop (path name ext : string) (length : Z)
    (img_list : list string) (frame_number : Z) (s : State) : outcome :=
  match img_list with
  | [] => Done s
  | number :: img_list' =>
      let full_path := tmp_path_of path name number ext in
      let new_path := new_path_of path name frame_number length ext in
      match os_rename full_path new_path (world s) with
      | (w', Some e) =>
          Raised e {| world := w'; renaming_dict := renaming_dict s;
                      seqs_data_dict := seqs_data_dict s |}
      | (w', None) =>
          number_loop path name ext length img_list' (frame_number + 1)
            {| world := w';
               renaming_dict := dict_set full_path new_path (renaming_dict s);
               seqs_data_dict := seqs_data_dict s |}
      end
  end.

(** One turn of the loop over the keys of [seqs_data_dict]; the sort is
    in place, so the sorted list is stored back. *)
Definition renumber_seq (path : string) (start length : Z)
    (key : string * string) (s : State) : outcome :=
  match dict_get key (seqs_data_dict s) with
  | None => Raised KeyError s
  | Some img_list =>
      match Py.sort_key_int img_list with
      | None => Raised ValueError s
      | Some sorted =>
          number_loop path key.1 key.2 length sorted start
            {| world := world s; renaming_dict := renaming_dict s;
               seqs_data_dict := dict_set key sorted (seqs_data_dict s) |}
      end
  end.

Fixpoint seqs_loop (path : string) (start length : Z)
    (keys : list (string * string)) (s : State) : outcome :=
  match keys with
  | [] => Done s
  | key :: keys' =>
      match renumber_seq path start length key s with
      | Done s' => seqs_loop path start length keys' s'
      | Raised e s' => Raised e s'
      end
  end.

(** The [try] block of [renumber_files], for the listing [files]. *)
Definition renumber_try (path : string) (start length : Z)
    (files : list string) (w : World) : outcome :=
  match stage_loop path files
          {| world := w; renaming_dict := []; seqs_data_dict := [] |} with
  | Done s => seqs_loop path start length (seqs_data_dict s).*1 s
  | Raised e s => Raised e s
  end.

(** The [except] clause: three error records, then the rollback, whose
    own exceptions are not caught. *)
Definition handle_error (path : string) (e : exn) (s : State) : World * option exn :=
  let w := logger_error ("Error found renaming files on " +:+ path) (world s) in
  let w := logger_error (exn_str e) w in
  let w := logger_error "Skipping directory..." w in
  restore_original_names (renaming_dict s) w.

(** [renumber_files] from the emptiness check on, for the listing [files]. *)
Definition renumber_listing (path : string) (start length : Z)
    (files : list string) (w : World) : World * option exn :=
  match files with
  | [] =>
      (logger_warning ("Path " +:+ dquote +:+ path +:+ dquote +:+ " is empty. Skipping path...") w, None)
  | _ =>
      match renumber_try path start length files w with
      | Done s => (world s, None)
      | Raised e s => handle_error path e s
      end
  end.

(** [renumber_files(path, start, length)]: the new world and the exception
    that escapes to the caller, if any. *)
Definition renumber_files (path : string) (start length : Z) (w : World)
    : World * option exn :=
  if negb (os_path_exists w path) then
    (logger_warning ("Path " +:+ dquote +:+ path +:+ dquote +:+ " does not exist. Skipping path...") w, None)
  else if negb (os_path_isdir w path) then
    (logger_warning ("Path " +:+ dquote +:+ path +:+ dquote +:+ " is not a directory. Skipping path...") w, None)
  else renumber_listing path start length (os_listdir w path) w.

(** The loop of [main] over the directories; an escaping exception ends it. *)
Fixpoint main_loop (start length : Z) (args : list string) (w : World)
    : World * option exn :=
  match args with
  | [] => (w, None)
  | path :: args' =>
      match renumber_files path start length w with
      | (w', None) => main_loop start length args' w'
      | (w', Some e) => (w', Some e)
      end
  end.

(** [main], given what [get_options] returned and [os.getcwd()]. *)
Definition main (start length : Z) (args : list string) (cwd : string) (w : World)
    : World * option exn :=
  main_loop start length (match args with [] => [cwd] | _ => args end) w.

End script.

(** *** The date of the help screen *)

(** [get_script_last_mod_datetime()].  The first five statements of its
    [try] block ask the operating system when the script file was last
    modified; [last_modified_datetime] is what they produce, [None] when
    one of them raises.  An exception leaves [last_mod] as it is at that
    point, since the handler does nothing. *)
Definition get_script_last_mod_datetime (last_modified_datetime : option datetime) : string :=
  let last_mod := "N/A" in
  let last_mod :=
    match last_modified_datetime with
    | None => last_mod
    | Some t =>
        let last_mod := strftime_last_mod t in
        match String.get 11 last_mod with
        | None => last_mod
        | Some c =>
            if decide (c = "0"%char)
            then Py.slice_to 10 last_mod +:+ " " +:+ Py.slice_from 12 last_mod
            else last_mod
        end
    end in
  Py.upper last_mod.

(** ** Vocabulary of the specification *)

(** *** Strings and frame numbers *)

(** A string without the character [c]. *)
Definition nochar (c : ascii) (s : string) : bool :=
  Py.all_chars (λ x, bool_decide (x ≠ c)) s.

(** [sep.join(l)] *)
Fixpoint join (sep : ascii) (l : list string) : string :=
  match l with
  | [] => EmptyString
  | [x] => x
  | x :: l' => x +:+ String sep (join sep l')
  end.

Definition is_digit (c : ascii) : bool :=
  let n := N_of_ascii c in ((48 <=? n) && (n <=? 57))%N.

Definition digit_or_minus (c : ascii) : bool :=
  is_digit c || bool_decide (c = "-"%char).

(** The digits of [|n|], most significant first. *)
Definition udigits (n : Z) : uint :=
  match n with
  | Z0 => D0 Nil
  | Zpos p => Pos.to_uint p
  | Zneg p => Pos.to_uint p
  end.

(** The value of a frame string: an optional minus sign, then digits. *)
Definition frame_value (s : string) : option Z :=
  match s with
  | String c r => if decide (c = "-"%char) then Z.opp <$> Py.int r else Py.int s
  | EmptyString => None
  end.

Definition suffix_char (c : ascii) : bool :=
  is_digit c || bool_decide (c = "-"%char) || bool_decide (c = "_"%char)
  || bool_decide (c = "t"%char) || bool_decide (c = "m"%char) || bool_decide (c = "p"%char).

(** *** Sequences of renames *)

(** The effect on the name space of renaming the regular file [p.1] to
    [p.2]; nothing happens when there is no such file. *)
Definition mv (m : gmap string node) (p : string * string) : gmap string node :=
  match m !! p.1 with
  | Some n => <[p.2 := n]> (delete p.1 m)
  | None => m
  end.

Definition moved (m : gmap string node) (ps : list (string * string)) : gmap string node :=
  foldl mv m ps.

(** The record that a sequence of successful renames leaves. *)
Fixpoint events (m : gmap string node) (ps : list (string * string)) : list rename_event :=
  match ps with
  | [] => []
  | p :: ps' =>
      {| ev_src := p.1; ev_dst := p.2; ev_replaced := m !! p.2 |} :: events (mv m p) ps'
  end.

(** Each rename of the sequence can be carried out: its source is a regular
    file and its destination is not a directory. *)
Fixpoint performed (m : gmap string node) (ps : list (string * string)) : Prop :=
  match ps with
  | [] => True
  | p :: ps' =>
      (∃ i, m !! p.1 = Some (File i)) ∧ m !! p.2 ≠ Some Dir ∧ performed (mv m p) ps'
  end.

Definition state_of (o : outcome) : State :=
  match o with Done s => s | Raised _ s => s end.

Definition is_done (o : outcome) : Prop :=
  match o with Done _ => True | Raised _ _ => False end.

(** State [s'] is reached from [s] by carrying out the renames [ps], each
    recorded in [renaming_dict] as the script does. *)
Definition trace (s s' : State) (ps : list (string * string)) : Prop :=
  performed (nodes (world s)) ps ∧
  nodes (world s') = moved (nodes (world s)) ps ∧
  renames (world s') = renames (world s) ++ events (nodes (world s)) ps ∧
  logged (world s') = logged (world s) ∧
  renaming_dict s' = foldl (λ d p, dict_set p.1 p.2 d) (renaming_dict s) ps.

(** Sources pairwise distinct, destinations pairwise distinct, and no path
    on both sides. *)
Definition distinct_moves (ps : list (string * string)) : Prop :=
  NoDup ps.*1 ∧ NoDup ps.*2 ∧ ∀ a, a ∈ ps.*1 → a ∉ ps.*2.

(** *** Sequence members, buckets and the renames of the two passes *)

(** The pieces of a file name that follows [<name>.<number>.<ext>]. *)
Definition parse_seq (file : string) : option (string * string * string) :=
  match Py.split "." file with
  | [name; number; ext] =>
      if Py.isnumeric number then Some (name, number, ext) else None
  | _ => None
  end.

(** What the first loop makes of the entry [file] of [path]: the pieces of
    its name if it is a regular file that follows the convention. *)
Definition seq_member (m : gmap string node) (path file : string)
    : option (string * string * string) :=
  match m !! (path +:+ "/" +:+ file) with
  | Some (File _) => parse_seq file
  | _ => None
  end.

(** The entries of the listing that are sequence members, in listing order. *)
Definition staged (m : gmap string node) (path : string) (files : list string)
    : list (string * (string * string * string)) :=
  omap (λ f, pair f <$> seq_member m path f) files.

(** What the first loop does to [seqs_data_dict] for one member. *)
Definition add_token (d : list (string * string * list string))
    (x : string * string * string) : list (string * string * list string) :=
  match dict_get (x.1.1, x.2) d with
  | None => dict_set (x.1.1, x.2) [x.1.2] d
  | Some img_list => dict_set (x.1.1, x.2) (img_list ++ [x.1.2]) d
  end.

(** The frame tokens collected under one key, in listing order. *)
Definition bucket (xs : list (string * string * string)) (key : string * string)
    : list string :=
  (λ x, x.1.2) <$> filter (λ x, (x.1.1, x.2) = key) xs.

Definition key_le {A} (a b : Z * A) : Prop := a.1 ≤ b.1.

(** The pieces of some file name that follows the convention. *)
Definition valid_member (x : string * string * string) : Prop :=
  ∃ f, parse_seq f = Some x.

(** A [seqs_data_dict] as the staging pass builds it: distinct keys, and
    under each key distinct tokens that come from conforming names. *)
Definition valid_seqs (seqs : list (string * string * list string)) : Prop :=
  NoDup seqs.*1 ∧
  ∀ key toks, dict_get key seqs = Some toks →
    NoDup toks ∧ ∀ t, t ∈ toks → valid_member (key.1, t, key.2).

Section plans.

Variable now : datetime.

Definition tmp_name (x : string * string * string) : string :=
  x.1.1 +:+ "." +:+ (x.1.2 +:+ TEMP_SUFIX now) +:+ "." +:+ x.2.

Definition new_name (name : string) (frame_number length : Z) (ext : string) : string :=
  name +:+ "." +:+ Py.zfill (Py.str frame_number) length +:+ "." +:+ ext.

(** The renames of the staging pass, in order. *)
Definition stage_pairs (path : string)
    (st : list (string * (string * string * string))) : list (string * string) :=
  (λ fx, (full_path_of path fx.1, full_path_of path (tmp_name fx.2))) <$> st.

(** The renames of the inner loop for one sorted [img_list]. *)
Fixpoint num_pairs (path name ext : string) (length : Z)
    (img_list : list string) (frame_number : Z) : list (string * string) :=
  match img_list with
  | [] => []
  | number :: img_list' =>
      (full_path_of path (tmp_name (name, number, ext)),
       full_path_of path (new_name name frame_number length ext))
      :: num_pairs path name ext length img_list' (frame_number + 1)
  end.

(** The renames for one key of [seqs_data_dict]. *)
Definition seq_pairs (path : string) (start length : Z)
    (seqs : list (string * string * list string)) (key : string * string)
    : list (string * string) :=
  match dict_get key seqs with
  | Some img_list =>
      match Py.sort_key_int img_list with
      | Some sorted => num_pairs path key.1 key.2 length sorted start
      | None => []
      end
  | None => []
  end.

(** The renames of the whole numbering pass. *)
Definition renumber_pairs (path : string) (start length : Z)
    (seqs : list (string * string * list string)) (keys : list (string * string))
    : list (string * string) :=
  concat (seq_pairs path start length seqs <$> keys).

End plans.

(** *** Listings *)

(** [files] is what [os.listdir(path)] may return in world [w]: the entries
    of the directory, in some order. *)
Definition listing_of (w : World) (path : string) (files : list string) : Prop :=
  files ≡ₚ os_listdir w path.

(** No listed name embeds the temporary suffix of the run. *)
Definition no_temp_names (now : datetime) (files : list string) : Prop :=
  Forall (λ f, Py.contains (TEMP_SUFIX now) f = false) files.

(** The entry [file] of [path] is a regular file named [<name>.<number>.<ext>]
    with a numeric [<number>]. *)
Definition is_seq_file (w : World) (path file : string) : bool :=
  os_path_isfile w (full_path_of path file) &&
  match Py.split "." file with
  | [_; number; _] => Py.isnumeric number
  | _ => false
  end.




(** *** The [except] clause *)

(** The world after the three records of the [except] clause. *)
Definition logged_failure (path : string) (e : exn) (w : World) : World :=
  logger_error "Skipping directory..."
    (logger_error (exn_str e)
       (logger_error ("Error found renaming files on " +:+ path) w)).

(** *** States in which no recorded path is a directory *)

(** No current path recorded in [renaming_dict] is a directory. *)
Definition rd_ok (s : State) : Prop :=
  ∀ p, p ∈ renaming_dict s → nodes (world s) !! p.2 ≠ Some Dir.

(** No temporary path of a token held in [seqs_data_dict] is a directory. *)
Definition sd_ok (now : datetime) (path : string) (s : State) : Prop :=
  ∀ key toks t, (key, toks) ∈ seqs_data_dict s → t ∈ toks →
    nodes (world s) !! tmp_path_of now path key.1 t key.2 ≠ Some Dir.

(** *** Undisturbed runs *)

(** No coming call of [os.rename] is made to fail from outside. *)
Definition undisturbed (w : World) : Prop := Forall (λ b, b = false) (faults w).

(** *** Sorted frames *)

(** The pairs that [l.sort(key=int)] sorts. *)
Definition keyed (t : string) : Z * string := (default 0 (Py.int t), t).

(** The tokens of an already renumbered sequence, in order. *)
Definition frames (start width : Z) (n : nat) : list string :=
  (λ i : nat, Py.zfill (Py.str (start + Z.of_nat i)) width) <$> seq 0 n.

(** *** Exceptions and texts *)

(** An exception of [os.rename]. *)
Definition rename_exn (e : exn) : Prop :=
  e = FileNotFoundError ∨ e = IsADirectoryError ∨ e = PermissionError ∨ e = OSError.

(** The integers from [a] on, [n] of them. *)
Fixpoint zrange (n : nat) (a : Z) : list Z :=
  match n with
  | O => []
  | S n => a :: zrange n (a + 1)
  end.

(** A string of exactly four decimal digits. *)
Definition four_digits (s : string) : bool :=
  match s with
  | String a (String b (String c (String d EmptyString))) =>
      is_digit a && is_digit b && is_digit c && is_digit d
  | _ => false
  end.

(** ** Example runs *)

(** 5 February 2022, 13:45:10. *)
Definition t0 : datetime :=
  {| year := 2022; month := 2; day := 5; hour := 13; minute := 45; second := 10 |}.

(** A world with the given nodes and fault schedule, and nothing renamed or
    logged yet. *)
Definition world_of (l : list (string * node)) (f : list bool) : World :=
  {| nodes := list_to_map l; faults := f; renames := []; logged := [] |}.

(** Two sequences, one of them listed out of numeric order, and a file that
    does not follow the convention. *)
Definition frames_dir : World :=
  world_of [("d", Dir); ("d/a.9.png", File 9); ("d/a.10.png", File 10);
            ("d/a.2.png", File 2); ("d/b.7.jpg", File 7); ("d/readme.txt", File 100)] [].

(** The sequence [a.*.png] of [frames_dir] next to other entries. *)
Definition frames_dir' : World :=
  world_of [("d", Dir); ("d/a.9.png", File 19); ("d/a.10.png", File 110);
            ("d/a.2.png", File 12); ("d/c.5.exr", File 5); ("d/sub", Dir)] [].

(** Two frames and a subdirectory named like the second final name, on
    which the second rename of the numbering pass fails. *)
Definition two_frames_blocked : World :=
  world_of [("d", Dir); ("d/a.1.png", File 1); ("d/a.2.png", File 2);
            ("d/a.02.png", Dir)] [].

(** One frame, no failure. *)
Definition one_frame : World :=
  world_of [("d", Dir); ("d/a.1.png", File 1)] [].

(** Two frames; the second call of [os.rename], in the staging pass, fails. *)
Definition two_frames_fail_2nd : World :=
  world_of [("d", Dir); ("d/a.1.png", File 1); ("d/a.2.png", File 2)] [false; true].

(** Two directories; the second staging rename in the first one fails, and
    so does the reverse rename of the rollback. *)
Definition two_dirs_fail_rollback : World :=
  world_of [("d", Dir); ("d/a.1.png", File 1); ("d/a.2.png", File 2);
            ("e", Dir); ("e/b.1.png", File 3)] [false; true; true].

(** A directory with entries, none of which is a sequence member. *)
Definition no_members_dir : World :=
  world_of [("d", Dir); ("d/readme.txt", File 1); ("d/sub", Dir)] [].


(** The same, with a second frame whose staging rename fails. *)
Definition temp_named_dir_fail_2nd : World :=
  world_of [("d", Dir); ("d/a.1.png", File 1); ("d/a.2.png", File 2);
            ("d/a.1_tmp_22-02-05_13-45-10.png", File 3)] [false; true].

(** A frame next to a file whose middle part is a negative number. *)
Definition negative_name_dir : World :=
  world_of [("d", Dir); ("d/a.1.png", File 1); ("d/a.-1.png", File 2)] [].

(** Frames 9 and 2, listed in that order, and a subdirectory named like the
    frame that would follow. *)
Definition blocked_dir : World :=
  world_of [("d", Dir); ("d/a.9.png", File 9); ("d/a.2.png", File 2);
            ("d/a.10.png", Dir)] [].

(** Two tokens with the same integer value. *)
Definition equal_values_dir : World :=
  world_of [("d", Dir); ("d/a.1.png", File 1); ("d/a.01.png", File 2)] [].

(** The state in which the [try] block ends on [frames_dir]. *)
Definition frames_done : State :=
  state_of (renumber_try t0 "d" 1 2 (os_listdir frames_dir "d") frames_dir).

(** The state in which the [try] block ends on [frames_dir']. *)
Definition frames_done' : State :=
  state_of (renumber_try t0 "d" 1 2 (os_listdir frames_dir' "d") frames_dir').

(** The state in which the first loop stops on [two_frames_fail_2nd]. *)
Definition staging_stopped : State :=
  state_of (stage_loop t0 "d" (os_listdir two_frames_fail_2nd "d")
              {| world := two_frames_fail_2nd; renaming_dict := []; seqs_data_dict := [] |}).

(** A later time, for a second run: 5 February 2022, 14:00:00. *)
Definition t1 : datetime :=
  {| year := 2022; month := 2; day := 5; hour := 14; minute := 0; second := 0 |}.

(** The character SUPERSCRIPT TWO, which [isnumeric] accepts and [int]
    refuses. *)
Definition superscript_two : string := String (ascii_of_nat 178) EmptyString.

(** A frame next to a file numbered with a superscript. *)
Definition superscript_dir : World :=
  world_of [("d", Dir); ("d/a.1.png", File 1);
            ("d/a." +:+ superscript_two +:+ ".png", File 2)] [].

(** The state in which the [try] block ends on [frames_dir] when the
    directory is listed in the opposite order. *)
Definition frames_done_reversed : State :=
  state_of (renumber_try t0 "d" 1 2 (reverse (os_listdir frames_dir "d")) frames_dir).

(** The state in which a second run, at [t1], ends on the directory that
    the first run left. *)
Definition frames_done_again : State :=
  state_of (renumber_try t1 "d" 1 2 (os_listdir (world frames_done) "d") (world frames_done)).

(** The states in which the two loops stop on [two_frames_blocked]. *)
Definition blocked_staged : State :=
  state_of (stage_loop t0 "d" (os_listdir two_frames_blocked "d")
              {| world := two_frames_blocked; renaming_dict := []; seqs_data_dict := [] |}).

Definition blocked_stopped : State :=
  state_of (seqs_loop t0 "d" 1 2 (seqs_data_dict blocked_staged).*1 blocked_staged).

(** The state in which the [try] block ends on [equal_values_dir], listed
    with [a.1.png] first. *)
Definition equal_values_done : State :=
  state_of (renumber_try t0 "d" 1 2 ["a.1.png"; "a.01.png"] equal_values_dir).

(** One file of [one_frame] under its temporary name, and the dictionary
    that records the move. *)
Definition one_staged_dict : list (string * string) :=
  [("d/a.1.png", "d/a.1_tmp_22-02-05_13-45-10.png")].

Definition one_staged : World :=
  {| nodes := moved (nodes one_frame) one_staged_dict; faults := [];
     renames := []; logged := [] |}.

(** The state in which the [try] block stops on [superscript_dir]. *)
Definition superscript_stopped : State :=
  state_of (renumber_try t0 "d" 1 2 (os_listdir superscript_dir "d") superscript_dir).

(** The state in which the [try] block stops on [two_dirs_fail_rollback],
    and the world in which the rollback stops. *)
Definition rollback_starts : State :=
  state_of (renumber_try t0 "d" 1 2 (os_listdir two_dirs_fail_rollback "d")
              two_dirs_fail_rollback).

Definition rollback_stopped : World :=
  (restore_original_names (renaming_dict rollback_starts)
     (logged_failure "d" PermissionError (world rollback_starts))).1.

(** * Proofs *)
(** ** Facts about strings *)

Lemma string_app_nil_l (s : string) : EmptyString +:+ s = s.
Proof. reflexivity. Qed.

Lemma string_app_cons (c : ascii) (a b : string) :
  String c a +:+ b = String c (a +:+ b).
Proof. reflexivity. Qed.

(** Unfold [+:+] on a first argument that starts with a constructor. *)
Ltac sapp := rewrite ?string_app_cons, ?string_app_nil_l in *.

Lemma string_app_nil_r (s : string) : s +:+ EmptyString = s.
Proof. induction s as [|c s IH]; [done|]. sapp. by rewrite IH. Qed.

Lemma string_app_assoc (a b c : string) : (a +:+ b) +:+ c = a +:+ b +:+ c.
Proof. induction a as [|x a IH]; [done|]. sapp. by rewrite IH. Qed.

Lemma string_app_length (a b : string) :
  String.length (a +:+ b) = (String.length a + String.length b)%nat.
Proof. induction a as [|x a IH]; [done|]. sapp. cbn. by rewrite IH. Qed.

Lemma string_app_inv_tail (a b c : string) : a +:+ c = b +:+ c → a = b.
Proof.
  revert b. induction a as [|x a IH]; intros [|y b] H; [done|..]; sapp.
  - apply (f_equal String.length) in H. cbn in H.
    rewrite string_app_length in H. lia.
  - apply (f_equal String.length) in H. cbn in H.
    rewrite string_app_length in H. lia.
  - injection H as -> H. f_equal. by apply IH.
Qed.

Lemma all_chars_app (p : ascii → bool) (a b : string) :
  Py.all_chars p (a +:+ b) = Py.all_chars p a && Py.all_chars p b.
Proof.
  induction a as [|x a IH]; [done|]. sapp. cbn. rewrite IH. by rewrite andb_assoc.
Qed.

Lemma all_chars_impl (p q : ascii → bool) (s : string) :
  (∀ c, p c = true → q c = true) →
  Py.all_chars p s = true → Py.all_chars q s = true.
Proof.
  intros Hpq. induction s as [|x s IH]; [done|]. cbn.
  intros [Hx Hs]%andb_true_iff. rewrite (Hpq _ Hx). by apply IH.
Qed.

Lemma nochar_app c a b : nochar c (a +:+ b) = nochar c a && nochar c b.
Proof. apply all_chars_app. Qed.

Lemma all_chars_nochar p c s :
  p c = false → Py.all_chars p s = true → nochar c s = true.
Proof.
  intros Hc. apply all_chars_impl. intros x Hx.
  apply bool_decide_eq_true. intros ->. congruence.
Qed.

Lemma contains_char c s : Py.contains (String c EmptyString) s = negb (nochar c s).
Proof.
  induction s as [|x s IH]; [done|]. cbn. rewrite IH.
  destruct (decide (c = x)) as [->|Hne].
  - rewrite bool_decide_eq_false_2 by tauto. by destruct s.
  - rewrite bool_decide_eq_true_2 by congruence. done.
Qed.

Lemma startswith_app p s : Py.startswith p (p +:+ s) = true.
Proof. induction p as [|x p IH]; [by destruct s|]. sapp. cbn. by rewrite decide_True. Qed.

Lemma contains_startswith p s : Py.startswith p s = true → Py.contains p s = true.
Proof. intros H. destruct s; cbn; by rewrite H. Qed.

Lemma contains_app p a b : Py.contains p (a +:+ p +:+ b) = true.
Proof.
  induction a as [|x a IH].
  - sapp. apply contains_startswith, startswith_app.
  - sapp. cbn. rewrite IH. apply orb_true_r.
Qed.

Lemma strip_prefix_app p s : strip_prefix p (p +:+ s) = Some s.
Proof. induction p as [|x p IH]; [by destruct s|]. sapp. cbn. by rewrite decide_True. Qed.

Lemma strip_prefix_Some p s r : strip_prefix p s = Some r → s = p +:+ r.
Proof.
  revert s. induction p as [|x p IH]; intros s; cbn.
  - by intros [= ->].
  - destruct s as [|y s]; [done|].
    destruct (decide (x = y)) as [->|]; [|done]. intros ?%IH. by subst.
Qed.

(** *** [split] *)

Lemma split_nonempty sep s : Py.split sep s ≠ [].
Proof.
  destruct s as [|c s]; [done|]. cbn.
  destruct (decide (c = sep)); [done|]. by destruct (Py.split sep s).
Qed.

Lemma split_app sep a b :
  Py.split sep (a +:+ String sep b) = Py.split sep a ++ Py.split sep b.
Proof.
  induction a as [|c a IH]; sapp; cbn.
  - by rewrite decide_True.
  - destruct (decide (c = sep)); [by rewrite IH|].
    rewrite IH. pose proof (split_nonempty sep a).
    by destruct (Py.split sep a).
Qed.

Lemma split_nochar sep s : nochar sep s = true → Py.split sep s = [s].
Proof.
  induction s as [|c s IH]; [done|]. cbn.
  intros [Hc Hs]%andb_true_iff. apply bool_decide_eq_true in Hc.
  rewrite decide_False by done. by rewrite IH.
Qed.

Lemma split_pieces sep s : Forall (λ x, nochar sep x = true) (Py.split sep s).
Proof.
  induction s as [|c s IH]; cbn; [by repeat constructor|].
  destruct (decide (c = sep)); [by constructor|].
  destruct (Py.split sep s) as [|h t]; [by repeat constructor; cbn; rewrite ?bool_decide_eq_true_2|].
  inversion IH; subst. constructor; [|done]. cbn.
  rewrite bool_decide_eq_true_2 by done. done.
Qed.

Lemma join_split sep s : join sep (Py.split sep s) = s.
Proof.
  induction s as [|c s IH]; [done|]. cbn.
  destruct (decide (c = sep)) as [->|Hne].
  - pose proof (split_nonempty sep s).
    destruct (Py.split sep s) eqn:E; [done|]. cbn in *. by rewrite IH.
  - destruct (Py.split sep s) as [|h [|h' t]] eqn:E; cbn in *; sapp; congruence.
Qed.

Lemma split_three sep a b c :
  nochar sep a = true → nochar sep b = true → nochar sep c = true →
  Py.split sep (a +:+ String sep (b +:+ String sep c)) = [a; b; c].
Proof.
  intros Ha Hb Hc. rewrite !split_app. by rewrite !split_nochar.
Qed.

Lemma split_three_inv sep s a b c :
  Py.split sep s = [a; b; c] →
  s = a +:+ String sep (b +:+ String sep c) ∧
  nochar sep a = true ∧ nochar sep b = true ∧ nochar sep c = true.
Proof.
  intros H. pose proof (join_split sep s) as Hj. pose proof (split_pieces sep s) as Hp.
  rewrite H in Hj, Hp. cbn in Hj.
  apply Forall_cons in Hp as [Ha Hp]. apply Forall_cons in Hp as [Hb Hp].
  apply Forall_cons in Hp as [Hc _]. done.
Qed.
(** ** Facts about numbers and their decimal form *)

Lemma is_digit_numeric c : is_digit c = true → Py.numeric_char c = true.
Proof. unfold is_digit, Py.numeric_char. cbn. intros ->. done. Qed.

Lemma string_of_uint_digits d : Py.all_chars is_digit (NilEmpty.string_of_uint d) = true.
Proof. induction d; cbn; done. Qed.

Lemma udigits_nonnil n : udigits n ≠ Nil.
Proof. destruct n; cbn; [done|apply DecimalPos.Unsigned.to_uint_nonnil..]. Qed.

Lemma udigits_value n : Z.of_uint (udigits n) = Z.abs n.
Proof.
  destruct n as [|p|p]; cbn; [done|..];
    unfold Z.of_uint; by rewrite DecimalPos.Unsigned.of_to.
Qed.

Lemma string_of_uint_nonnil d :
  d ≠ Nil → NilZero.string_of_uint d = NilEmpty.string_of_uint d.
Proof. by destruct d. Qed.

Lemma string_of_uint_nonempty d :
  d ≠ Nil → ∃ c r, NilEmpty.string_of_uint d = String c r ∧ is_digit c = true.
Proof. destruct d; [done|..]; intros _; cbn; eauto. Qed.

Lemma str_nonneg n :
  0 ≤ n → Py.str n = NilEmpty.string_of_uint (udigits n).
Proof.
  intros Hn. destruct n as [|p|p]; [done| |lia].
  unfold Py.str. cbn. apply string_of_uint_nonnil, DecimalPos.Unsigned.to_uint_nonnil.
Qed.

Lemma str_neg n :
  n < 0 → Py.str n = String "-" (NilEmpty.string_of_uint (udigits n)).
Proof.
  intros Hn. destruct n as [|p|p]; [lia|lia|].
  unfold Py.str. cbn. f_equal.
  apply string_of_uint_nonnil, DecimalPos.Unsigned.to_uint_nonnil.
Qed.

Lemma zeros_app_length k s :
  String.length (Py.zeros k +:+ s) = (k + String.length s)%nat.
Proof. induction k as [|k IH]; [done|]. cbn. sapp. cbn. by rewrite IH. Qed.

Lemma zeros_digits k : Py.all_chars is_digit (Py.zeros k) = true.
Proof. induction k; cbn; done. Qed.

Lemma uint_of_string_zeros k d :
  NilEmpty.uint_of_string (Py.zeros k +:+ NilEmpty.string_of_uint d)
  = Some (Nat.iter k D0 d).
Proof.
  induction k as [|k IH]; sapp; cbn.
  - apply NilEmpty.usu.
  - sapp. cbn. by rewrite IH.
Qed.

Lemma of_uint_zeros k d : Z.of_uint (Nat.iter k D0 d) = Z.of_uint d.
Proof. induction k as [|k IH]; [done|]. cbn. exact IH. Qed.

Lemma int_zeros k d :
  d ≠ Nil →
  Py.int (Py.zeros k +:+ NilEmpty.string_of_uint d) = Some (Z.of_uint d).
Proof.
  intros Hd. unfold Py.int, NilZero.uint_of_string.
  pose proof (uint_of_string_zeros k d) as E.
  destruct (Py.zeros k +:+ NilEmpty.string_of_uint d) eqn:Es.
  - destruct k; sapp; [by destruct d|done].
  - rewrite E. by rewrite of_uint_zeros.
Qed.

(** The shape of a frame string. *)
Lemma zfill_str_nonneg n width :
  0 ≤ n →
  let s := NilEmpty.string_of_uint (udigits n) in
  Py.zfill (Py.str n) width
  = Py.zeros (Z.to_nat (width - Z.of_nat (String.length s))) +:+ s.
Proof.
  intros Hn s. rewrite str_nonneg by done. fold s. unfold Py.zfill.
  destruct (Z.leb_spec width (Z.of_nat (String.length s))) as [Hle|Hgt].
  - replace (Z.to_nat _) with O by lia. done.
  - destruct (string_of_uint_nonempty (udigits n) (udigits_nonnil n)) as (c & r & E & Hc).
    fold s in E. rewrite E. rewrite decide_False; [done|].
    intros [->| ->]; done.
Qed.

Lemma zfill_str_neg n width :
  n < 0 →
  let s := NilEmpty.string_of_uint (udigits n) in
  Py.zfill (Py.str n) width
  = String "-" (Py.zeros (Z.to_nat (width - Z.of_nat (S (String.length s)))) +:+ s).
Proof.
  intros Hn s. rewrite str_neg by done. fold s. unfold Py.zfill.
  change (String.length (String "-" s)) with (S (String.length s)).
  destruct (Z.leb_spec width (Z.of_nat (S (String.length s)))) as [Hle|Hgt].
  - replace (Z.to_nat _) with O by lia. done.
  - rewrite decide_True by auto. done.
Qed.

Lemma int_zfill_str n width : 0 ≤ n → Py.int (Py.zfill (Py.str n) width) = Some n.
Proof.
  intros Hn. rewrite zfill_str_nonneg by done. cbn.
  rewrite int_zeros by apply udigits_nonnil. rewrite udigits_value. f_equal. lia.
Qed.

Lemma frame_value_zfill_str n width :
  frame_value (Py.zfill (Py.str n) width) = Some n.
Proof.
  destruct (Z.lt_ge_cases n 0) as [Hn|Hn].
  - rewrite zfill_str_neg by done. cbn.
    rewrite int_zeros by apply udigits_nonnil. cbn.
    rewrite udigits_value. f_equal. lia.
  - pose proof (int_zfill_str n width Hn) as E.
    assert (Py.all_chars is_digit (Py.zfill (Py.str n) width) = true) as Hd.
    { rewrite zfill_str_nonneg by done. cbn. rewrite all_chars_app.
      by rewrite zeros_digits, string_of_uint_digits. }
    destruct (Py.zfill (Py.str n) width) as [|c r]; [done|]. cbn.
    destruct (decide (c = "-"%char)) as [->|]; [done|]. done.
Qed.

Lemma zfill_str_inj a b width :
  Py.zfill (Py.str a) width = Py.zfill (Py.str b) width → a = b.
Proof.
  intros E. pose proof (frame_value_zfill_str a width) as Ha.
  rewrite E, frame_value_zfill_str in Ha. congruence.
Qed.

Lemma zfill_str_chars n width :
  Py.all_chars digit_or_minus (Py.zfill (Py.str n) width) = true.
Proof.
  assert (∀ s, Py.all_chars is_digit s = true → Py.all_chars digit_or_minus s = true) as Himp.
  { intros s. apply all_chars_impl. intros c Hc. unfold digit_or_minus. by rewrite Hc. }
  destruct (Z.lt_ge_cases n 0) as [Hn|Hn].
  - rewrite zfill_str_neg by done. cbn. apply Himp.
    rewrite all_chars_app. by rewrite zeros_digits, string_of_uint_digits.
  - rewrite zfill_str_nonneg by done. cbn. apply Himp.
    rewrite all_chars_app. by rewrite zeros_digits, string_of_uint_digits.
Qed.

Lemma zfill_str_digits n width :
  0 ≤ n → Py.all_chars is_digit (Py.zfill (Py.str n) width) = true.
Proof.
  intros Hn. rewrite zfill_str_nonneg by done. cbn.
  rewrite all_chars_app. by rewrite zeros_digits, string_of_uint_digits.
Qed.

Lemma zfill_length s width :
  Z.of_nat (String.length (Py.zfill s width)) = Z.max width (Z.of_nat (String.length s)).
Proof.
  unfold Py.zfill. destruct (Z.leb_spec width (Z.of_nat (String.length s))) as [Hle|Hgt].
  { lia. }
  destruct s as [|c r]; [|destruct (decide _)].
  - pose proof (zeros_app_length (Z.to_nat (width - Z.of_nat (String.length EmptyString)))
                  EmptyString) as E.
    rewrite string_app_nil_r in E. rewrite E. cbn in *. lia.
  - cbn [String.length] in *. rewrite zeros_app_length. lia.
  - rewrite zeros_app_length. cbn [String.length] in *. lia.
Qed.

Lemma isnumeric_digits s :
  s ≠ EmptyString → Py.all_chars is_digit s = true → Py.isnumeric s = true.
Proof.
  intros Hs Hd. destruct s; [done|]. unfold Py.isnumeric.
  revert Hd. apply all_chars_impl, is_digit_numeric.
Qed.

Lemma zfill_str_isnumeric n width :
  0 ≤ n → Py.isnumeric (Py.zfill (Py.str n) width) = true.
Proof.
  intros Hn. apply isnumeric_digits; [|by apply zfill_str_digits].
  intros E. pose proof (int_zfill_str n width Hn) as H. by rewrite E in H.
Qed.
(** ** Facts about dictionaries *)

Section dict_facts.
Context {K V : Type} `{EqDecision K}.
Implicit Types (d : list (K * V)) (k : K) (v : V).

Lemma dict_get_set_eq k v d : dict_get k (dict_set k v d) = Some v.
Proof.
  induction d as [|[k' v'] d IH]; cbn; [by rewrite decide_True|].
  destruct (decide (k = k')) as [->|Hne]; cbn.
  - by rewrite decide_True.
  - by rewrite decide_False.
Qed.

Lemma dict_get_set_ne k k' v d : k ≠ k' → dict_get k (dict_set k' v d) = dict_get k d.
Proof.
  intros Hne. induction d as [|[k'' v''] d IH]; cbn; [by rewrite decide_False|].
  destruct (decide (k' = k'')) as [->|Hne']; cbn.
  - by rewrite !decide_False.
  - destruct (decide (k = k'')); done.
Qed.

Lemma dict_get_None k d : dict_get k d = None ↔ k ∉ d.*1.
Proof.
  induction d as [|[k' v'] d IH]; cbn; [split; [intros _; apply not_elem_of_nil|done]|].
  rewrite not_elem_of_cons. destruct (decide (k = k')); [split; [done|tauto]|].
  rewrite IH. tauto.
Qed.

Lemma dict_get_Some k v d : dict_get k d = Some v → (k, v) ∈ d.
Proof.
  induction d as [|[k' v'] d IH]; cbn; [done|].
  destruct (decide (k = k')) as [->|]; [intros [= ->]; left|right; auto].
Qed.

Lemma dict_get_elem k v d : NoDup d.*1 → (k, v) ∈ d → dict_get k d = Some v.
Proof.
  induction d as [|[k' v'] d IH]; cbn; [by intros _ ?%elem_of_nil|].
  intros [Hk Hd]%NoDup_cons [[= -> ->]|Hin]%elem_of_cons.
  - by rewrite decide_True.
  - rewrite decide_False; [auto|]. intros ->. apply Hk.
    apply list_elem_of_fmap. by exists (k', v).
Qed.

Lemma dict_set_fresh k v d : k ∉ d.*1 → dict_set k v d = d ++ [(k, v)].
Proof.
  induction d as [|[k' v'] d IH]; cbn; [done|].
  intros [Hne Hd]%not_elem_of_cons. rewrite decide_False by done. by rewrite IH.
Qed.

Lemma dict_set_keys k v d : k ∈ d.*1 → (dict_set k v d).*1 = d.*1.
Proof.
  induction d as [|[k' v'] d IH]; cbn; [by intros ?%elem_of_nil|].
  destruct (decide (k = k')) as [->|Hne]; [done|].
  intros [?|Hin]%elem_of_cons; [done|]. cbn. by rewrite IH.
Qed.

End dict_facts.

(** ** Sequences of renames *)

Lemma os_rename_Some src dst w w' e :
  os_rename src dst w = (w', Some e) →
  nodes w' = nodes w ∧ renames w' = renames w ∧ logged w' = logged w.
Proof.
  unfold os_rename. intros H.
  repeat (case_match; simplify_eq/=); done.
Qed.

Lemma os_rename_None src dst w w' :
  os_rename src dst w = (w', None) →
  (∃ i, nodes w !! src = Some (File i)) ∧ nodes w !! dst ≠ Some Dir ∧
  nodes w' = mv (nodes w) (src, dst) ∧
  renames w' = renames w ++ [{| ev_src := src; ev_dst := dst; ev_replaced := nodes w !! dst |}] ∧
  logged w' = logged w.
Proof.
  unfold os_rename, mv. intros H.
  repeat (case_match; simplify_eq/=); repeat split; eauto; congruence.
Qed.

Lemma moved_app m ps qs : moved m (ps ++ qs) = moved (moved m ps) qs.
Proof. apply foldl_app. Qed.

Lemma events_app m ps qs : events m (ps ++ qs) = events m ps ++ events (moved m ps) qs.
Proof. revert m. induction ps as [|p ps IH]; intros m; cbn; [done|]. by rewrite IH. Qed.

Lemma performed_app m ps qs :
  performed m (ps ++ qs) ↔ performed m ps ∧ performed (moved m ps) qs.
Proof.
  revert m. induction ps as [|p ps IH]; intros m; cbn; [tauto|].
  rewrite IH. tauto.
Qed.

Lemma trace_nil s s' :
  nodes (world s') = nodes (world s) → renames (world s') = renames (world s) →
  logged (world s') = logged (world s) → renaming_dict s' = renaming_dict s →
  trace s s' [].
Proof. intros. unfold trace. cbn. by rewrite app_nil_r. Qed.

Lemma trace_app s s1 s2 ps qs :
  trace s s1 ps → trace s1 s2 qs → trace s s2 (ps ++ qs).
Proof.
  intros (Hp & Hn & Hr & Hl & Hd) (Hp' & Hn' & Hr' & Hl' & Hd').
  unfold trace. rewrite performed_app, moved_app, events_app, foldl_app.
  rewrite <- Hn, <- Hd. repeat split; try done; try congruence.
  rewrite Hr', Hr. by rewrite app_assoc.
Qed.

(** *** Where the nodes are after a sequence of renames *)

Lemma mv_lookup_ne m p k : k ≠ p.1 → k ≠ p.2 → mv m p !! k = m !! k.
Proof.
  intros H1 H2. unfold mv. destruct (m !! p.1); [|done].
  rewrite lookup_insert_ne by done. by rewrite lookup_delete_ne.
Qed.

Lemma mv_lookup_src m p : p.1 ≠ p.2 → mv m p !! p.1 = None.
Proof.
  intros Hne. unfold mv. destruct (m !! p.1) eqn:E; [|done].
  rewrite lookup_insert_ne by done. by rewrite lookup_delete_eq.
Qed.

Lemma mv_lookup_dst m p : is_Some (m !! p.1) → mv m p !! p.2 = m !! p.1.
Proof. intros [n E]. unfold mv. rewrite E. by rewrite lookup_insert_eq. Qed.

Lemma moved_lookup_ne m ps k : k ∉ ps.*1 → k ∉ ps.*2 → moved m ps !! k = m !! k.
Proof.
  revert m. induction ps as [|p ps IH]; intros m; cbn; [done|].
  intros [? ?]%not_elem_of_cons [? ?]%not_elem_of_cons.
  unfold moved in *. rewrite IH by done. by apply mv_lookup_ne.
Qed.

Lemma distinct_moves_cons p ps :
  distinct_moves (p :: ps) →
  distinct_moves ps ∧ p.1 ≠ p.2 ∧ (p.1 ∉ ps.*1) ∧ (p.1 ∉ ps.*2) ∧
  (p.2 ∉ ps.*1) ∧ (p.2 ∉ ps.*2).
Proof.
  intros (Hs & Hd & Hsep). cbn in *.
  apply NoDup_cons in Hs as [Hs1 Hs]. apply NoDup_cons in Hd as [Hd1 Hd].
  repeat split; try done.
  - intros a Ha. specialize (Hsep a (list_elem_of_further _ _ _ Ha)).
    by apply not_elem_of_cons in Hsep as [_ ?].
  - intros E. apply (Hsep p.1); [left|rewrite E; left].
  - specialize (Hsep p.1 (list_elem_of_here _ _)).
    by apply not_elem_of_cons in Hsep as [_ ?].
  - intros Hin. specialize (Hsep p.2 (list_elem_of_further _ _ _ Hin)).
    apply Hsep. left.
Qed.

Lemma distinct_moves_app ps qs :
  distinct_moves (ps ++ qs) → distinct_moves ps ∧ distinct_moves qs.
Proof.
  intros (Hs & Hd & Hsep). rewrite !fmap_app in *.
  apply NoDup_app in Hs as (Hs1 & _ & Hs2). apply NoDup_app in Hd as (Hd1 & _ & Hd2).
  split; (split; [done|split; [done|]]); intros a Ha.
  - specialize (Hsep a). rewrite elem_of_app, not_elem_of_app in Hsep. tauto.
  - specialize (Hsep a). rewrite elem_of_app, not_elem_of_app in Hsep. tauto.
Qed.

Lemma moved_lookup_src m ps a :
  distinct_moves ps → a ∈ ps.*1 → moved m ps !! a = None.
Proof.
  revert m. induction ps as [|p ps IH]; intros m Hd; cbn; [by intros ?%elem_of_nil|].
  apply distinct_moves_cons in Hd as (Hd & Hne & H11 & H12 & H21 & H22).
  intros [->|Hin]%elem_of_cons.
  - change (moved (mv m p) ps !! p.1 = None).
    rewrite moved_lookup_ne by done. by apply mv_lookup_src.
  - by apply IH.
Qed.

Lemma moved_lookup_dst m ps a b :
  distinct_moves ps → (a, b) ∈ ps → is_Some (m !! a) → moved m ps !! b = m !! a.
Proof.
  revert m. induction ps as [|p ps IH]; intros m Hd; cbn; [by intros ?%elem_of_nil|].
  apply distinct_moves_cons in Hd as (Hd & Hne & H11 & H12 & H21 & H22).
  intros [<-|Hin]%elem_of_cons Hsome; [change (moved (mv m (a, b)) ps !! b = m !! a)|change (moved (mv m p) ps !! b = m !! a)].
  - cbn in *. rewrite moved_lookup_ne by done. by apply (mv_lookup_dst m (a, b)).
  - assert (a ∈ ps.*1) by (apply list_elem_of_fmap; by exists (a, b)).
    assert (a ∈ ps.*2 → False).
    { destruct Hd as (_ & _ & Hsep). by apply Hsep. }
    assert (mv m p !! a = m !! a) as E.
    { apply mv_lookup_ne; intros ->; tauto. }
    rewrite (IH (mv m p)); [done|done|done|by rewrite E].
Qed.

Lemma events_distinct m ps :
  distinct_moves ps →
  events m ps = (λ p, {| ev_src := p.1; ev_dst := p.2; ev_replaced := m !! p.2 |}) <$> ps.
Proof.
  revert m. induction ps as [|p ps IH]; intros m Hd; cbn; [done|].
  apply distinct_moves_cons in Hd as (Hd & Hne & H11 & H12 & H21 & H22).
  f_equal. rewrite IH by done. apply list_fmap_ext. intros i q Hq.
  assert (q.2 ∈ ps.*2) as Hq2.
  { apply list_elem_of_fmap. exists q. split; [done|]. by eapply list_elem_of_lookup_2. }
  assert (q.2 ∉ ps.*1) as Hq1.
  { destruct Hd as (_ & _ & Hsep). intros ?. by eapply Hsep. }
  f_equal. apply mv_lookup_ne; intros E; rewrite E in *; tauto.
Qed.

Lemma performed_distinct m ps p :
  distinct_moves ps → performed m ps → p ∈ ps →
  (∃ i, m !! p.1 = Some (File i)) ∧ m !! p.2 ≠ Some Dir.
Proof.
  revert m. induction ps as [|q ps IH]; intros m Hd; cbn; [by intros _ ?%elem_of_nil|].
  apply distinct_moves_cons in Hd as (Hd & Hne & H11 & H12 & H21 & H22).
  intros (Hsrc & Hdst & Hp) [->|Hin]%elem_of_cons; [done|].
  destruct (IH _ Hd Hp Hin) as [Hs Ht].
  assert (p.1 ∈ ps.*1) by (by apply list_elem_of_fmap_2).
  assert (p.2 ∈ ps.*2) by (by apply list_elem_of_fmap_2).
  assert (p.1 ∉ ps.*2) by (destruct Hd as (_ & _ & Hsep); by apply Hsep).
  assert (p.2 ∉ ps.*1) by (destruct Hd as (_ & _ & Hsep); intros ?; by eapply Hsep).
  rewrite mv_lookup_ne in Hs by (intros E; rewrite E in *; tauto).
  rewrite mv_lookup_ne in Ht by (intros E; rewrite E in *; tauto).
  done.
Qed.

(** ** The staging pass *)

Lemma digit_is_digit n : is_digit (digit n) = true.
Proof.
  unfold digit. pose proof (Nat.mod_upper_bound n 10 ltac:(lia)) as H.
  destruct (n mod 10)%nat as [|[|[|[|[|[|[|[|[|[|k]]]]]]]]]]; try reflexivity. lia.
Qed.

Lemma two_digits_chars n : Py.all_chars suffix_char (two_digits n) = true.
Proof. unfold two_digits. cbn. unfold suffix_char. by rewrite !digit_is_digit. Qed.

Lemma suffix_chars now : Py.all_chars suffix_char (TEMP_SUFIX now) = true.
Proof.
  unfold TEMP_SUFIX, DATE, strftime.
  rewrite !all_chars_app, !two_digits_chars. reflexivity.
Qed.

Lemma suffix_head now : ∃ r, TEMP_SUFIX now = String "_" r.
Proof. unfold TEMP_SUFIX. sapp. eauto. Qed.

Lemma suffix_nochar now c : suffix_char c = false → nochar c (TEMP_SUFIX now) = true.
Proof. intros Hc. eapply all_chars_nochar; [done|apply suffix_chars]. Qed.

Lemma isnumeric_all s : Py.isnumeric s = true → Py.all_chars Py.numeric_char s = true.
Proof. by destruct s. Qed.

Lemma isnumeric_nochar c s :
  Py.numeric_char c = false → Py.isnumeric s = true → nochar c s = true.
Proof. intros Hc Hs. eapply all_chars_nochar; [done|by apply isnumeric_all]. Qed.

(** A frame token followed by the temporary suffix is not numeric. *)
Lemma isnumeric_suffixed now t : Py.isnumeric (t +:+ TEMP_SUFIX now) = false.
Proof.
  destruct (Py.isnumeric _) eqn:E; [|done].
  apply isnumeric_all in E. rewrite all_chars_app in E.
  destruct (suffix_head now) as [r Hr]. rewrite Hr in E. cbn in E.
  by rewrite andb_false_r in E.
Qed.

Lemma parse_seq_Some file x :
  parse_seq file = Some x →
  file = x.1.1 +:+ "." +:+ x.1.2 +:+ "." +:+ x.2 ∧
  nochar "." x.1.1 = true ∧ nochar "." x.1.2 = true ∧ nochar "." x.2 = true ∧
  Py.isnumeric x.1.2 = true.
Proof.
  unfold parse_seq. intros H.
  destruct (Py.split "." file) as [|a [|b [|c [|? ?]]]] eqn:E; try done.
  destruct (Py.isnumeric b) eqn:Hb; [|done]. injection H as <-. cbn.
  apply split_three_inv in E as (-> & ? & ? & ?). done.
Qed.

Lemma parse_seq_join n t e :
  nochar "." n = true → nochar "." e = true → Py.isnumeric t = true →
  parse_seq (n +:+ "." +:+ t +:+ "." +:+ e) = Some (n, t, e).
Proof.
  intros Hn He Ht. unfold parse_seq.
  change (n +:+ "." +:+ t +:+ "." +:+ e) with (n +:+ String "." (t +:+ String "." e)).
  rewrite split_three; [by rewrite Ht|done| |done].
  by apply isnumeric_nochar.
Qed.

Lemma parse_seq_inj f f' x : parse_seq f = Some x → parse_seq f' = Some x → f = f'.
Proof. intros (-> & _)%parse_seq_Some (-> & _)%parse_seq_Some. done. Qed.

Section stage_facts.
Variable now : datetime.

Lemma tmp_path_of_name path x :
  tmp_path_of now path x.1.1 x.1.2 x.2 = full_path_of path (tmp_name now x).
Proof. reflexivity. Qed.

Lemma new_path_of_name path name k width ext :
  new_path_of path name k width ext = full_path_of path (new_name name k width ext).
Proof. reflexivity. Qed.

Lemma full_path_of_inj path f f' : full_path_of path f = full_path_of path f' → f = f'.
Proof. unfold full_path_of. intros H. by do 2 apply String.app_inj in H. Qed.

Lemma split_tmp_name f x :
  parse_seq f = Some x →
  Py.split "." (tmp_name now x) = [x.1.1; x.1.2 +:+ TEMP_SUFIX now; x.2].
Proof.
  intros (_ & Hn & Ht & He & _)%parse_seq_Some. unfold tmp_name.
  apply split_three; [done| |done].
  rewrite nochar_app, Ht. by rewrite suffix_nochar.
Qed.

Lemma parse_tmp_name f x : parse_seq f = Some x → parse_seq (tmp_name now x) = None.
Proof.
  intros H. unfold parse_seq. rewrite (split_tmp_name f) by done.
  by rewrite isnumeric_suffixed.
Qed.

Lemma tmp_name_inj f f' x x' :
  parse_seq f = Some x → parse_seq f' = Some x' →
  tmp_name now x = tmp_name now x' → x = x'.
Proof.
  intros H H' E. pose proof (split_tmp_name f x H) as S1.
  rewrite E, (split_tmp_name f' x' H') in S1.
  injection S1 as E1 E2 E3. apply string_app_inv_tail in E2.
  destruct x as [[? ?] ?], x' as [[? ?] ?]; cbn in *. congruence.
Qed.

Lemma stage_file_cases path file s :
  stage_file now path file s =
  match seq_member (nodes (world s)) path file with
  | None => Done s
  | Some x =>
      match os_rename (full_path_of path file) (full_path_of path (tmp_name now x)) (world s) with
      | (w', Some e) =>
          Raised e {| world := w'; renaming_dict := renaming_dict s;
                      seqs_data_dict := add_token (seqs_data_dict s) x |}
      | (w', None) =>
          Done {| world := w';
                  renaming_dict := dict_set (full_path_of path file)
                                     (full_path_of path (tmp_name now x)) (renaming_dict s);
                  seqs_data_dict := add_token (seqs_data_dict s) x |}
      end
  end.
Proof.
  unfold stage_file, seq_member, os_path_isfile, parse_seq, full_path_of.
  destruct (nodes (world s) !! (path +:+ "/" +:+ file)) as [[i|]|]; cbn; try done.
  destruct (Py.split "." file) as [|a [|b [|c [|? ?]]]]; try done.
  destruct (Py.isnumeric b); cbn; [|done].
  unfold add_token; cbn. done.
Qed.

Lemma seq_member_Some m path f x :
  seq_member m path f = Some x →
  (∃ i, m !! full_path_of path f = Some (File i)) ∧ parse_seq f = Some x.
Proof.
  unfold seq_member, full_path_of. destruct (m !! _) as [[i|]|]; try done. eauto.
Qed.

(** Staging one member does not change what the other entries are. *)
Lemma seq_member_mv m path f x f' :
  parse_seq f = Some x → f' ≠ f →
  seq_member (mv m (full_path_of path f, full_path_of path (tmp_name now x))) path f'
  = seq_member m path f'.
Proof.
  intros Hx Hne. unfold seq_member. fold (full_path_of path f').
  destruct (parse_seq f') as [x'|] eqn:E.
  - rewrite mv_lookup_ne; [done|..]; cbn; intros ?%full_path_of_inj; subst; [done|].
    rewrite (parse_tmp_name f x) in E; done.
  - by repeat case_match.
Qed.

Lemma staged_mv m path f x files :
  parse_seq f = Some x → f ∉ files →
  staged (mv m (full_path_of path f, full_path_of path (tmp_name now x))) path files
  = staged m path files.
Proof.
  intros Hx. induction files as [|f' files IH]; [done|].
  intros [? ?]%not_elem_of_cons. unfold staged in *. cbn.
  rewrite seq_member_mv by done. by rewrite IH.
Qed.

Lemma staged_cons_Some m path f x files :
  seq_member m path f = Some x → staged m path (f :: files) = (f, x) :: staged m path files.
Proof. intros E. unfold staged. cbn. by rewrite E. Qed.

Lemma staged_cons_None m path f files :
  seq_member m path f = None → staged m path (f :: files) = staged m path files.
Proof. intros E. unfold staged. cbn. by rewrite E. Qed.

Lemma stage_loop_trace path files s o :
  NoDup files → stage_loop now path files s = o →
  ∃ pre post, files = pre ++ post ∧ (is_done o → post = []) ∧
    trace s (state_of o) (stage_pairs now path (staged (nodes (world s)) path pre)) ∧
    (is_done o →
     seqs_data_dict (state_of o)
     = foldl add_token (seqs_data_dict s) (staged (nodes (world s)) path files).*2).
Proof.
  revert s o. induction files as [|f files IH]; intros s o Hnd; cbn [stage_loop].
  { intros <-. exists [], []. split; [done|]. split; [done|]. split; [|done].
    by apply trace_nil. }
  apply NoDup_cons in Hnd as [Hf Hnd]. rewrite stage_file_cases.
  destruct (seq_member (nodes (world s)) path f) as [x|] eqn:Ex.
  - apply seq_member_Some in Ex as Ex'. destruct Ex' as [_ Hx].
    destruct (os_rename _ _ (world s)) as [w' [e|]] eqn:Er.
    + intros <-. exists [], (f :: files). split; [done|]. split; [done|].
      split; [|done]. apply os_rename_Some in Er as (? & ? & ?). by apply trace_nil.
    + intros Ho. apply os_rename_None in Er as (Hsrc & Hdst & Hn & Hr & Hl).
      destruct (IH _ _ Hnd Ho) as (pre & post & -> & Hpost & Htr & Hsd).
      cbn in Htr, Hsd.
      apply not_elem_of_app in Hf as [Hf1 Hf2].
      exists (f :: pre), post. split; [done|]. split; [done|]. split.
      * rewrite (staged_cons_Some _ _ _ x) by done.
        change (trace s (state_of o)
          ([(full_path_of path f, full_path_of path (tmp_name now x))] ++
           stage_pairs now path (staged (nodes (world s)) path pre))).
        eapply trace_app; [|rewrite Hn in Htr; rewrite staged_mv in Htr by done; exact Htr].
        unfold trace; cbn. rewrite Hn, Hr, Hl. repeat split; try done.
      * intros Hd. rewrite (Hsd Hd), Hn.
        rewrite staged_mv by (done || (rewrite not_elem_of_app; done)).
        by rewrite (staged_cons_Some _ _ _ x).
  - intros Ho. destruct (IH _ _ Hnd Ho) as (pre & post & -> & Hpost & Htr & Hsd).
    exists (f :: pre), post. split; [done|]. split; [done|].
    by rewrite !staged_cons_None.
Qed.
End stage_facts.

(** ** The numbering pass *)

Section numbering.
Variable now : datetime.

Lemma number_loop_trace path name ext width toks k s o :
  number_loop now path name ext width toks k s = o →
  ∃ pre post, toks = pre ++ post ∧ (is_done o → post = []) ∧
    trace s (state_of o) (num_pairs now path name ext width pre k) ∧
    seqs_data_dict (state_of o) = seqs_data_dict s.
Proof.
  revert k s o. induction toks as [|t toks IH]; intros k s o; cbn [number_loop].
  { intros <-. exists [], []. split; [done|]. split; [done|]. split; [|done].
    by apply trace_nil. }
  change (tmp_path_of now path name t ext)
    with (full_path_of path (tmp_name now (name, t, ext))).
  rewrite new_path_of_name.
  destruct (os_rename _ _ (world s)) as [w' [e|]] eqn:Er.
  - intros <-. exists [], (t :: toks). split; [done|]. split; [done|].
    split; [|done]. apply os_rename_Some in Er as (? & ? & ?). by apply trace_nil.
  - intros Ho. apply os_rename_None in Er as (Hsrc & Hdst & Hn & Hr & Hl).
    destruct (IH _ _ _ Ho) as (pre & post & -> & Hpost & Htr & Hsd).
    cbn in Htr, Hsd. exists (t :: pre), post.
    split; [done|]. split; [done|]. split; [|done].
    change (trace s (state_of o)
      ([(full_path_of path (tmp_name now (name, t, ext)),
         full_path_of path (new_name name k width ext))] ++
       num_pairs now path name ext width pre (k + 1))).
    eapply trace_app; [|exact Htr].
    unfold trace; cbn. rewrite Hn, Hr, Hl. repeat split; try done.
Qed.

Lemma num_pairs_app path name ext width l1 l2 k :
  num_pairs now path name ext width (l1 ++ l2) k
  = num_pairs now path name ext width l1 k
    ++ num_pairs now path name ext width l2 (k + Z.of_nat (length l1)).
Proof.
  revert k. induction l1 as [|t l1 IH]; intros k; cbn.
  - by rewrite Z.add_0_r.
  - rewrite IH. do 3 f_equal. lia.
Qed.

Lemma renumber_seq_trace path start width key s o :
  renumber_seq now path start width key s = o →
  ∃ ps, ps `prefix_of` seq_pairs now path start width (seqs_data_dict s) key ∧
    (is_done o → ps = seq_pairs now path start width (seqs_data_dict s) key) ∧
    trace s (state_of o) ps ∧
    (∀ key', key' ≠ key →
       dict_get key' (seqs_data_dict (state_of o)) = dict_get key' (seqs_data_dict s)).
Proof.
  unfold renumber_seq, seq_pairs.
  destruct (dict_get key (seqs_data_dict s)) as [img_list|].
  2:{ intros <-. exists []. split; [apply prefix_nil|]. split; [done|].
      split; [by apply trace_nil|done]. }
  destruct (Py.sort_key_int img_list) as [sorted|].
  2:{ intros <-. exists []. split; [apply prefix_nil|]. split; [done|].
      split; [by apply trace_nil|done]. }
  intros Ho. apply number_loop_trace in Ho as (pre & post & -> & Hpost & Htr & Hsd).
  exists (num_pairs now path key.1 key.2 width pre start). split; [|split; [|split]].
  - rewrite num_pairs_app. by eexists.
  - intros Hd. rewrite (Hpost Hd). by rewrite app_nil_r.
  - destruct Htr as (? & ? & ? & ? & ?). repeat split; done.
  - intros key' Hne. rewrite Hsd. cbn. by apply dict_get_set_ne.
Qed.

Lemma seq_pairs_ext path start width seqs seqs' key :
  dict_get key seqs' = dict_get key seqs →
  seq_pairs now path start width seqs' key = seq_pairs now path start width seqs key.
Proof. unfold seq_pairs. by intros ->. Qed.

Lemma renumber_pairs_ext path start width seqs seqs' keys :
  (∀ key, key ∈ keys → dict_get key seqs' = dict_get key seqs) →
  renumber_pairs now path start width seqs' keys = renumber_pairs now path start width seqs keys.
Proof.
  intros H. unfold renumber_pairs. f_equal. apply list_fmap_ext.
  intros i key Hi. apply seq_pairs_ext, H. by eapply list_elem_of_lookup_2.
Qed.

Lemma seqs_loop_trace path start width keys s o :
  NoDup keys → seqs_loop now path start width keys s = o →
  ∃ ps, ps `prefix_of` renumber_pairs now path start width (seqs_data_dict s) keys ∧
    (is_done o → ps = renumber_pairs now path start width (seqs_data_dict s) keys) ∧
    trace s (state_of o) ps.
Proof.
  revert s o. induction keys as [|key keys IH]; intros s o Hnd; cbn [seqs_loop].
  { intros <-. exists []. split; [done|]. split; [done|]. by apply trace_nil. }
  apply NoDup_cons in Hnd as [Hkey Hnd].
  destruct (renumber_seq now path start width key s) as [s1|e s1] eqn:E1;
    apply renumber_seq_trace in E1 as (ps1 & Hpre1 & Hall1 & Htr1 & Hget); cbn in *.
  - intros Ho. destruct (IH _ _ Hnd Ho) as (ps & Hpre & Hall & Htr).
    rewrite (renumber_pairs_ext _ _ _ (seqs_data_dict s)) in Hpre, Hall.
    2,3: intros key' Hin; apply Hget; intros ->; done.
    rewrite (Hall1 I) in Htr1.
    exists (seq_pairs now path start width (seqs_data_dict s) key ++ ps).
    split; [by apply prefix_app|]. split; [|by eapply trace_app].
    intros Hd. by rewrite (Hall Hd).
  - intros <-. exists ps1. split; [by apply prefix_app_r|]. done.
Qed.

(** A numbering pass that does not raise has sorted every bucket. *)
Lemma seqs_loop_sorted path start width keys s s' key :
  NoDup keys → seqs_loop now path start width keys s = Done s' → key ∈ keys →
  ∃ toks sorted,
    dict_get key (seqs_data_dict s) = Some toks ∧ Py.sort_key_int toks = Some sorted.
Proof.
  revert s. induction keys as [|key0 keys IH]; intros s Hnd; cbn [seqs_loop].
  { by intros _ ?%elem_of_nil. }
  apply NoDup_cons in Hnd as [Hkey Hnd].
  destruct (renumber_seq now path start width key0 s) as [s1|e s1] eqn:E1; [|done].
  intros Ho [->|Hin]%elem_of_cons.
  - unfold renumber_seq in E1.
    destruct (dict_get key0 (seqs_data_dict s)) as [toks|] eqn:Hg; [|done].
    destruct (Py.sort_key_int toks) as [sorted|] eqn:Hs; [|done]. eauto.
  - destruct (IH _ Hnd Ho Hin) as (toks & sorted & Hg & Hs).
    apply renumber_seq_trace in E1 as (_ & _ & _ & _ & Hget). cbn in Hget.
    rewrite Hget in Hg by (intros ->; done). eauto.
Qed.

(** The keys of [seqs_data_dict] stay pairwise distinct. *)
Lemma add_token_keys d x : NoDup d.*1 → NoDup (add_token d x).*1.
Proof.
  intros Hd. unfold add_token.
  destruct (dict_get (x.1.1, x.2) d) as [l|] eqn:E.
  - rewrite dict_set_keys; [done|].
    apply dict_get_Some in E. apply list_elem_of_fmap. by eexists (_, _).
  - apply dict_get_None in E. rewrite dict_set_fresh by done.
    rewrite fmap_app. apply NoDup_app. split; [done|]. split.
    + intros k Hk ->%list_elem_of_singleton. done.
    + apply NoDup_singleton.
Qed.

Lemma foldl_add_token_keys d xs : NoDup d.*1 → NoDup (foldl add_token d xs).*1.
Proof.
  revert d. induction xs as [|x xs IH]; intros d Hd; cbn; [done|].
  by apply IH, add_token_keys.
Qed.

(** The [try] block, for a listing without repetition: the renames it
    carried out are an initial part of the staging renames followed by the
    numbering renames, and all of them if it did not raise. *)
Lemma renumber_try_trace path start width files w o :
  NoDup files → renumber_try now path start width files w = o →
  let st := staged (nodes w) path files in
  let seqs := foldl add_token [] st.*2 in
  ∃ ps1 ps2,
    ps1 `prefix_of` stage_pairs now path st ∧
    ps2 `prefix_of` renumber_pairs now path start width seqs seqs.*1 ∧
    (ps1 = stage_pairs now path st ∨ ps2 = []) ∧
    (is_done o →
     ps1 = stage_pairs now path st ∧
     ps2 = renumber_pairs now path start width seqs seqs.*1 ∧
     ∀ key, key ∈ seqs.*1 →
       ∃ toks sorted, dict_get key seqs = Some toks ∧ Py.sort_key_int toks = Some sorted) ∧
    nodes (world (state_of o)) = moved (nodes w) (ps1 ++ ps2) ∧
    performed (nodes w) (ps1 ++ ps2) ∧
    renames (world (state_of o)) = renames w ++ events (nodes w) (ps1 ++ ps2) ∧
    logged (world (state_of o)) = logged w ∧
    renaming_dict (state_of o) = foldl (λ d p, dict_set p.1 p.2 d) [] (ps1 ++ ps2).
Proof.
  intros Hnd. unfold renumber_try.
  destruct (stage_loop _ _ _ _) as [s1|e s1] eqn:E1;
    apply stage_loop_trace in E1 as (pre & post & -> & Hpost & Htr1 & Hsd);
    [|done|..|done]; cbn in *.
  - specialize (Hpost I) as ->. specialize (Hsd I). rewrite app_nil_r in *.
    assert (NoDup (seqs_data_dict s1).*1) as Hkeys.
    { rewrite Hsd. by apply foldl_add_token_keys, NoDup_nil. }
    intros Ho.
    assert (is_done o → ∀ key, key ∈ (seqs_data_dict s1).*1 →
              ∃ toks sorted, dict_get key (seqs_data_dict s1) = Some toks ∧
                Py.sort_key_int toks = Some sorted) as Hsorted.
    { destruct o as [s'|]; [|done]. intros _ key. by eapply seqs_loop_sorted. }
    apply seqs_loop_trace in Ho as (ps2 & Hpre2 & Hall2 & Htr2); [|done].
    rewrite Hsd in Hpre2, Hall2, Hsorted.
    exists (stage_pairs now path (staged (nodes w) path pre)), ps2.
    split; [done|]. split; [done|]. split; [by left|].
    split; [by intros ?; split; [|split]; auto|].
    destruct (trace_app _ _ _ _ _ Htr1 Htr2) as (? & ? & ? & ? & ?). done.
  - intros <-. exists (stage_pairs now path (staged (nodes w) path pre)), [].
    split.
    { unfold staged, stage_pairs. rewrite omap_app, fmap_app. by eexists. }
    split; [apply prefix_nil|]. split; [by right|]. split; [done|].
    rewrite app_nil_r. destruct Htr1 as (? & ? & ? & ? & ?). done.
Qed.
End numbering.

(** ** What the staging pass moves *)

Section staged_facts.
Variable now : datetime.

Lemma elem_of_staged m path files f x :
  (f, x) ∈ staged m path files ↔ f ∈ files ∧ seq_member m path f = Some x.
Proof.
  unfold staged. rewrite list_elem_of_omap. split.
  - intros (f' & Hin & E). destruct (seq_member m path f') eqn:E'; [|done].
    cbn in E. by simplify_eq.
  - intros [Hin E]. exists f. by rewrite E.
Qed.

Lemma staged_fst_sublist m path files : (staged m path files).*1 `sublist_of` files.
Proof.
  induction files as [|f files IH]; [done|].
  destruct (seq_member m path f) as [x|] eqn:E.
  - rewrite (staged_cons_Some _ _ _ x) by done. cbn. by apply sublist_skip.
  - rewrite staged_cons_None by done. by apply sublist_cons.
Qed.

Lemma staged_fst_NoDup m path files : NoDup files → NoDup (staged m path files).*1.
Proof. intros H. eapply sublist_NoDup; [done|apply staged_fst_sublist]. Qed.

Lemma staged_parse m path files f x :
  (f, x) ∈ staged m path files → parse_seq f = Some x.
Proof. intros [_ (_ & ?)%seq_member_Some]%elem_of_staged. done. Qed.

Lemma staged_file m path files f x :
  (f, x) ∈ staged m path files → ∃ i, m !! full_path_of path f = Some (File i).
Proof. intros [_ (? & _)%seq_member_Some]%elem_of_staged. done. Qed.

Lemma staged_snd_parse m path files x :
  x ∈ (staged m path files).*2 → ∃ f, (f, x) ∈ staged m path files ∧ parse_seq f = Some x.
Proof.
  intros ([f x'] & -> & Hin)%list_elem_of_fmap. exists f. split; [done|].
  by eapply staged_parse.
Qed.

Lemma staged_snd_NoDup m path files : NoDup files → NoDup (staged m path files).*2.
Proof.
  intros Hnd. apply staged_fst_NoDup with (m := m) (path := path) in Hnd.
  assert (∀ p, p ∈ staged m path files → parse_seq p.1 = Some p.2) as Hp.
  { intros [f x] Hin. by eapply staged_parse. }
  induction (staged m path files) as [|[f x] st IH]; cbn in *; [constructor|].
  apply NoDup_cons in Hnd as [Hf Hnd]. apply NoDup_cons. split.
  - intros ([f' x'] & E & Hin)%list_elem_of_fmap. cbn in E. subst x'.
    apply Hf. apply list_elem_of_fmap. exists (f', x). split; [|done]. cbn.
    eapply parse_seq_inj; [apply (Hp (f, x)); left|apply (Hp (f', x)); by right].
  - apply IH; [done|]. intros p Hin. apply Hp. by right.
Qed.

Lemma stage_pairs_fst path st : (stage_pairs now path st).*1 = full_path_of path <$> st.*1.
Proof. unfold stage_pairs. rewrite <- !list_fmap_compose. done. Qed.

Lemma stage_pairs_snd path st :
  (stage_pairs now path st).*2 = (λ x, full_path_of path (tmp_name now x)) <$> st.*2.
Proof. unfold stage_pairs. rewrite <- !list_fmap_compose. done. Qed.

Global Instance full_path_of_Inj path : Inj (=) (=) (full_path_of path).
Proof. intros f f'. apply full_path_of_inj. Qed.

(** The staging renames never meet each other. *)
Lemma stage_pairs_distinct m path files :
  NoDup files → distinct_moves (stage_pairs now path (staged m path files)).
Proof.
  intros Hnd. split; [|split].
  - rewrite stage_pairs_fst. apply NoDup_fmap_2; [apply _|by apply staged_fst_NoDup].
  - rewrite stage_pairs_snd. apply NoDup_fmap_2_strong; [|by apply staged_snd_NoDup].
    intros x x' (f & _ & Hx)%staged_snd_parse (f' & _ & Hx')%staged_snd_parse E.
    apply full_path_of_inj in E. by eapply tmp_name_inj.
  - intros a. rewrite stage_pairs_fst, stage_pairs_snd.
    intros (f & -> & Hf)%list_elem_of_fmap (x' & E & Hx')%list_elem_of_fmap.
    apply full_path_of_inj in E. subst f.
    apply list_elem_of_fmap in Hf as ([f x] & E & Hin). cbn in E. subst f.
    apply staged_parse in Hin. apply staged_snd_parse in Hx' as (f' & _ & Hx').
    rewrite (parse_tmp_name now f' x') in Hin; done.
Qed.

Lemma stage_pairs_elem m path files p :
  p ∈ stage_pairs now path (staged m path files) →
  ∃ f x, (f, x) ∈ staged m path files ∧
    p = (full_path_of path f, full_path_of path (tmp_name now x)).
Proof. intros ([f x] & -> & Hin)%list_elem_of_fmap. eauto. Qed.

(** After the staging pass each member is under its temporary name... *)
Lemma staged_lookup_tmp m path files f x :
  NoDup files → (f, x) ∈ staged m path files →
  moved m (stage_pairs now path (staged m path files))
    !! full_path_of path (tmp_name now x)
  = m !! full_path_of path f.
Proof.
  intros Hnd Hin. apply moved_lookup_dst.
  - by apply stage_pairs_distinct.
  - apply list_elem_of_fmap. by exists (f, x).
  - destruct (staged_file _ _ _ _ _ Hin) as [i ->]. eauto.
Qed.

End staged_facts.

(** ** What [seqs_data_dict] holds after the staging pass *)

Lemma bucket_cons_eq x xs :
  bucket (x :: xs) (x.1.1, x.2) = x.1.2 :: bucket xs (x.1.1, x.2).
Proof. unfold bucket. rewrite filter_cons_True by done. done. Qed.

Lemma bucket_cons_ne x xs key :
  (x.1.1, x.2) ≠ key → bucket (x :: xs) key = bucket xs key.
Proof. intros H. unfold bucket. by rewrite filter_cons_False. Qed.

Lemma dict_get_add_token d x key :
  dict_get key (add_token d x) =
  if decide (key = (x.1.1, x.2))
  then Some (default [] (dict_get key d) ++ [x.1.2])
  else dict_get key d.
Proof.
  unfold add_token. destruct (decide (key = (x.1.1, x.2))) as [->|Hne].
  - destruct (dict_get _ d); by rewrite dict_get_set_eq.
  - destruct (dict_get (x.1.1, x.2) d); by rewrite dict_get_set_ne.
Qed.

Lemma dict_get_foldl_add_token d xs key :
  dict_get key (foldl add_token d xs) =
  match bucket xs key with
  | [] => dict_get key d
  | l => Some (default [] (dict_get key d) ++ l)
  end.
Proof.
  revert d. induction xs as [|x xs IH]; intros d; [done|]. cbn [foldl].
  rewrite IH, dict_get_add_token.
  destruct (decide (key = (x.1.1, x.2))) as [->|Hne].
  - rewrite bucket_cons_eq. cbn. destruct (bucket xs _); [done|].
    by rewrite <- app_assoc.
  - by rewrite bucket_cons_ne.
Qed.

(** The dictionary built from the members [xs]: a key is present exactly
    when its bucket is not empty, and holds the bucket. *)
Lemma dict_get_grouped xs key toks :
  dict_get key (foldl add_token [] xs) = Some toks ↔ bucket xs key = toks ∧ toks ≠ [].
Proof.
  rewrite dict_get_foldl_add_token. cbn. destruct (bucket xs key); split.
  - done.
  - intros [<- ?]. done.
  - intros [= <-]. done.
  - intros [<- _]. done.
Qed.

Lemma elem_of_bucket xs key t :
  t ∈ bucket xs key ↔ ∃ x, x ∈ xs ∧ (x.1.1, x.2) = key ∧ x.1.2 = t.
Proof.
  unfold bucket. rewrite list_elem_of_fmap. split.
  - intros (x & -> & [? ?]%list_elem_of_filter). eauto.
  - intros (x & ? & ? & <-). exists x. split; [done|]. by apply list_elem_of_filter.
Qed.

Lemma bucket_NoDup xs key : NoDup xs → NoDup (bucket xs key).
Proof.
  intros Hnd. unfold bucket. apply NoDup_fmap_2_strong; [|by apply NoDup_filter].
  intros [[n t] e] [[n' t'] e'] [E _]%list_elem_of_filter [E' _]%list_elem_of_filter.
  cbn in *. congruence.
Qed.

(** ** Sorting by numeric value *)

Lemma insert_by_key_perm {A} (x : Z * A) l : Py.insert_by_key x l ≡ₚ x :: l.
Proof.
  induction l as [|y l IH]; cbn; [done|].
  destruct (x.1 <=? y.1); [done|]. rewrite IH. apply Permutation_swap.
Qed.

Lemma sort_by_key_perm {A} (l : list (Z * A)) : Py.sort_by_key l ≡ₚ l.
Proof.
  induction l as [|x l IH]; cbn; [done|].
  rewrite insert_by_key_perm. by rewrite IH.
Qed.

Lemma insert_by_key_sorted {A} (x : Z * A) l :
  StronglySorted key_le l → StronglySorted key_le (Py.insert_by_key x l).
Proof.
  induction 1 as [|y l Hl IH Hy]; cbn; [by repeat constructor|].
  destruct (Z.leb_spec x.1 y.1) as [Hle|Hgt].
  - constructor; [by constructor|]. constructor; [done|].
    eapply Forall_impl; [done|]. intros z Hz. unfold key_le in *. lia.
  - constructor; [done|]. rewrite insert_by_key_perm.
    constructor; [unfold key_le; lia|done].
Qed.

Lemma sort_by_key_sorted {A} (l : list (Z * A)) : StronglySorted key_le (Py.sort_by_key l).
Proof.
  induction l as [|x l IH]; cbn; [constructor|]. by apply insert_by_key_sorted.
Qed.

Lemma StronglySorted_lookup_lt {A} (R : A → A → Prop) l i j a b :
  StronglySorted R l → (i < j)%nat → l !! i = Some a → l !! j = Some b → R a b.
Proof.
  intros Hs. revert i j. induction Hs as [|x l Hl IH Hx]; intros i j Hij Hi Hj; [done|].
  destruct i as [|i], j as [|j]; try lia; cbn in *.
  - injection Hi as <-. eapply Forall_forall in Hx; [done|]. by eapply list_elem_of_lookup_2.
  - eapply (IH i j); [lia|done..].
Qed.

(** What [sort(key=int)] returns: the tokens with their values, in
    non-decreasing order of value, and the same tokens as before. *)
Lemma sort_key_int_Some l sorted :
  Py.sort_key_int l = Some sorted →
  ∃ sp : list (Z * string),
    sorted = sp.*2 ∧ sorted ≡ₚ l ∧ StronglySorted key_le sp ∧
    Forall (λ p, Py.int p.2 = Some p.1) sp.
Proof.
  unfold Py.sort_key_int. destruct (mapM Py.int l) as [keys|] eqn:E; [|done].
  cbn. intros [= <-]. apply mapM_Some in E.
  exists (Py.sort_by_key (zip keys l)). split; [done|]. split; [|split].
  - rewrite sort_by_key_perm. rewrite snd_zip; [done|].
    apply Forall2_length in E. lia.
  - apply sort_by_key_sorted.
  - rewrite sort_by_key_perm. apply Forall_forall. intros [v t] Hin.
    apply list_elem_of_lookup in Hin as [i Hi].
    apply lookup_zip_Some in Hi as [Hv Ht]. cbn.
    by eapply Forall2_lookup_lr in E.
Qed.

(** With pairwise distinct values the order is strict, so positions in the
    sorted list compare as the values do. *)
Lemma sorted_positions (sp : list (Z * string)) i j a b :
  StronglySorted key_le sp → NoDup sp.*1 →
  sp !! i = Some a → sp !! j = Some b → ((i < j)%nat ↔ a.1 < b.1).
Proof.
  intros Hs Hnd Hi Hj.
  assert (∀ i j a b, (i < j)%nat → sp !! i = Some a → sp !! j = Some b → a.1 < b.1) as Hlt.
  { clear i j a b Hi Hj. intros i j a b Hij Hi Hj.
    pose proof (StronglySorted_lookup_lt _ _ _ _ _ _ Hs Hij Hi Hj) as Hle.
    unfold key_le in Hle. destruct (decide (a.1 = b.1)) as [E|]; [|lia].
    assert (i = j); [|lia].
    eapply (NoDup_lookup _ _ _ _ Hnd); rewrite list_lookup_fmap; [by rewrite Hi|].
    rewrite Hj. cbn. by rewrite E. }
  split; [by eauto|]. intros Hab.
  destruct (Nat.lt_trichotomy i j) as [?|[->|Hji]]; [done|..].
  - rewrite Hi in Hj. injection Hj as <-. lia.
  - specialize (Hlt _ _ _ _ Hji Hj Hi). lia.
Qed.

(** ** What the numbering pass moves *)

Lemma elem_of_concat_fmap {A B} (f : A → list B) (l : list A) (x : B) :
  x ∈ concat (f <$> l) ↔ ∃ y, y ∈ l ∧ x ∈ f y.
Proof.
  induction l as [|a l IH]; cbn.
  - split; [by intros ?%elem_of_nil|by intros (? & ?%elem_of_nil & _)].
  - rewrite elem_of_app, IH. split.
    + intros [?|(y & ? & ?)]; [exists a; split; [left|done]|exists y; split; [by right|done]].
    + intros (y & [->|?]%elem_of_cons & ?); [by left|right; eauto].
Qed.

Lemma distinct_moves_app_intro ps qs :
  distinct_moves ps → distinct_moves qs →
  (∀ p q, p ∈ ps → q ∈ qs → p.1 ≠ q.1 ∧ p.2 ≠ q.2 ∧ p.1 ≠ q.2 ∧ p.2 ≠ q.1) →
  distinct_moves (ps ++ qs).
Proof.
  intros (Hs1 & Hd1 & Hsep1) (Hs2 & Hd2 & Hsep2) Hx.
  assert (∀ (g : string * string → string) (l : list (string * string)) a,
            a ∈ g <$> l → ∃ p, p ∈ l ∧ a = g p) as Hel.
  { intros g l a (p & -> & ?)%list_elem_of_fmap. eauto. }
  unfold distinct_moves. rewrite !fmap_app. split; [|split].
  - apply NoDup_app. split; [done|]. split; [|done].
    intros a (p & Hp & ->)%Hel (q & Hq & E)%Hel. by destruct (Hx p q Hp Hq) as (? & _).
  - apply NoDup_app. split; [done|]. split; [|done].
    intros a (p & Hp & ->)%Hel (q & Hq & E)%Hel. by destruct (Hx p q Hp Hq) as (_ & ? & _).
  - intros a [Ha|Ha]%elem_of_app [Hb|Hb]%elem_of_app.
    + by eapply Hsep1.
    + apply Hel in Ha as (p & Hp & ->). apply Hel in Hb as (q & Hq & E).
      by destruct (Hx p q Hp Hq) as (_ & _ & ? & _).
    + apply Hel in Ha as (q & Hq & ->). apply Hel in Hb as (p & Hp & E).
      by destruct (Hx p q Hp Hq) as (_ & _ & _ & ?).
    + by eapply Hsep2.
Qed.

Section numbering_facts.
Variable now : datetime.

Lemma num_pairs_lookup path n e width toks k i :
  num_pairs now path n e width toks k !! i
  = (λ t, (full_path_of path (tmp_name now (n, t, e)),
           full_path_of path (new_name n (k + Z.of_nat i) width e))) <$> toks !! i.
Proof.
  revert k i. induction toks as [|t toks IH]; intros k i; [done|].
  destruct i as [|i]; cbn.
  - by rewrite Z.add_0_r.
  - rewrite IH. by replace (k + 1 + Z.of_nat i) with (k + Z.of_nat (S i)) by lia.
Qed.

Lemma num_pairs_elem path n e width toks k p :
  p ∈ num_pairs now path n e width toks k ↔
  ∃ i t, toks !! i = Some t ∧
    p = (full_path_of path (tmp_name now (n, t, e)),
         full_path_of path (new_name n (k + Z.of_nat i) width e)).
Proof.
  rewrite list_elem_of_lookup. split.
  - intros [i Hi]. rewrite num_pairs_lookup in Hi.
    destruct (toks !! i) as [t|] eqn:E; [|done]. injection Hi as <-. eauto.
  - intros (i & t & Ht & ->). exists i. by rewrite num_pairs_lookup, Ht.
Qed.

Lemma valid_member_nochar x :
  valid_member x →
  nochar "." x.1.1 = true ∧ nochar "." x.1.2 = true ∧ nochar "." x.2 = true.
Proof. intros [f (_ & ? & ? & ? & _)%parse_seq_Some]. done. Qed.

Lemma split_new_name n k width e :
  nochar "." n = true → nochar "." e = true →
  Py.split "." (new_name n k width e) = [n; Py.zfill (Py.str k) width; e].
Proof.
  intros Hn He. unfold new_name. apply split_three; [done| |done].
  eapply all_chars_nochar; [|apply zfill_str_chars]. done.
Qed.

Lemma new_name_inj n k e n' k' e' width :
  nochar "." n = true → nochar "." e = true →
  nochar "." n' = true → nochar "." e' = true →
  new_name n k width e = new_name n' k' width e' → n = n' ∧ k = k' ∧ e = e'.
Proof.
  intros Hn He Hn' He' E. pose proof (split_new_name n k width e Hn He) as S1.
  rewrite E, split_new_name in S1 by done. injection S1 as -> Ek ->.
  split; [done|]. split; [|done]. symmetry. by eapply zfill_str_inj.
Qed.

(** A temporary name is never a final name. *)
Lemma tmp_new_ne x n k width e :
  valid_member x → nochar "." n = true → nochar "." e = true →
  tmp_name now x ≠ new_name n k width e.
Proof.
  intros [f Hf] Hn He E. pose proof (split_tmp_name now f x Hf) as S1.
  rewrite E, split_new_name in S1 by done. injection S1 as _ Ek _.
  pose proof (zfill_str_chars k width) as Hc. rewrite Ek, all_chars_app in Hc.
  destruct (suffix_head now) as [r Hr]. rewrite Hr in Hc. cbn in Hc.
  by rewrite andb_false_r in Hc.
Qed.

Lemma tmp_name_valid_inj x x' :
  valid_member x → valid_member x' → tmp_name now x = tmp_name now x' → x = x'.
Proof. intros [f Hf] [f' Hf']. by eapply tmp_name_inj. Qed.

Lemma seq_pairs_elem path start width seqs key p :
  p ∈ seq_pairs now path start width seqs key →
  ∃ toks sorted i t,
    dict_get key seqs = Some toks ∧ Py.sort_key_int toks = Some sorted ∧
    sorted !! i = Some t ∧
    p = (full_path_of path (tmp_name now (key.1, t, key.2)),
         full_path_of path (new_name key.1 (start + Z.of_nat i) width key.2)).
Proof.
  unfold seq_pairs.
  destruct (dict_get key seqs) as [toks|] eqn:Hg; [|by intros ?%elem_of_nil].
  destruct (Py.sort_key_int toks) as [sorted|] eqn:Hs; [|by intros ?%elem_of_nil].
  intros (i & t & ? & ->)%num_pairs_elem. by exists toks, sorted, i, t.
Qed.

Lemma seq_pairs_valid path start width seqs key p :
  valid_seqs seqs → p ∈ seq_pairs now path start width seqs key →
  ∃ t k, valid_member (key.1, t, key.2) ∧
    p = (full_path_of path (tmp_name now (key.1, t, key.2)),
         full_path_of path (new_name key.1 k width key.2)).
Proof.
  intros [_ Hv] (toks & sorted & i & t & Hg & Hs & Hi & ->)%seq_pairs_elem.
  exists t, (start + Z.of_nat i). split; [|done].
  apply (Hv key toks Hg). apply sort_key_int_Some in Hs as (_ & _ & Hp & _).
  rewrite <- Hp. by eapply list_elem_of_lookup_2.
Qed.

Lemma num_pairs_distinct path n e width toks k :
  NoDup toks → (∀ t, t ∈ toks → valid_member (n, t, e)) →
  distinct_moves (num_pairs now path n e width toks k).
Proof.
  intros Hnd Hv. split; [|split].
  - apply NoDup_alt. intros i j a. rewrite !list_lookup_fmap, !num_pairs_lookup.
    destruct (toks !! i) as [t|] eqn:Ei; [|done].
    destruct (toks !! j) as [t'|] eqn:Ej; [|done]. cbn.
    intros [= <-] [= E]. apply full_path_of_inj in E.
    apply tmp_name_valid_inj in E; [|by eapply Hv, list_elem_of_lookup_2..].
    injection E as E. subst t'. by eapply NoDup_lookup.
  - apply NoDup_alt. intros i j a. rewrite !list_lookup_fmap, !num_pairs_lookup.
    destruct (toks !! i) as [t|] eqn:Ei; [|done].
    destruct (toks !! j) as [t'|] eqn:Ej; [|done]. cbn.
    intros [= <-] [= E]. apply full_path_of_inj in E.
    destruct (valid_member_nochar _ (Hv t (list_elem_of_lookup_2 _ _ _ Ei)))
      as (? & _ & ?). cbn in *.
    apply new_name_inj in E as (_ & E & _); try done. lia.
  - intros a (p & -> & Hp)%list_elem_of_fmap (q & E & Hq)%list_elem_of_fmap.
    apply num_pairs_elem in Hp as (i & t & Hi & ->).
    apply num_pairs_elem in Hq as (j & t' & Hj & ->). cbn in E.
    apply full_path_of_inj in E.
    destruct (valid_member_nochar _ (Hv t (list_elem_of_lookup_2 _ _ _ Hi)))
      as (? & _ & ?). cbn in *.
    eapply tmp_new_ne in E; [done|by eapply Hv, list_elem_of_lookup_2|done..].
Qed.

Lemma seq_pairs_distinct path start width seqs key :
  valid_seqs seqs → distinct_moves (seq_pairs now path start width seqs key).
Proof.
  intros [_ Hv]. unfold seq_pairs.
  destruct (dict_get key seqs) as [toks|] eqn:Hg.
  2:{ repeat split; try constructor. by intros ? ?%elem_of_nil. }
  destruct (Py.sort_key_int toks) as [sorted|] eqn:Hs.
  2:{ repeat split; try constructor. by intros ? ?%elem_of_nil. }
  apply sort_key_int_Some in Hs as (_ & _ & Hp & _).
  destruct (Hv key toks Hg) as [Hnd Hval].
  apply num_pairs_distinct; [by rewrite Hp|]. intros t Ht. apply Hval. by rewrite <- Hp.
Qed.

(** The numbering renames never meet each other. *)
Lemma renumber_pairs_distinct path start width seqs keys :
  valid_seqs seqs → NoDup keys →
  distinct_moves (renumber_pairs now path start width seqs keys).
Proof.
  intros Hv. induction keys as [|key keys IH]; intros Hnd.
  { repeat split; try constructor. by intros ? ?%elem_of_nil. }
  apply NoDup_cons in Hnd as [Hkey Hnd]. unfold renumber_pairs. cbn.
  apply distinct_moves_app_intro; [by apply seq_pairs_distinct|by apply IH|].
  intros p q Hp (key' & Hkey' & Hq)%elem_of_concat_fmap.
  apply seq_pairs_valid in Hp as (t & k & Hx & ->); [|done].
  apply seq_pairs_valid in Hq as (t' & k' & Hx' & ->); [|done].
  assert (key ≠ key') as Hne by (intros ->; done).
  destruct (valid_member_nochar _ Hx) as (? & _ & ?).
  destruct (valid_member_nochar _ Hx') as (? & _ & ?). cbn in *.
  repeat split; intros E; apply full_path_of_inj in E.
  - apply tmp_name_valid_inj in E; [|done..]. injection E as ? ? ?.
    apply Hne. by destruct key, key'; cbn in *; subst.
  - apply new_name_inj in E as (? & _ & ?); [|done..].
    apply Hne. by destruct key, key'; cbn in *; subst.
  - by eapply tmp_new_ne in E.
  - symmetry in E. by eapply tmp_new_ne in E.
Qed.

Lemma grouped_valid xs :
  NoDup xs → (∀ x, x ∈ xs → valid_member x) → valid_seqs (foldl add_token [] xs).
Proof.
  intros Hnd Hv. split; [by apply foldl_add_token_keys, NoDup_nil|].
  intros key toks [<- _]%dict_get_grouped. split; [by apply bucket_NoDup|].
  intros t (x & Hx & <- & <-)%elem_of_bucket. destruct x as [[? ?] ?]. by apply Hv.
Qed.

Lemma staged_valid m path files x : x ∈ (staged m path files).*2 → valid_member x.
Proof. intros (f & _ & ?)%staged_snd_parse. by exists f. Qed.

Lemma renumber_pairs_elem path start width seqs keys key toks sorted i t :
  key ∈ keys → dict_get key seqs = Some toks → Py.sort_key_int toks = Some sorted →
  sorted !! i = Some t →
  (full_path_of path (tmp_name now (key.1, t, key.2)),
   full_path_of path (new_name key.1 (start + Z.of_nat i) width key.2))
  ∈ renumber_pairs now path start width seqs keys.
Proof.
  intros Hkey Hg Hs Hi. apply elem_of_concat_fmap. exists key. split; [done|].
  unfold seq_pairs. rewrite Hg, Hs. apply num_pairs_elem. eauto.
Qed.
End numbering_facts.

(** ** Listings *)

Lemma entry_name_Some path k n :
  entry_name path k = Some n ↔
  k = full_path_of path n ∧ n ≠ EmptyString ∧ Py.contains "/" n = false.
Proof.
  unfold entry_name, full_path_of. split.
  - destruct (strip_prefix _ k) as [n'|] eqn:E; [|done].
    destruct (decide _) as [[? ?]|]; [|done]. intros [= <-].
    apply strip_prefix_Some in E. by rewrite string_app_assoc in E.
  - intros (-> & ? & ?). rewrite <- string_app_assoc, strip_prefix_app.
    by rewrite decide_True.
Qed.

Lemma elem_of_os_listdir w path n :
  n ∈ os_listdir w path ↔
  n ≠ EmptyString ∧ Py.contains "/" n = false ∧ is_Some (nodes w !! full_path_of path n).
Proof.
  unfold os_listdir. rewrite list_elem_of_omap. split.
  - intros (k & Hk & (-> & ? & ?)%entry_name_Some).
    apply list_elem_of_fmap in Hk as ([k' v] & -> & Hin).
    apply elem_of_map_to_list in Hin. cbn. eauto.
  - intros (? & ? & [v Hv]). exists (full_path_of path n). split.
    + apply list_elem_of_fmap. exists (full_path_of path n, v). split; [done|].
      by apply elem_of_map_to_list.
    + by apply entry_name_Some.
Qed.

Lemma NoDup_omap_inj {A B} (f : A → option B) (l : list A) :
  (∀ x y z, f x = Some z → f y = Some z → x = y) → NoDup l → NoDup (omap f l).
Proof.
  intros Hinj. induction 1 as [|x l Hx Hl IH]; cbn; [constructor|].
  destruct (f x) as [z|] eqn:E; [|done]. constructor; [|done].
  intros (y & Hy & Ey)%list_elem_of_omap. by rewrite (Hinj x y z) in Hx.
Qed.

Lemma os_listdir_NoDup w path : NoDup (os_listdir w path).
Proof.
  unfold os_listdir. apply NoDup_omap_inj; [|apply NoDup_fst_map_to_list].
  intros k k' n (-> & _)%entry_name_Some (-> & _)%entry_name_Some. done.
Qed.

Lemma listing_of_NoDup w path files : listing_of w path files → NoDup files.
Proof. intros H. unfold listing_of in H. rewrite H. apply os_listdir_NoDup. Qed.

Lemma listing_of_elem w path files f :
  listing_of w path files →
  f ∈ files ↔
  f ≠ EmptyString ∧ Py.contains "/" f = false ∧ is_Some (nodes w !! full_path_of path f).
Proof. intros H. unfold listing_of in H. rewrite H. apply elem_of_os_listdir. Qed.

(** ** The rollback *)

Section rollback_facts.
Variable now : datetime.

(** A path that [renaming_dict] does not mention is left alone. *)
Lemma restore_untouched d w k :
  k ∉ d.*1 → k ∉ d.*2 →
  nodes (restore_original_names d w).1 !! k = nodes w !! k.
Proof.
  revert w. induction d as [|[org curr] d IH]; intros w; cbn; [done|].
  intros [? ?]%not_elem_of_cons [? ?]%not_elem_of_cons.
  destruct (os_rename curr org w) as [w' [e|]] eqn:Er.
  - apply os_rename_Some in Er as (E & _). cbn. by rewrite E.
  - apply os_rename_None in Er as (_ & _ & Hn & _).
    rewrite IH, Hn by done. by apply mv_lookup_ne.
Qed.

Lemma restore_logged d w : logged (restore_original_names d w).1 = logged w.
Proof.
  revert w. induction d as [|[org curr] d IH]; intros w; cbn; [done|].
  destruct (os_rename curr org w) as [w' [e|]] eqn:Er.
  - apply os_rename_Some in Er as (_ & _ & E). cbn. by rewrite E.
  - apply os_rename_None in Er as (_ & _ & _ & _ & Hl). by rewrite IH.
Qed.

(** Undoing a sequence of renames whose destinations were all free gives
    back the name space they started from. *)
Lemma restore_moved ps m w w' :
  distinct_moves ps →
  (∀ p, p ∈ ps → is_Some (m !! p.1) ∧ m !! p.2 = None) →
  nodes w = moved m ps →
  restore_original_names ps w = (w', None) →
  nodes w' = m.
Proof.
  revert w. induction ps as [|[a b] ps IH]; intros w Hd Hm Hw; cbn.
  { intros [= <-]. done. }
  destruct (os_rename b a w) as [w1 [e|]] eqn:Er; [done|].
  intros Hr. apply os_rename_None in Er as (_ & _ & Hn & _).
  pose proof (distinct_moves_cons _ _ Hd) as (Hd' & Hne & H11 & H12 & H21 & H22).
  cbn in Hne, H11, H12, H21, H22.
  destruct (Hm (a, b) ltac:(left)) as [[na Ha] Hb]. cbn in Ha, Hb.
  assert (∀ p, p ∈ ps → is_Some (m !! p.1) ∧ m !! p.2 = None) as Hm'.
  { intros p Hp. apply Hm. by right. }
  apply (IH w1); [done|done| |done].
  assert (nodes w !! b = Some na) as Hwb.
  { rewrite Hw, <- Ha. apply moved_lookup_dst; [done|left|by rewrite Ha]. }
  rewrite Hn. unfold mv. cbn. rewrite Hwb. apply map_eq. intros k.
  destruct (decide (k = a)) as [->|Hka].
  { rewrite lookup_insert_eq, moved_lookup_ne by done. done. }
  rewrite lookup_insert_ne by done.
  destruct (decide (k = b)) as [->|Hkb].
  { rewrite lookup_delete_eq, moved_lookup_ne by done. done. }
  rewrite lookup_delete_ne by done. rewrite Hw.
  change (moved m ((a, b) :: ps)) with (moved (mv m (a, b)) ps).
  destruct (decide (k ∈ ps.*1)) as [Hk1|Hk1].
  { by rewrite !moved_lookup_src. }
  destruct (decide (k ∈ ps.*2)) as [Hk2|Hk2].
  - apply list_elem_of_fmap in Hk2 as ([a' b'] & -> & Hin). cbn in *.
    assert (a' ∈ ps.*1) as Ha1 by (apply list_elem_of_fmap; by exists (a', b')).
    assert (a' ∉ ps.*2) as Ha2 by (destruct Hd' as (_ & _ & Hsep); by apply Hsep).
    assert (mv m (a, b) !! a' = m !! a') as E.
    { apply mv_lookup_ne; cbn; intros ->; done. }
    destruct (Hm' _ Hin) as [Hs _]. cbn in Hs.
    rewrite !(moved_lookup_dst _ ps a' b'); try done. by rewrite E.
  - rewrite !moved_lookup_ne by done. apply mv_lookup_ne; done.
Qed.
End rollback_facts.

(** ** A run of the [try] block that does not raise *)

Section done_facts.
Variable now : datetime.

(** Where the files of one sequence are after the [try] block completed:
    the bucket was sorted, and the file whose token stands at position [i]
    of the sorted bucket carries frame number [start + i]. *)
Lemma renumber_try_done path start width files w s name ext :
  NoDup files →
  renumber_try now path start width files w = Done s →
  ∃ sorted,
    Py.sort_key_int (bucket (staged (nodes w) path files).*2 (name, ext)) = Some sorted ∧
    ∀ i t, sorted !! i = Some t →
      ∃ ino,
        nodes w !! full_path_of path (name +:+ "." +:+ t +:+ "." +:+ ext) = Some (File ino) ∧
        nodes (world s) !! new_path_of path name (start + Z.of_nat i) width ext
        = Some (File ino).
Proof.
  intros Hnd Htry.
  destruct (renumber_try_trace now _ _ _ _ _ _ Hnd Htry)
    as (ps1 & ps2 & _ & _ & _ & Hdone & Hnodes & _).
  destruct (Hdone I) as (-> & -> & Hsorted). clear Hdone. cbn in Hnodes.
  set (st := staged (nodes w) path files) in *.
  set (seqs := foldl add_token [] st.*2) in *.
  destruct (bucket st.*2 (name, ext)) as [|t0 toks0] eqn:Eb.
  { exists []. split; [done|]. by intros i t ?. }
  assert (dict_get (name, ext) seqs = Some (t0 :: toks0)) as Hg.
  { apply dict_get_grouped. by rewrite Eb. }
  assert ((name, ext) ∈ seqs.*1) as Hkey.
  { apply dict_get_Some in Hg. apply list_elem_of_fmap. by eexists (_, _). }
  destruct (Hsorted _ Hkey) as (toks & sorted & Hg' & Hs).
  rewrite Hg in Hg'. injection Hg' as <-.
  exists sorted. split; [done|]. intros i t Hi.
  assert (t ∈ bucket st.*2 (name, ext)) as Ht.
  { rewrite Eb. apply sort_key_int_Some in Hs as (_ & _ & Hp & _).
    rewrite <- Hp. by eapply list_elem_of_lookup_2. }
  apply elem_of_bucket in Ht as ([[n t'] e] & Hx & [= -> ->] & E). cbn in E. subst t'.
  apply staged_snd_parse in Hx as (f & Hin & Hf).
  pose proof Hf as (-> & _)%parse_seq_Some. cbn.
  destruct (staged_file _ _ _ _ _ Hin) as [ino Hino]. exists ino. split; [done|].
  rewrite Hnodes, moved_app, new_path_of_name, <- Hino.
  rewrite <- (staged_lookup_tmp now (nodes w) path files _ (name, t, ext)) by done.
  apply moved_lookup_dst.
  - apply renumber_pairs_distinct.
    + apply grouped_valid; [by apply staged_snd_NoDup|]. apply staged_valid.
    + by apply foldl_add_token_keys, NoDup_nil.
  - by apply (renumber_pairs_elem now _ _ _ _ _ (name, ext) (t0 :: toks0) sorted).
  - subst st. rewrite (staged_lookup_tmp now (nodes w) path files _ (name, t, ext)) by done.
    rewrite Hino. eauto.
Qed.
End done_facts.

(** C4.  Order preservation: after a run of the [try] block that did not
    raise, take any bucket (the frame tokens of the listed regular files
    [name.<digits>.ext]) whose tokens have pairwise distinct integer values.
    Its tokens can be arranged, with their values, in a list [sorted] in which
    positions compare exactly as the numeric values do (so ["9"] stands
    before ["10"]), and the file whose token stands at position [i] is, after
    the run, the file named with frame number [start + i]: the new numbers
    follow the original numeric order and count up from [start] by one. *)
Theorem order_preservation now path start width files w s name ext :
  NoDup files →
  renumber_try now path start width files w = Done s →
  NoDup (Py.int <$> bucket (staged (nodes w) path files).*2 (name, ext)) →
  ∃ sorted : list (Z * string),
    sorted.*2 ≡ₚ bucket (staged (nodes w) path files).*2 (name, ext) ∧
    Forall (λ p, Py.int p.2 = Some p.1) sorted ∧
    (∀ i j a b, sorted !! i = Some a → sorted !! j = Some b →
       ((i < j)%nat ↔ a.1 < b.1)) ∧
    (∀ i a, sorted !! i = Some a →
       ∃ ino,
         nodes w !! full_path_of path (name +:+ "." +:+ a.2 +:+ "." +:+ ext)
         = Some (File ino) ∧
         nodes (world s) !! new_path_of path name (start + Z.of_nat i) width ext
         = Some (File ino)).
Proof.
  intros Hnd Htry Hdistinct.
  destruct (renumber_try_done now _ _ _ _ _ _ name ext Hnd Htry) as (sorted & Hs & Hfiles).
  destruct (sort_key_int_Some _ _ Hs) as (sp & -> & Hperm & Hsorted & Hval).
  exists sp. split; [done|]. split; [done|]. split.
  - intros i j a b Hi Hj. apply (sorted_positions sp); [done| |done..].
    rewrite <- Hperm in Hdistinct. rewrite <- list_fmap_compose in Hdistinct.
    apply (NoDup_fmap_1 Some). rewrite <- list_fmap_compose.
    erewrite list_fmap_ext; [exact Hdistinct|].
    intros k p Hk. cbn. symmetry. eapply Forall_forall in Hval; [done|].
    by eapply list_elem_of_lookup_2.
  - intros i a Hi. apply Hfiles. by rewrite list_lookup_fmap, Hi.
Qed.

(** C8.  Non-interference: take two runs of the [try] block that did not
    raise, on two states of a directory in which the sequence [(name, ext)]
    has the same bucket, whatever the other entries are.  Both runs give
    every file of that sequence the same final name: the file whose token
    stands at position [i] of the sorted bucket gets frame number
    [start + i], the first one [start]. *)
Theorem non_interference now path start width files1 w1 s1 files2 w2 s2 name ext :
  NoDup files1 → NoDup files2 →
  renumber_try now path start width files1 w1 = Done s1 →
  renumber_try now path start width files2 w2 = Done s2 →
  bucket (staged (nodes w1) path files1).*2 (name, ext)
  = bucket (staged (nodes w2) path files2).*2 (name, ext) →
  ∃ sorted : list string,
    sorted ≡ₚ bucket (staged (nodes w1) path files1).*2 (name, ext) ∧
    ∀ i t, sorted !! i = Some t →
      ∃ ino1 ino2,
        nodes w1 !! full_path_of path (name +:+ "." +:+ t +:+ "." +:+ ext) = Some (File ino1) ∧
        nodes w2 !! full_path_of path (name +:+ "." +:+ t +:+ "." +:+ ext) = Some (File ino2) ∧
        nodes (world s1) !! new_path_of path name (start + Z.of_nat i) width ext
        = Some (File ino1) ∧
        nodes (world s2) !! new_path_of path name (start + Z.of_nat i) width ext
        = Some (File ino2).
Proof.
  intros Hnd1 Hnd2 Htry1 Htry2 Hb.
  destruct (renumber_try_done now _ _ _ _ _ _ name ext Hnd1 Htry1) as (sorted & Hs1 & Hf1).
  destruct (renumber_try_done now _ _ _ _ _ _ name ext Hnd2 Htry2) as (sorted' & Hs2 & Hf2).
  rewrite <- Hb, Hs1 in Hs2. injection Hs2 as <-.
  exists sorted. split; [by apply sort_key_int_Some in Hs1 as (_ & _ & ? & _)|].
  intros i t Hi. destruct (Hf1 i t Hi) as (ino1 & ? & ?).
  destruct (Hf2 i t Hi) as (ino2 & ? & ?). by exists ino1, ino2.
Qed.

(** ** Runs on a listing without temporary names *)

Lemma seq_member_is_seq_file w path file :
  is_seq_file w path file = true ↔ is_Some (seq_member (nodes w) path file).
Proof.
  unfold is_seq_file, seq_member, os_path_isfile, parse_seq, full_path_of.
  destruct (nodes w !! _) as [[?|]|]; cbn.
  2,3: split; [done|by intros [? ?]].
  destruct (Py.split "." file) as [|a [|b [|c [|? ?]]]].
  1,2,3,5: split; [done|by intros [? ?]].
  destruct (Py.isnumeric b); split; try done; try (by eauto); by intros [? ?].
Qed.

Lemma foldl_dict_set_fresh (d ps : list (string * string)) :
  NoDup (d.*1 ++ ps.*1) → foldl (λ d p, dict_set p.1 p.2 d) d ps = d ++ ps.
Proof.
  revert d. induction ps as [|p ps IH]; intros d Hnd; cbn; [by rewrite app_nil_r|].
  rewrite IH.
  - rewrite dict_set_fresh; [by rewrite <- app_assoc; destruct p|].
    apply NoDup_app in Hnd as (_ & Hd & _). intros Hin. apply (Hd _ Hin). left.
  - rewrite dict_set_fresh.
    + rewrite fmap_app. cbn. rewrite <- app_assoc. done.
    + apply NoDup_app in Hnd as (_ & Hd & _). intros Hin. apply (Hd _ Hin). left.
Qed.

Lemma foldl_dict_set_elem (d ps : list (string * string)) k v :
  (k, v) ∈ foldl (λ d p, dict_set p.1 p.2 d) d ps → (k, v) ∈ d ∨ (k, v) ∈ ps.
Proof.
  revert d. induction ps as [|p ps IH]; intros d; cbn; [by left|].
  intros [Hin|Hin]%IH; [|right; by right].
  assert (∀ d', (k, v) ∈ dict_set p.1 p.2 d' → (k, v) ∈ d' ∨ (k, v) = p) as Hset.
  { clear. induction d' as [|[k' v'] d' IH]; cbn.
    - intros ->%list_elem_of_singleton. right. by destruct p.
    - destruct (decide (p.1 = k')) as [<-|].
      + intros [->|?]%elem_of_cons; [right; by destruct p|left; by right].
      + intros [->|[?| ->]%IH]%elem_of_cons; [left; left|left; by right|by right]. }
  destruct (Hset _ Hin) as [?| ->]; [by left|right; left].
Qed.

Lemma distinct_moves_prefix ps qs : ps `prefix_of` qs → distinct_moves qs → distinct_moves ps.
Proof. intros [r ->] H. by apply distinct_moves_app in H as [? _]. Qed.

Lemma elem_of_prefix {A} (ps qs : list A) x : ps `prefix_of` qs → x ∈ ps → x ∈ qs.
Proof. intros [r ->] H. apply elem_of_app. by left. Qed.

Lemma contains_empty c r : Py.contains (String c r) EmptyString = false.
Proof. done. Qed.

Section listed_facts.
Variable now : datetime.
Variables (path : string) (start width : Z) (files : list string) (w : World).
Hypothesis Hlist : listing_of w path files.
Hypothesis Htemp : no_temp_names now files.

Local Abbreviation st := (staged (nodes w) path files).
Local Abbreviation seqs := (foldl add_token [] (staged (nodes w) path files).*2).

Lemma files_NoDup : NoDup files.
Proof. by eapply listing_of_NoDup. Qed.

Lemma tmp_name_contains x : Py.contains (TEMP_SUFIX now) (tmp_name now x) = true.
Proof.
  unfold tmp_name.
  replace (x.1.1 +:+ "." +:+ (x.1.2 +:+ TEMP_SUFIX now) +:+ "." +:+ x.2)
    with ((x.1.1 +:+ "." +:+ x.1.2) +:+ TEMP_SUFIX now +:+ ("." +:+ x.2))
    by (by rewrite !string_app_assoc).
  apply contains_app.
Qed.

Lemma tmp_name_not_listed x : tmp_name now x ∉ files.
Proof.
  intros Hin. eapply Forall_forall in Htemp; [|done].
  by rewrite tmp_name_contains in Htemp.
Qed.

Lemma listed_nochar f : f ∈ files → nochar "/" f = true.
Proof.
  intros (_ & Hc & _)%(listing_of_elem _ _ _ _ Hlist).
  rewrite contains_char in Hc. by destruct (nochar "/" f).
Qed.

Lemma member_nochar f x :
  (f, x) ∈ st →
  nochar "/" x.1.1 = true ∧ nochar "/" x.1.2 = true ∧ nochar "/" x.2 = true.
Proof.
  intros Hin. pose proof Hin as [Hf _]%elem_of_staged.
  apply staged_parse in Hin as (E & _)%parse_seq_Some.
  apply listed_nochar in Hf. rewrite E, !nochar_app in Hf.
  repeat (apply andb_true_iff in Hf as [? Hf]). done.
Qed.

Lemma listed_complete n :
  n ≠ EmptyString → nochar "/" n = true →
  is_Some (nodes w !! full_path_of path n) → n ∈ files.
Proof.
  intros Hn Hc Hs. apply (listing_of_elem _ _ _ _ Hlist). split; [done|]. split; [|done].
  rewrite contains_char, Hc. done.
Qed.

(** The temporary name of a member is free when the run starts. *)
Lemma tmp_fresh f x : (f, x) ∈ st → nodes w !! full_path_of path (tmp_name now x) = None.
Proof.
  intros Hin. destruct (nodes w !! _) eqn:E; [|done]. exfalso.
  apply (tmp_name_not_listed x). apply listed_complete; [| |by rewrite E].
  - intros E0. pose proof (tmp_name_contains x) as Hc. rewrite E0 in Hc.
    destruct (suffix_head now) as [r Hr]. by rewrite Hr in Hc.
  - destruct (member_nochar _ _ Hin) as (? & ? & ?). unfold tmp_name.
    rewrite !nochar_app. rewrite suffix_nochar by done.
    repeat (apply andb_true_iff; split); done.
Qed.

Lemma stage_pairs_fresh p :
  p ∈ stage_pairs now path st → is_Some (nodes w !! p.1) ∧ nodes w !! p.2 = None.
Proof.
  intros (f & x & Hin & ->)%stage_pairs_elem. cbn. split.
  - destruct (staged_file _ _ _ _ _ Hin) as [i ->]. eauto.
  - by eapply tmp_fresh.
Qed.

Lemma seqs_valid : valid_seqs seqs.
Proof. apply grouped_valid; [apply staged_snd_NoDup, files_NoDup|apply staged_valid]. Qed.

Lemma seqs_keys_NoDup : NoDup seqs.*1.
Proof. by apply foldl_add_token_keys, NoDup_nil. Qed.

(** The key of every bucket comes from a listed name. *)
Lemma seqs_key_member key :
  key ∈ seqs.*1 → ∃ f t, (f, (key.1, t, key.2)) ∈ st.
Proof.
  intros ([key' toks] & -> & Hin)%list_elem_of_fmap. cbn.
  apply dict_get_elem in Hin; [|apply seqs_keys_NoDup].
  apply dict_get_grouped in Hin as [<- Hne].
  destruct (bucket st.*2 key') as [|t ?] eqn:Eb; [done|].
  assert (t ∈ bucket st.*2 key') as Ht by (rewrite Eb; left).
  apply elem_of_bucket in Ht as ([[n t'] e] & Hx & Ek & E). cbn in *. subst t' key'.
  apply list_elem_of_fmap in Hx as ([f x] & Ex & Hin). cbn in Ex. subst x. eauto.
Qed.

(** A numbering rename with a non-negative frame number that could be
    carried out found its destination free. *)
Lemma renumber_pairs_fresh p :
  0 ≤ start →
  p ∈ renumber_pairs now path start width seqs seqs.*1 →
  moved (nodes w) (stage_pairs now path st) !! p.2 ≠ Some Dir →
  moved (nodes w) (stage_pairs now path st) !! p.2 = None ∧
  ∀ f, f ∈ files → p.2 = full_path_of path f → is_seq_file w path f = true.
Proof.
  intros Hstart (key & Hkey & Hp)%elem_of_concat_fmap.
  apply seq_pairs_elem in Hp as (toks & sorted & i & t & Hg & Hs & Hi & ->). cbn.
  destruct (seqs_key_member key Hkey) as (f0 & t0 & Hin0).
  destruct (member_nochar _ _ Hin0) as (Hn1 & _ & He1). cbn [fst snd] in Hn1, He1.
  pose proof (staged_parse _ _ _ _ _ Hin0) as (_ & Hn2 & _ & He2 & _)%parse_seq_Some.
  cbn [fst snd] in Hn2, He2.
  set (k := start + Z.of_nat i). set (g := new_name key.1 k width key.2).
  assert (parse_seq g = Some (key.1, Py.zfill (Py.str k) width, key.2)) as Hg'.
  { apply parse_seq_join; [done..|]. apply zfill_str_isnumeric. lia. }
  assert (g ≠ EmptyString) as Hg0.
  { intros E. by rewrite E in Hg'. }
  assert (nochar "/" g = true) as Hg1.
  { unfold g, new_name. rewrite !nochar_app, Hn1, He1. cbn.
    rewrite (all_chars_nochar digit_or_minus); [done..|apply zfill_str_chars]. }
  assert (∀ ino, nodes w !! full_path_of path g = Some (File ino) →
            (g, (key.1, Py.zfill (Py.str k) width, key.2)) ∈ st) as Hfile.
  { intros ino E. apply elem_of_staged. split.
    - apply listed_complete; [done..|by rewrite E].
    - unfold seq_member. fold (full_path_of path g). by rewrite E. }
  intros Hdir.
  destruct (decide (full_path_of path g ∈ (stage_pairs now path st).*1)) as [Hsrc|Hsrc].
  - split.
    + apply moved_lookup_src; [apply stage_pairs_distinct, files_NoDup|done].
    + intros f Hf ->%full_path_of_inj.
      rewrite stage_pairs_fst in Hsrc.
      apply list_elem_of_fmap in Hsrc as (f' & ->%full_path_of_inj & Hf').
      apply list_elem_of_fmap in Hf' as ([f'' x] & -> & Hin'). cbn.
      apply seq_member_is_seq_file. apply elem_of_staged in Hin' as [_ ->]. eauto.
  - assert (full_path_of path g ∉ (stage_pairs now path st).*2) as Hdst.
    { rewrite stage_pairs_snd.
      intros (x & E%full_path_of_inj & Hx)%list_elem_of_fmap.
      symmetry in E. eapply tmp_new_ne in E; [done|by eapply staged_valid|done..]. }
    rewrite moved_lookup_ne in Hdir |- * by done.
    destruct (nodes w !! full_path_of path g) as [[ino|]|] eqn:E; [|done|].
    + exfalso. apply Hsrc. rewrite stage_pairs_fst.
      apply list_elem_of_fmap. exists g. split; [done|].
      apply list_elem_of_fmap. eexists (_, _). split; [|by eapply Hfile]. done.
    + split; [done|]. intros f Hf ->%full_path_of_inj.
      apply (listing_of_elem _ _ _ _ Hlist) in Hf as (_ & _ & [? Hs']).
      by rewrite E in Hs'.
Qed.
End listed_facts.

Section try_on_listing.
Variable now : datetime.
Variables (path : string) (start width : Z) (files : list string) (w : World).
Hypothesis Hlist : listing_of w path files.
Hypothesis Htemp : no_temp_names now files.
Hypothesis Hstart : 0 ≤ start.

Local Abbreviation st := (staged (nodes w) path files).
Local Abbreviation seqs := (foldl add_token [] (staged (nodes w) path files).*2).
Local Abbreviation P1 := (stage_pairs now path (staged (nodes w) path files)).
Local Abbreviation P2 :=
  (renumber_pairs now path start width
     (foldl add_token [] (staged (nodes w) path files).*2)
     (foldl add_token [] (staged (nodes w) path files).*2).*1).

Lemma events_dst m ps : ev_dst <$> events m ps = ps.*2.
Proof. revert m. induction ps as [|p ps IH]; intros m; cbn; [done|]. by rewrite IH. Qed.

(** What the renames of the [try] block found, whenever it stopped. *)
Lemma try_renames_listed ps1 ps2 :
  ps1 `prefix_of` P1 → ps2 `prefix_of` P2 → (ps1 = P1 ∨ ps2 = []) →
  performed (nodes w) (ps1 ++ ps2) →
  (∀ p, p ∈ ps1 → nodes w !! p.2 = None) ∧
  (∀ p, p ∈ ps2 →
     moved (nodes w) ps1 !! p.2 = None ∧
     ∀ f, f ∈ files → p.2 = full_path_of path f → is_seq_file w path f = true).
Proof.
  intros Hpre1 Hpre2 Hor Hperf. split.
  - intros p Hp. eapply stage_pairs_fresh; [done..|]. by eapply elem_of_prefix.
  - intros p Hp. destruct Hor as [->| ->]; [|by apply elem_of_nil in Hp].
    apply performed_app in Hperf as [_ Hperf].
    apply (renumber_pairs_fresh now path start width files w); [done..| |].
    + by eapply elem_of_prefix.
    + eapply (performed_distinct _ ps2 p); [|done..].
      eapply distinct_moves_prefix; [done|].
      apply renumber_pairs_distinct; [by apply seqs_valid|by apply seqs_keys_NoDup].
Qed.

Lemma P1_P2_dst_disjoint a : a ∈ P1.*2 → a ∉ P2.*2.
Proof.
  rewrite stage_pairs_snd. intros (x & -> & Hx)%list_elem_of_fmap
    (q & E & (key & Hkey & Hq)%elem_of_concat_fmap)%list_elem_of_fmap.
  apply seq_pairs_valid in Hq as (t & k & Hv & ->); [|by apply seqs_valid].
  cbn in E. apply full_path_of_inj in E.
  destruct (valid_member_nochar _ Hv) as (? & _ & ?).
  eapply tmp_new_ne in E; [done|by eapply staged_valid|done..].
Qed.

Lemma P1_src_not_tmp a : a ∈ P1.*1 → ∀ x, a ≠ full_path_of path (tmp_name now x).
Proof.
  rewrite stage_pairs_fst. intros (f & -> & Hf)%list_elem_of_fmap x E%full_path_of_inj.
  apply list_elem_of_fmap in Hf as ([f' x'] & -> & [Hin _]%elem_of_staged).
  cbn in E. subst f'. by eapply tmp_name_not_listed.
Qed.

End try_on_listing.

(** C10, as amended.  For a directory whose listing contains no name that
    embeds the temporary suffix, and a non-negative [start]: every rename
    that the staging pass and the numbering pass carried out, whether the
    [try] block completed or raised on the way, found nothing at its
    destination, and no two of them had the same destination.  (The renames
    of the rollback are not covered.) *)
Theorem no_overwrite now path start width files w :
  listing_of w path files → no_temp_names now files → 0 ≤ start →
  ∃ evs,
    renames (world (state_of (renumber_try now path start width files w)))
    = renames w ++ evs ∧
    Forall (λ ev, ev_replaced ev = None) evs ∧
    NoDup (ev_dst <$> evs).
Proof.
  intros Hlist Htemp Hstart.
  pose proof (listing_of_NoDup _ _ _ Hlist) as Hnd.
  destruct (renumber_try_trace now path start width files w _ Hnd eq_refl)
    as (ps1 & ps2 & Hpre1 & Hpre2 & Hor & _ & _ & Hperf & Hren & _).
  destruct (try_renames_listed now path start width files w Hlist Htemp Hstart
              ps1 ps2 Hpre1 Hpre2 Hor Hperf) as [Hf1 Hf2].
  assert (distinct_moves ps1) as Hd1.
  { eapply distinct_moves_prefix; [done|]. by apply stage_pairs_distinct. }
  assert (distinct_moves ps2) as Hd2.
  { eapply distinct_moves_prefix; [done|].
    apply renumber_pairs_distinct; [by eapply seqs_valid|by apply seqs_keys_NoDup]. }
  exists (events (nodes w) (ps1 ++ ps2)). split; [done|]. split.
  - rewrite events_app, !events_distinct by done. apply Forall_app. split.
    + apply Forall_fmap, Forall_forall. intros p Hp. cbn. by apply Hf1.
    + apply Forall_fmap, Forall_forall. intros p Hp. cbn. by apply Hf2.
  - rewrite events_dst, fmap_app. apply NoDup_app.
    split; [by destruct Hd1 as (_ & ? & _)|]. split; [|by destruct Hd2 as (_ & ? & _)].
    intros a Ha Hb. eapply (P1_P2_dst_disjoint now path start width files w Hlist a).
    + destruct Hpre1 as [r ->]. rewrite fmap_app. apply elem_of_app. by left.
    + destruct Hpre2 as [r ->]. rewrite fmap_app. apply elem_of_app. by left.
Qed.





(** C9, as amended.  For a directory whose listing contains no name that
    embeds the temporary suffix: if a rename of the first loop fails, every
    entry of [renaming_dict] maps the original path of a staged file, now
    free, to the temporary path under which that file is; and if no reverse
    rename raises, [renumber_files] leaves the name space exactly as it
    found it. *)
Theorem rollback_from_staging now path start width files w e s w' :
  listing_of w path files → no_temp_names now files →
  stage_loop now path files {| world := w; renaming_dict := []; seqs_data_dict := [] |}
  = Raised e s →
  renumber_listing now path start width files w = (w', None) →
  (∀ org_name curr_name,
     (org_name, curr_name) ∈ renaming_dict s →
     ∃ ino, nodes w !! org_name = Some (File ino) ∧
            nodes (world s) !! curr_name = Some (File ino) ∧
            nodes (world s) !! org_name = None) ∧
  nodes w' = nodes w.
Proof.
  intros Hlist Htemp Hstage Hret.
  pose proof (listing_of_NoDup _ _ _ Hlist) as Hnd.
  destruct (stage_loop_trace now path files _ _ Hnd Hstage)
    as (pre & post & Hfiles & _ & Htr & _).
  destruct Htr as (_ & Hnodes & _ & _ & Hrd). cbn in Hnodes, Hrd.
  set (ps := stage_pairs now path (staged (nodes w) path pre)) in *.
  assert (ps `prefix_of` stage_pairs now path (staged (nodes w) path files)) as Hpre.
  { subst files ps. unfold staged, stage_pairs. rewrite omap_app, fmap_app. by eexists. }
  assert (distinct_moves ps) as Hd.
  { eapply distinct_moves_prefix; [done|]. by apply stage_pairs_distinct. }
  assert (∀ p, p ∈ ps → is_Some (nodes w !! p.1) ∧ nodes w !! p.2 = None) as Hfresh.
  { intros p Hp. eapply stage_pairs_fresh; [done..|]. by eapply elem_of_prefix. }
  rewrite foldl_dict_set_fresh in Hrd by (by destruct Hd as (? & _)). cbn in Hrd.
  split.
  - intros org curr Hin. rewrite Hrd in Hin.
    apply (elem_of_prefix _ _ _ Hpre) in Hin as Hin'.
    apply stage_pairs_elem in Hin' as (f & x & Hin' & [= -> ->]).
    destruct (staged_file _ _ _ _ _ Hin') as [ino Hino]. exists ino.
    split; [done|]. rewrite Hnodes. split.
    + rewrite <- Hino. apply moved_lookup_dst; [done..|]. by rewrite Hino.
    + apply moved_lookup_src; [done|]. apply list_elem_of_fmap. by eexists (_, _).
  - unfold renumber_listing, renumber_try in Hret. rewrite Hstage in Hret.
    destruct files as [|f0 files0]; [done|]. unfold handle_error in Hret.
    rewrite Hrd in Hret. eapply restore_moved in Hret; [done..|]. done.
Qed.

(** ** Frame numbers *)

(** C7.  Padding: for every frame number, the piece written in the new
    name has the frame number as its value, so nothing is cut off, and its
    length is the larger of [length] and the length of the number written
    without padding, so at least [length].  For a frame number that is not
    negative, as all of them are when [start] is not, the piece consists of
    ASCII decimal digits only, so these are at least [length] digits; a
    negative one keeps its sign in front of the zeros. *)
Theorem padding_is_a_minimum path name ext frame_number width :
  ∃ frame,
    new_path_of path name frame_number width ext
    = path +:+ "/" +:+ name +:+ "." +:+ frame +:+ "." +:+ ext ∧
    frame_value frame = Some frame_number ∧
    Z.of_nat (String.length frame)
    = Z.max width (Z.of_nat (String.length (Py.str frame_number))) ∧
    (0 ≤ frame_number →
     Py.all_chars is_digit frame = true ∧ Py.int frame = Some frame_number).
Proof.
  exists (Py.zfill (Py.str frame_number) width). split; [done|].
  split; [apply frame_value_zfill_str|]. split; [apply zfill_length|].
  intros Hn. split; [by apply zfill_str_digits|by apply int_zfill_str].
Qed.

(** ** Skipped directories and escaping exceptions *)

(** C6, as amended.  If the path does not exist, is not a directory, or is
    a directory with no entry at all, [renumber_files] only logs one warning:
    nothing else changes in the world (so no rename is attempted), no
    exception escapes, and [main] goes on with the following directories.
    If the directory has entries but none of them is a sequence member,
    [renumber_files] changes nothing at all and logs nothing. *)
Theorem skipped_directory now path start width w :
  (os_path_exists w path = false ∨ os_path_isdir w path = false ∨ os_listdir w path = [] →
   ∃ msg,
     renumber_files now path start width w = (logger_warning msg w, None) ∧
     ∀ args, main_loop now start width (path :: args) w
             = main_loop now start width args (logger_warning msg w)) ∧
  (os_path_isdir w path = true → os_listdir w path ≠ [] →
   (∀ file, file ∈ os_listdir w path → is_seq_file w path file = false) →
   renumber_files now path start width w = (w, None)).
Proof.
  split.
  - intros H.
    assert (∃ msg, renumber_files now path start width w = (logger_warning msg w, None))
      as [msg Hmsg].
    { unfold renumber_files, renumber_listing.
      destruct (os_path_exists w path) eqn:E1; cbn; [|by eexists].
      destruct (os_path_isdir w path) eqn:E2; cbn; [|by eexists].
      destruct H as [?|[?|E3]]; [done..|]. rewrite E3. by eexists. }
    exists msg. split; [done|]. intros args. cbn. by rewrite Hmsg.
  - intros Hdir Hne Hskip. unfold renumber_files.
    assert (os_path_exists w path = true) as ->.
    { unfold os_path_exists, os_path_isdir in *. by destruct (nodes w !! path). }
    rewrite Hdir. cbn. unfold renumber_listing.
    destruct (os_listdir w path) as [|f0 files0] eqn:Ef; [done|]. rewrite <- Ef in *.
    assert (∀ files s, (∀ file, file ∈ files → is_seq_file w path file = false) →
              world s = w → stage_loop now path files s = Done s) as Hstage.
    { induction files as [|f files IH]; intros s Hall Hw; [done|]. cbn.
      rewrite stage_file_cases, Hw.
      assert (seq_member (nodes w) path f = None) as ->.
      { destruct (seq_member (nodes w) path f) eqn:E; [|done].
        assert (is_seq_file w path f = true) as Ht.
        { apply seq_member_is_seq_file. by rewrite E. }
        rewrite Hall in Ht; [done|left]. }
      apply IH; [|done]. intros file Hin. apply Hall. by right. }
    unfold renumber_try. rewrite Hstage; done.
Qed.

Lemma main_loop_app now start width pre post w :
  main_loop now start width (pre ++ post) w =
  match main_loop now start width pre w with
  | (w', None) => main_loop now start width post w'
  | r => r
  end.
Proof.
  revert w. induction pre as [|path pre IH]; intros w; cbn; [done|].
  destruct (renumber_files now path start width w) as [w1 [e|]]; [done|]. apply IH.
Qed.

Lemma main_nonempty now start width pre path post cwd w :
  main now start width (pre ++ path :: post) cwd w
  = main_loop now start width (pre ++ path :: post) w.
Proof. unfold main. by destruct pre. Qed.

(** C2, as amended.  Take a directory for which the [try] block raises.
    The exception is caught; three records are logged and the rollback
    runs.
    - If the rollback raises nothing, [renumber_files] returns normally, and
      [main] goes on with the directories that follow in its list.
    - If a reverse rename of the rollback raises, that exception escapes
      from [renumber_files] and from [main], which stops there: the
      directories that follow are not processed. *)
Theorem caught_unless_rollback_raises now start width path w e0 s :
  os_path_isdir w path = true → os_listdir w path ≠ [] →
  renumber_try now path start width (os_listdir w path) w = Raised e0 s →
  (∀ w',
     restore_original_names (renaming_dict s) (logged_failure path e0 (world s))
     = (w', None) →
     renumber_files now path start width w = (w', None) ∧
     ∀ pre post cwd w0,
       main_loop now start width pre w0 = (w, None) →
       main now start width (pre ++ path :: post) cwd w0
       = main_loop now start width post w') ∧
  (∀ w' e,
     restore_original_names (renaming_dict s) (logged_failure path e0 (world s))
     = (w', Some e) →
     renumber_files now path start width w = (w', Some e) ∧
     ∀ pre post cwd w0,
       main_loop now start width pre w0 = (w, None) →
       main now start width (pre ++ path :: post) cwd w0 = (w', Some e)).
Proof.
  intros Hdir Hne Htry.
  assert (renumber_files now path start width w
          = restore_original_names (renaming_dict s) (logged_failure path e0 (world s)))
    as Hfiles.
  { unfold renumber_files, os_path_exists. unfold os_path_isdir in Hdir.
    destruct (nodes w !! path) as [[?|]|] eqn:E; try done. cbn.
    unfold os_path_isdir. rewrite E. cbn. unfold renumber_listing. rewrite Htry.
    by destruct (os_listdir w path). }
  split.
  - intros w' Hr. rewrite Hfiles. split; [done|].
    intros pre post cwd w0 Hpre. rewrite main_nonempty, main_loop_app, Hpre.
    cbn. by rewrite Hfiles, Hr.
  - intros w' e Hr. rewrite Hfiles. split; [done|].
    intros pre post cwd w0 Hpre. rewrite main_nonempty, main_loop_app, Hpre.
    cbn. by rewrite Hfiles, Hr.
Qed.

(** ** The sources of the renames *)

(** The model of [os.rename] leaves out the renaming of a directory and
    answers [OSError] there.  The script never gets that answer: the source
    of every rename it issues is missing or a regular file. *)

Lemma os_rename_keeps_nodir src dst w w' o k :
  os_rename src dst w = (w', o) → nodes w !! k ≠ Some Dir → nodes w' !! k ≠ Some Dir.
Proof.
  destruct o as [e|].
  - by intros (-> & _)%os_rename_Some.
  - intros ([i Hi] & _ & -> & _)%os_rename_None Hk. unfold mv. cbn. rewrite Hi.
    destruct (decide (k = dst)) as [->|]; [by rewrite lookup_insert_eq|].
    rewrite lookup_insert_ne by done.
    destruct (decide (k = src)) as [->|]; [by rewrite lookup_delete_eq|].
    by rewrite lookup_delete_ne.
Qed.

Lemma os_rename_dst_nodir src dst w w' :
  os_rename src dst w = (w', None) → nodes w' !! dst ≠ Some Dir.
Proof.
  intros ([i Hi] & _ & -> & _)%os_rename_None. unfold mv. cbn. rewrite Hi.
  by rewrite lookup_insert_eq.
Qed.

Lemma os_rename_OSError src dst w w' :
  os_rename src dst w = (w', Some OSError) → nodes w !! src = Some Dir.
Proof. unfold os_rename. intros H. by repeat (case_match; simplify_eq/=). Qed.

Lemma dict_set_elem {K V} `{EqDecision K} (k : K) (v : V) d p :
  p ∈ dict_set k v d → p = (k, v) ∨ p ∈ d.
Proof.
  induction d as [|[k' v'] d IH]; cbn.
  - intros ->%list_elem_of_singleton. by left.
  - destruct (decide (k = k')) as [<-|].
    + intros [->|?]%elem_of_cons; [by left|right; by right].
    + intros [->|[?|?]%IH]%elem_of_cons; [right; left|by left|right; by right].
Qed.

Section sources.
Variable now : datetime.

Lemma stage_file_ok path f s o :
  rd_ok s → sd_ok now path s → stage_file now path f s = o →
  rd_ok (state_of o) ∧ (is_done o → sd_ok now path (state_of o)) ∧
  ∀ s', o ≠ Raised OSError s'.
Proof.
  intros Hrd Hsd. rewrite stage_file_cases.
  destruct (seq_member (nodes (world s)) path f) as [x|] eqn:Ex.
  2:{ intros <-. done. }
  apply seq_member_Some in Ex as [[i Hi] _].
  destruct (os_rename _ _ (world s)) as [w' [e|]] eqn:Er; intros <-; cbn.
  - split; [|split; [done|]].
    + intros p Hp. cbn. eapply os_rename_keeps_nodir; [done|]. by apply Hrd.
    + intros s' [= -> _]. apply os_rename_OSError in Er. by rewrite Hi in Er.
  - split; [|split; [|done]].
    + intros p [->|Hp]%dict_set_elem; cbn.
      * by eapply os_rename_dst_nodir.
      * eapply os_rename_keeps_nodir; [done|]. by apply Hrd.
    + intros _ key toks t Hin Ht. cbn in *.
      assert (((key, toks) ∈ seqs_data_dict s ∧ t ∈ toks) ∨
              (key = (x.1.1, x.2) ∧ t = x.1.2) ∨
              (∃ old, (key, old) ∈ seqs_data_dict s ∧ t ∈ old)) as Hcases.
      { unfold add_token in Hin.
        destruct (dict_get (x.1.1, x.2) (seqs_data_dict s)) as [old|] eqn:Eg;
          apply dict_set_elem in Hin as [[= -> ->]|Hin]; try (by left).
        - apply elem_of_app in Ht as [Ht| ->%list_elem_of_singleton].
          + right. right. exists old. split; [by apply dict_get_Some|done].
          + right. by left.
        - apply list_elem_of_singleton in Ht as ->. right. by left. }
      destruct Hcases as [[Hin' Ht']|[[-> ->]|(old & Hin' & Ht')]].
      * eapply os_rename_keeps_nodir; [done|]. by eapply Hsd.
      * cbn. rewrite tmp_path_of_name. by eapply os_rename_dst_nodir.
      * eapply os_rename_keeps_nodir; [done|]. by eapply Hsd.
Qed.

Lemma stage_loop_ok path files s o :
  rd_ok s → sd_ok now path s → stage_loop now path files s = o →
  rd_ok (state_of o) ∧ (is_done o → sd_ok now path (state_of o)) ∧
  ∀ s', o ≠ Raised OSError s'.
Proof.
  revert s. induction files as [|f files IH]; intros s Hrd Hsd; cbn.
  { intros <-. done. }
  destruct (stage_file now path f s) as [s1|e s1] eqn:E1;
    apply stage_file_ok in E1 as (Hrd1 & Hsd1 & Hne1); try done.
  - intros Ho. apply (IH s1); [done|by apply Hsd1|done].
  - intros <-. done.
Qed.

Lemma number_loop_ok path name ext width toks k s o :
  rd_ok s →
  (∀ t, t ∈ toks → nodes (world s) !! tmp_path_of now path name t ext ≠ Some Dir) →
  number_loop now path name ext width toks k s = o →
  rd_ok (state_of o) ∧ (∀ s', o ≠ Raised OSError s') ∧
  seqs_data_dict (state_of o) = seqs_data_dict s ∧
  ∀ q, nodes (world s) !! q ≠ Some Dir → nodes (world (state_of o)) !! q ≠ Some Dir.
Proof.
  revert k s. induction toks as [|t toks IH]; intros k s Hrd Htoks; cbn [number_loop].
  { intros <-. done. }
  destruct (os_rename _ _ (world s)) as [w' [e|]] eqn:Er.
  - intros <-. cbn. split; [|split; [|split; [done|]]].
    + intros p Hp. cbn. eapply os_rename_keeps_nodir; [done|]. by apply Hrd.
    + intros s' [= -> _]. apply os_rename_OSError in Er. eapply Htoks; [left|done].
    + intros q Hq. by eapply os_rename_keeps_nodir.
  - intros Ho. apply IH in Ho as (Hrd' & Hne & Hsd & Hkeep); cbn in *.
    + split; [done|]. split; [done|]. split; [done|].
      intros q Hq. apply Hkeep. by eapply os_rename_keeps_nodir.
    + intros p [->|Hp]%dict_set_elem; cbn.
      * by eapply os_rename_dst_nodir.
      * eapply os_rename_keeps_nodir; [done|]. by apply Hrd.
    + intros t' Ht'. eapply os_rename_keeps_nodir; [done|]. apply Htoks. by right.
Qed.

Lemma renumber_seq_ok path start width key s o :
  rd_ok s → sd_ok now path s → renumber_seq now path start width key s = o →
  rd_ok (state_of o) ∧ sd_ok now path (state_of o) ∧ ∀ s', o ≠ Raised OSError s'.
Proof.
  intros Hrd Hsd. unfold renumber_seq.
  destruct (dict_get key (seqs_data_dict s)) as [toks|] eqn:Eg; [|by intros <-].
  destruct (Py.sort_key_int toks) as [sorted|] eqn:Es; [|by intros <-].
  apply sort_key_int_Some in Es as (_ & _ & Hperm & _). apply dict_get_Some in Eg.
  intros Ho. apply number_loop_ok in Ho as (Hrd' & Hne & Hseqs & Hkeep); cbn in *.
  - split; [done|]. split; [|done]. intros key' toks' t Hin Ht. rewrite Hseqs in Hin.
    apply Hkeep. apply dict_set_elem in Hin as [[= -> ->]|Hin].
    + eapply Hsd; [done|]. by rewrite <- Hperm.
    + by eapply Hsd.
  - done.
  - intros t Ht. eapply Hsd; [done|]. by rewrite <- Hperm.
Qed.

Lemma seqs_loop_ok path start width keys s o :
  rd_ok s → sd_ok now path s → seqs_loop now path start width keys s = o →
  rd_ok (state_of o) ∧ ∀ s', o ≠ Raised OSError s'.
Proof.
  revert s. induction keys as [|key keys IH]; intros s Hrd Hsd; cbn.
  { intros <-. done. }
  destruct (renumber_seq now path start width key s) as [s1|e s1] eqn:E1;
    apply renumber_seq_ok in E1 as (Hrd1 & Hsd1 & Hne1); try done.
  - intros Ho. by apply (IH s1).
  - intros <-. done.
Qed.

Lemma renumber_try_ok path start width files w o :
  renumber_try now path start width files w = o →
  rd_ok (state_of o) ∧ ∀ s', o ≠ Raised OSError s'.
Proof.
  unfold renumber_try.
  destruct (stage_loop _ _ _ _) as [s1|e s1] eqn:E1;
    apply stage_loop_ok in E1 as (Hrd1 & Hsd1 & Hne1);
    try (by intros p ?%elem_of_nil); try (by intros ? ? ? ?%elem_of_nil).
  - intros Ho. apply seqs_loop_ok in Ho; [done..|]. by apply Hsd1.
  - intros <-. done.
Qed.

Lemma restore_ok d w :
  (∀ p, p ∈ d → nodes w !! p.2 ≠ Some Dir) →
  (restore_original_names d w).2 ≠ Some OSError.
Proof.
  revert w. induction d as [|[org curr] d IH]; intros w Hd; cbn; [done|].
  destruct (os_rename curr org w) as [w' [e|]] eqn:Er; cbn.
  - intros [= ->]. apply os_rename_OSError in Er. eapply (Hd (org, curr)); [left|done].
  - apply IH. intros p Hp. eapply os_rename_keeps_nodir; [done|]. apply Hd. by right.
Qed.

(** X10.  The script never asks [os.rename] to move a directory.  Whatever
    the directory holds and whatever fails on the way, the answer that
    [os_rename] keeps for a source that is a directory never comes out of
    the [try] block, and never out of the rollback: a staging rename takes
    a path that has just passed [os.path.isfile] (line 143), a numbering
    rename a temporary path that a staging rename of the same run
    created, and a reverse rename a path that a rename of the same run
    created. *)
Theorem rename_source_never_directory path start width w :
  (∀ files e s, renumber_try now path start width files w = Raised e s → e ≠ OSError) ∧
  (renumber_files now path start width w).2 ≠ Some OSError.
Proof.
  split.
  - intros files e s Htry ->. apply renumber_try_ok in Htry as [_ Hne]. by eapply Hne.
  - unfold renumber_files, renumber_listing.
    destruct (negb (os_path_exists w path)); [done|].
    destruct (negb (os_path_isdir w path)); [done|].
    destruct (os_listdir w path) as [|f0 files0]; [done|].
    destruct (renumber_try _ _ _ _ _ _) as [s|e s] eqn:Htry; [done|].
    apply renumber_try_ok in Htry as [Hrd _]. unfold handle_error.
    apply restore_ok. intros p Hp. cbn. by apply Hrd.
Qed.
End sources.

(** ** The example runs *)

Example split_seq : Py.split "." "shot.0007.png" = ["shot"; "0007"; "png"].
Proof. reflexivity. Qed.

Example split_empty : Py.split "." EmptyString = [EmptyString].
Proof. reflexivity. Qed.

Example split_dots : Py.split "." "a..b." = ["a"; EmptyString; "b"; EmptyString].
Proof. reflexivity. Qed.

Example zfill_pad : Py.zfill (Py.str 12) 3 = "012".
Proof. reflexivity. Qed.

Example zfill_wide : Py.zfill (Py.str 1000) 2 = "1000".
Proof. reflexivity. Qed.

Example zfill_sign : Py.zfill (Py.str (-5)) 3 = "-05".
Proof. reflexivity. Qed.

Example sort_numeric : Py.sort_key_int ["9"; "10"; "2"] = Some ["2"; "9"; "10"].
Proof. reflexivity. Qed.

Example sort_stable :
  Py.sort_key_int ["1"; "01"; "001"; "0"] = Some ["0"; "1"; "01"; "001"].
Proof. reflexivity. Qed.

Example suffix_t0 : TEMP_SUFIX t0 = "_tmp_22-02-05_13-45-10".
Proof. reflexivity. Qed.

(** The example of the specification: [a.9.png], [a.10.png] and [a.2.png]
    with [start = 1] and [length = 2]. *)
Example frames_dir_renumbered :
  let r := renumber_files t0 "d" 1 2 frames_dir in
  r.2 = None ∧ logged r.1 = [] ∧
  map_to_list (nodes r.1)
  ≡ₚ [("d", Dir); ("d/a.01.png", File 2); ("d/a.02.png", File 9);
      ("d/a.03.png", File 10); ("d/b.01.jpg", File 7); ("d/readme.txt", File 100)].
Proof. cbv zeta. split; [by vm_compute|]. split; [by vm_compute|]. compute_done. Qed.

(** Tokens of equal integer value get distinct consecutive numbers. *)
Example equal_values_renumbered :
  let r := renumber_files t0 "d" 1 2 equal_values_dir in
  r.2 = None ∧
  map_to_list (nodes r.1) ≡ₚ [("d", Dir); ("d/a.01.png", File 1); ("d/a.02.png", File 2)].
Proof. cbv zeta. split; [by vm_compute|]. compute_done. Qed.

(** C1.  The rollback after a failure in the numbering pass.  In a
    directory with [a.1.png], [a.2.png] and a subdirectory [a.02.png], the
    second rename of the numbering pass fails on the subdirectory.  The
    rollback then asks for the temporary name of [a.1.png], which no longer
    exists because that file is already [a.01.png]: [FileNotFoundError]
    escapes from [renumber_files], and neither file has its original name. *)
Theorem rollback_after_numbering_failure :
  let r := renumber_files t0 "d" 1 2 two_frames_blocked in
  r.2 = Some FileNotFoundError ∧
  logged r.1 = [(ERROR, "Error found renaming files on d");
                (ERROR, "IsADirectoryError"); (ERROR, "Skipping directory...")] ∧
  nodes r.1 !! "d/a.1.png" = None ∧
  nodes r.1 !! "d/a.01.png" = Some (File 1) ∧
  nodes r.1 !! "d/a.2.png" = None ∧
  nodes r.1 !! "d/a.2_tmp_22-02-05_13-45-10.png" = Some (File 2).
Proof. cbv zeta. split_and!; by vm_compute. Qed.

(** C3.  [renaming_dict] after a rename of the numbering pass.  With the
    single file [a.1.png], the run completes; the renamed file is recorded
    under its temporary path as a new key, and the entry of the original
    path still points to the temporary path, which does not exist any more. *)
Theorem renaming_dict_after_numbering :
  match renumber_try t0 "d" 1 2 (os_listdir one_frame "d") one_frame with
  | Done s =>
      renaming_dict s
      = [("d/a.1.png", "d/a.1_tmp_22-02-05_13-45-10.png");
         ("d/a.1_tmp_22-02-05_13-45-10.png", "d/a.01.png")] ∧
      nodes (world s) !! "d/a.1_tmp_22-02-05_13-45-10.png" = None ∧
      nodes (world s) !! "d/a.01.png" = Some (File 1)
  | Raised _ _ => False
  end.
Proof. vm_compute. done. Qed.

(** C2, counterexample.  The second staging rename in ["d"] fails and so
    does the reverse rename of the rollback: [PermissionError] escapes from
    [renumber_files] and from [main], and ["e"] is never processed. *)
Lemma rollback_exception_escapes :
  (renumber_files t0 "d" 1 2 two_dirs_fail_rollback).2 = Some PermissionError ∧
  let r := main t0 1 2 ["d"; "e"] "." two_dirs_fail_rollback in
  r.2 = Some PermissionError ∧
  nodes r.1 !! "e/b.1.png" = Some (File 3) ∧
  nodes r.1 !! "e/b.01.png" = None.
Proof. cbv zeta. split_and!; by vm_compute. Qed.


(** C6, counterexample.  A directory whose entries are all skipped is
    processed without any warning. *)
Lemma no_warning_without_members :
  os_listdir no_members_dir "d" ≡ₚ ["readme.txt"; "sub"] ∧
  is_seq_file no_members_dir "d" "readme.txt" = false ∧
  is_seq_file no_members_dir "d" "sub" = false ∧
  (renumber_files t0 "d" 1 2 no_members_dir).2 = None ∧
  logged (renumber_files t0 "d" 1 2 no_members_dir).1 = [].
Proof. split_and!; compute_done. Qed.

(** C9, counterexample.  Staging [a.1.png] replaces the file that already
    had its temporary name; the staging of [a.2.png] fails; every reverse
    rename succeeds; the replaced file is gone. *)
Lemma staging_rollback_loses_file :
  let w := temp_named_dir_fail_2nd in
  match stage_loop t0 "d" (os_listdir w "d")
          {| world := w; renaming_dict := []; seqs_data_dict := [] |} with
  | Raised PermissionError _ => True
  | _ => False
  end ∧
  (renumber_files t0 "d" 1 2 w).2 = None ∧
  nodes w !! "d/a.1_tmp_22-02-05_13-45-10.png" = Some (File 3) ∧
  nodes (renumber_files t0 "d" 1 2 w).1 !! "d/a.1_tmp_22-02-05_13-45-10.png" = None ∧
  map_to_list (nodes (renumber_files t0 "d" 1 2 w).1)
  ≡ₚ [("d", Dir); ("d/a.1.png", File 1); ("d/a.2.png", File 2)].
Proof. cbv zeta. split_and!; compute_done. Qed.

(** C10, counterexample.  Neither listing has a name that embeds the
    temporary suffix.  In the first run [start] is 9: the file [a.2.png] is
    renamed to [a.9.png], the next rename meets a directory and fails, and
    the rollback renames the staged [a.9.png] back over it, so that the file
    that was [a.2.png] is lost.  In the second run [start] is negative and a
    rename of the numbering pass replaces [a.-1.png]. *)
Lemma rename_onto_existing_file :
  (no_temp_names t0 (os_listdir blocked_dir "d") ∧
   {| ev_src := "d/a.9_tmp_22-02-05_13-45-10.png"; ev_dst := "d/a.9.png";
      ev_replaced := Some (File 2) |}
   ∈ renames (renumber_files t0 "d" 9 1 blocked_dir).1 ∧
   map_to_list (nodes (renumber_files t0 "d" 9 1 blocked_dir).1)
   ≡ₚ [("d", Dir); ("d/a.9.png", File 9); ("d/a.10.png", Dir)]) ∧
  (no_temp_names t0 (os_listdir negative_name_dir "d") ∧
   {| ev_src := "d/a.1_tmp_22-02-05_13-45-10.png"; ev_dst := "d/a.-1.png";
      ev_replaced := Some (File 2) |}
   ∈ renames (renumber_files t0 "d" (-1) 1 negative_name_dir).1).
Proof. split_and!; compute_done. Qed.

(** ** The theorems at work on the example runs *)

(** [order_preservation] on the sequence [a.*.png] of [frames_dir]. *)
Lemma order_preservation_witness :
  NoDup (os_listdir frames_dir "d") ∧
  renumber_try t0 "d" 1 2 (os_listdir frames_dir "d") frames_dir = Done frames_done ∧
  NoDup (Py.int <$> bucket (staged (nodes frames_dir) "d" (os_listdir frames_dir "d")).*2
                      ("a", "png")) ∧
  ∃ sorted : list (Z * string),
    sorted.*2 ≡ₚ bucket (staged (nodes frames_dir) "d" (os_listdir frames_dir "d")).*2
                   ("a", "png") ∧
    Forall (λ p, Py.int p.2 = Some p.1) sorted ∧
    (∀ i j a b, sorted !! i = Some a → sorted !! j = Some b →
       ((i < j)%nat ↔ a.1 < b.1)) ∧
    (∀ i a, sorted !! i = Some a →
       ∃ ino,
         nodes frames_dir !! full_path_of "d" ("a" +:+ "." +:+ a.2 +:+ "." +:+ "png")
         = Some (File ino) ∧
         nodes (world frames_done) !! new_path_of "d" "a" (1 + Z.of_nat i) 2 "png"
         = Some (File ino)).
Proof.
  assert (NoDup (os_listdir frames_dir "d")) as H1 by compute_done.
  assert (renumber_try t0 "d" 1 2 (os_listdir frames_dir "d") frames_dir = Done frames_done)
    as H2 by (by vm_compute).
  assert (NoDup (Py.int <$> bucket (staged (nodes frames_dir) "d"
                                       (os_listdir frames_dir "d")).*2 ("a", "png")))
    as H3 by compute_done.
  split; [exact H1|]. split; [exact H2|]. split; [exact H3|].
  exact (order_preservation t0 "d" 1 2 _ frames_dir frames_done "a" "png" H1 H2 H3).
Defined.

(** [non_interference] on the sequence [a.*.png], which [frames_dir] and
    [frames_dir'] hold next to different entries. *)
Lemma non_interference_witness :
  NoDup (os_listdir frames_dir "d") ∧ NoDup (os_listdir frames_dir' "d") ∧
  renumber_try t0 "d" 1 2 (os_listdir frames_dir "d") frames_dir = Done frames_done ∧
  renumber_try t0 "d" 1 2 (os_listdir frames_dir' "d") frames_dir' = Done frames_done' ∧
  bucket (staged (nodes frames_dir) "d" (os_listdir frames_dir "d")).*2 ("a", "png")
  = bucket (staged (nodes frames_dir') "d" (os_listdir frames_dir' "d")).*2 ("a", "png") ∧
  ∃ sorted : list string,
    sorted ≡ₚ bucket (staged (nodes frames_dir) "d" (os_listdir frames_dir "d")).*2
                ("a", "png") ∧
    ∀ i t, sorted !! i = Some t →
      ∃ ino1 ino2,
        nodes frames_dir !! full_path_of "d" ("a" +:+ "." +:+ t +:+ "." +:+ "png")
        = Some (File ino1) ∧
        nodes frames_dir' !! full_path_of "d" ("a" +:+ "." +:+ t +:+ "." +:+ "png")
        = Some (File ino2) ∧
        nodes (world frames_done) !! new_path_of "d" "a" (1 + Z.of_nat i) 2 "png"
        = Some (File ino1) ∧
        nodes (world frames_done') !! new_path_of "d" "a" (1 + Z.of_nat i) 2 "png"
        = Some (File ino2).
Proof.
  assert (NoDup (os_listdir frames_dir "d")) as H1 by compute_done.
  assert (NoDup (os_listdir frames_dir' "d")) as H2 by compute_done.
  assert (renumber_try t0 "d" 1 2 (os_listdir frames_dir "d") frames_dir = Done frames_done)
    as H3 by (by vm_compute).
  assert (renumber_try t0 "d" 1 2 (os_listdir frames_dir' "d") frames_dir' = Done frames_done')
    as H4 by (by vm_compute).
  assert (bucket (staged (nodes frames_dir) "d" (os_listdir frames_dir "d")).*2 ("a", "png")
          = bucket (staged (nodes frames_dir') "d" (os_listdir frames_dir' "d")).*2
              ("a", "png")) as H5 by (by vm_compute).
  split; [exact H1|]. split; [exact H2|]. split; [exact H3|]. split; [exact H4|].
  split; [exact H5|].
  exact (non_interference t0 "d" 1 2 _ frames_dir frames_done _ frames_dir' frames_done'
           "a" "png" H1 H2 H3 H4 H5).
Defined.

(** [padding_is_a_minimum] on the 1000th file of a sequence that starts at
    1, with [length = 2]. *)
Lemma padding_is_a_minimum_witness :
  0 ≤ 1000 ∧
  ∃ frame,
    new_path_of "d" "a" 1000 2 "png" = "d" +:+ "/" +:+ "a" +:+ "." +:+ frame +:+ "." +:+ "png" ∧
    frame_value frame = Some 1000 ∧
    Z.of_nat (String.length frame) = Z.max 2 (Z.of_nat (String.length (Py.str 1000))) ∧
    Py.all_chars is_digit frame = true ∧ Py.int frame = Some 1000.
Proof.
  assert (0 ≤ 1000) as H by lia.
  split; [exact H|].
  destruct (padding_is_a_minimum "d" "a" "png" 1000 2) as (frame & H1 & H2 & H3 & H4).
  exists frame. split; [exact H1|]. split; [exact H2|]. split; [exact H3|]. exact (H4 H).
Defined.

Example thousandth_frame : new_path_of "d" "a" 1000 2 "png" = "d/a.1000.png".
Proof. reflexivity. Qed.

Example twelfth_frame : new_path_of "d" "a" 12 3 "png" = "d/a.012.png".
Proof. reflexivity. Qed.

Example negative_frame : new_path_of "d" "a" (-5) 3 "png" = "d/a.-05.png".
Proof. reflexivity. Qed.

(** [no_overwrite] on [frames_dir]. *)
Lemma no_overwrite_witness :
  listing_of frames_dir "d" (os_listdir frames_dir "d") ∧
  no_temp_names t0 (os_listdir frames_dir "d") ∧ 0 ≤ 1 ∧
  ∃ evs,
    renames (world (state_of
      (renumber_try t0 "d" 1 2 (os_listdir frames_dir "d") frames_dir)))
    = renames frames_dir ++ evs ∧
    Forall (λ ev, ev_replaced ev = None) evs ∧
    NoDup (ev_dst <$> evs).
Proof.
  assert (listing_of frames_dir "d" (os_listdir frames_dir "d")) as H1 by (unfold listing_of; reflexivity).
  assert (no_temp_names t0 (os_listdir frames_dir "d")) as H2 by compute_done.
  assert (0 ≤ 1) as H3 by lia.
  split; [exact H1|]. split; [exact H2|]. split; [exact H3|].
  exact (no_overwrite t0 "d" 1 2 _ frames_dir H1 H2 H3).
Defined.


(** [rollback_from_staging] on [two_frames_fail_2nd]. *)
Lemma rollback_from_staging_witness :
  listing_of two_frames_fail_2nd "d" (os_listdir two_frames_fail_2nd "d") ∧
  no_temp_names t0 (os_listdir two_frames_fail_2nd "d") ∧
  stage_loop t0 "d" (os_listdir two_frames_fail_2nd "d")
    {| world := two_frames_fail_2nd; renaming_dict := []; seqs_data_dict := [] |}
  = Raised PermissionError staging_stopped ∧
  renumber_listing t0 "d" 1 2 (os_listdir two_frames_fail_2nd "d") two_frames_fail_2nd
  = ((renumber_listing t0 "d" 1 2 (os_listdir two_frames_fail_2nd "d")
        two_frames_fail_2nd).1, None) ∧
  nodes (renumber_listing t0 "d" 1 2 (os_listdir two_frames_fail_2nd "d")
           two_frames_fail_2nd).1
  = nodes two_frames_fail_2nd.
Proof.
  assert (listing_of two_frames_fail_2nd "d" (os_listdir two_frames_fail_2nd "d"))
    as H1 by (unfold listing_of; reflexivity).
  assert (no_temp_names t0 (os_listdir two_frames_fail_2nd "d")) as H2 by compute_done.
  assert (stage_loop t0 "d" (os_listdir two_frames_fail_2nd "d")
            {| world := two_frames_fail_2nd; renaming_dict := []; seqs_data_dict := [] |}
          = Raised PermissionError staging_stopped) as H3 by (by vm_compute).
  assert (renumber_listing t0 "d" 1 2 (os_listdir two_frames_fail_2nd "d") two_frames_fail_2nd
          = ((renumber_listing t0 "d" 1 2 (os_listdir two_frames_fail_2nd "d")
                two_frames_fail_2nd).1, None)) as H4 by (by vm_compute).
  split; [exact H1|]. split; [exact H2|]. split; [exact H3|]. split; [exact H4|].
  exact (proj2 (rollback_from_staging t0 "d" 1 2 _ two_frames_fail_2nd
                  PermissionError staging_stopped _ H1 H2 H3 H4)).
Defined.

(** [skipped_directory] on a path that does not exist. *)
Lemma skipped_directory_witness :
  os_path_exists frames_dir "nowhere" = false ∧
  ∃ msg,
    renumber_files t0 "nowhere" 1 2 frames_dir = (logger_warning msg frames_dir, None) ∧
    ∀ args, main_loop t0 1 2 ("nowhere" :: args) frames_dir
            = main_loop t0 1 2 args (logger_warning msg frames_dir).
Proof.
  assert (os_path_exists frames_dir "nowhere" = false) as H by (by vm_compute).
  split; [exact H|].
  exact (proj1 (skipped_directory t0 "nowhere" 1 2 frames_dir) (or_introl H)).
Defined.

(** [caught_unless_rollback_raises] on [two_dirs_fail_rollback], where the
    second staging rename in [d] fails and then the reverse rename: [main]
    stops, and [e] is not processed. *)
Lemma caught_unless_rollback_raises_witness :
  os_path_isdir two_dirs_fail_rollback "d" = true ∧
  os_listdir two_dirs_fail_rollback "d" ≠ [] ∧
  renumber_try t0 "d" 1 2 (os_listdir two_dirs_fail_rollback "d") two_dirs_fail_rollback
  = Raised PermissionError rollback_starts ∧
  restore_original_names (renaming_dict rollback_starts)
    (logged_failure "d" PermissionError (world rollback_starts))
  = (rollback_stopped, Some PermissionError) ∧
  main_loop t0 1 2 [] two_dirs_fail_rollback = (two_dirs_fail_rollback, None) ∧
  renumber_files t0 "d" 1 2 two_dirs_fail_rollback = (rollback_stopped, Some PermissionError) ∧
  main t0 1 2 ([] ++ "d" :: ["e"]) "." two_dirs_fail_rollback
  = (rollback_stopped, Some PermissionError).
Proof.
  assert (os_path_isdir two_dirs_fail_rollback "d" = true) as H1 by (by vm_compute).
  assert (os_listdir two_dirs_fail_rollback "d" ≠ []) as H2 by (by vm_compute).
  assert (renumber_try t0 "d" 1 2 (os_listdir two_dirs_fail_rollback "d")
            two_dirs_fail_rollback = Raised PermissionError rollback_starts) as H3
    by (by vm_compute).
  assert (restore_original_names (renaming_dict rollback_starts)
            (logged_failure "d" PermissionError (world rollback_starts))
          = (rollback_stopped, Some PermissionError)) as H4 by (by vm_compute).
  assert (main_loop t0 1 2 [] two_dirs_fail_rollback = (two_dirs_fail_rollback, None)) as H5
    by reflexivity.
  split; [exact H1|]. split; [exact H2|]. split; [exact H3|]. split; [exact H4|].
  split; [exact H5|].
  destruct (proj2 (caught_unless_rollback_raises t0 1 2 "d" two_dirs_fail_rollback _ _
                     H1 H2 H3) _ _ H4) as [Hfiles Hmain].
  split; [exact Hfiles|]. exact (Hmain [] ["e"] "." two_dirs_fail_rollback H5).
Defined.

(** * Further properties of the script *)

(** ** What a call can touch *)

Section entries.
Variable now : datetime.
Variables (path : string) (start width : Z) (files : list string) (w : World).
Hypothesis Hlist : listing_of w path files.

Lemma entry_of_name n :
  n ≠ EmptyString → nochar "/" n = true → entry_name path (full_path_of path n) = Some n.
Proof.
  intros Hn Hc. apply entry_name_Some. split; [done|]. split; [done|].
  by rewrite contains_char, Hc.
Qed.

Lemma tmp_name_entry f x :
  (f, x) ∈ staged (nodes w) path files →
  is_Some (entry_name path (full_path_of path (tmp_name now x))).
Proof.
  intros Hin. erewrite entry_of_name; [done| |].
  - intros E. pose proof (tmp_name_contains now x) as Hc. rewrite E in Hc.
    destruct (suffix_head now) as [r Hr]. by rewrite Hr in Hc.
  - destruct (member_nochar _ _ _ Hlist _ _ Hin) as (? & ? & ?). unfold tmp_name.
    rewrite !nochar_app. rewrite suffix_nochar by done.
    repeat (apply andb_true_iff; split); done.
Qed.

Lemma new_name_nonempty n k e : new_name n k width e ≠ EmptyString.
Proof.
  unfold new_name. intros E. apply (f_equal String.length) in E.
  rewrite !string_app_length in E. cbn in E. lia.
Qed.

(** Every path that a rename of the [try] block names is an immediate
    entry of the directory. *)
Lemma try_pairs_entries p :
  p ∈ stage_pairs now path (staged (nodes w) path files)
      ++ renumber_pairs now path start width
           (foldl add_token [] (staged (nodes w) path files).*2)
           (foldl add_token [] (staged (nodes w) path files).*2).*1 →
  is_Some (entry_name path p.1) ∧ is_Some (entry_name path p.2).
Proof.
  intros [Hp|Hp]%elem_of_app.
  - apply stage_pairs_elem in Hp as (f & x & Hin & ->). cbn. split.
    + pose proof Hin as [Hf _]%elem_of_staged.
      apply (listing_of_elem _ _ _ _ Hlist) in Hf as (? & Hc & _).
      erewrite entry_of_name; [done..|]. rewrite contains_char in Hc.
      by destruct (nochar "/" f).
    + by eapply tmp_name_entry.
  - apply elem_of_concat_fmap in Hp as (key & Hkey & Hp).
    apply seq_pairs_elem in Hp as (toks & sorted & i & t & Hg & Hs & Hi & ->). cbn.
    assert (t ∈ bucket (staged (nodes w) path files).*2 key) as Ht.
    { apply dict_get_grouped in Hg as [-> _].
      apply sort_key_int_Some in Hs as (_ & _ & Hperm & _). rewrite <- Hperm.
      by eapply list_elem_of_lookup_2. }
    apply elem_of_bucket in Ht as ([[n t'] e] & Hx & <- & E). cbn in E. subst t'.
    apply list_elem_of_fmap in Hx as ([f x] & Ex & Hin). cbn in Ex. subst x. cbn. split.
    + by eapply tmp_name_entry.
    + destruct (member_nochar _ _ _ Hlist _ _ Hin) as (Hn & _ & He). cbn [fst snd] in *.
      erewrite entry_of_name; [done|apply new_name_nonempty|].
      unfold new_name. rewrite !nochar_app, Hn, He. cbn.
      rewrite (all_chars_nochar digit_or_minus); [done..|apply zfill_str_chars].
Qed.
End entries.

Lemma renumber_files_outside now path start width w k :
  entry_name path k = None →
  nodes (renumber_files now path start width w).1 !! k = nodes w !! k.
Proof.
  intros Hk. unfold renumber_files.
  destruct (negb (os_path_exists w path)); [done|].
  destruct (negb (os_path_isdir w path)); [done|].
  unfold renumber_listing.
  destruct (os_listdir w path) as [|f0 files0] eqn:Ef; [done|]. rewrite <- Ef.
  assert (listing_of w path (os_listdir w path)) as Hlist by (unfold listing_of; reflexivity).
  destruct (renumber_try_trace now path start width _ w _ (os_listdir_NoDup w path) eq_refl)
    as (ps1 & ps2 & [r1 Hpre1] & [r2 Hpre2] & _ & _ & Hnodes & _ & _ & _ & Hrd).
  assert (∀ p, p ∈ ps1 ++ ps2 → k ≠ p.1 ∧ k ≠ p.2) as Hout.
  { intros p Hp.
    destruct (try_pairs_entries now path start width _ w Hlist p) as [[? H1] [? H2]].
    - rewrite Hpre1, Hpre2. apply elem_of_app in Hp as [Hp|Hp].
      + apply elem_of_app. left. apply elem_of_app. by left.
      + apply elem_of_app. right. apply elem_of_app. by left.
    - split; intros ->; congruence. }
  assert ((k ∉ (ps1 ++ ps2).*1) ∧ (k ∉ (ps1 ++ ps2).*2)) as [Hk1 Hk2].
  { split; intros (p & -> & Hp)%list_elem_of_fmap; by destruct (Hout p Hp). }
  destruct (renumber_try now path start width (os_listdir w path) w) as [s|e s]; cbn in *.
  - rewrite Hnodes. by apply moved_lookup_ne.
  - unfold handle_error. rewrite restore_untouched.
    + cbn. rewrite Hnodes. by apply moved_lookup_ne.
    + intros ([a b] & E & Hkv)%list_elem_of_fmap. rewrite Hrd in Hkv.
      apply foldl_dict_set_elem in Hkv as [?%elem_of_nil|Hkv]; [done|].
      destruct (Hout _ Hkv). by cbn in *.
    + intros ([a b] & E & Hkv)%list_elem_of_fmap. rewrite Hrd in Hkv.
      apply foldl_dict_set_elem in Hkv as [?%elem_of_nil|Hkv]; [done|].
      destruct (Hout _ Hkv). by cbn in *.
Qed.

Lemma main_loop_outside now start width args w k :
  (∀ path, path ∈ args → entry_name path k = None) →
  nodes (main_loop now start width args w).1 !! k = nodes w !! k.
Proof.
  revert w. induction args as [|path args IH]; intros w Hk; [done|]. cbn.
  pose proof (renumber_files_outside now path start width w k) as Hone.
  destruct (renumber_files now path start width w) as [w' [e|]]; cbn in *.
  - apply Hone, Hk. left.
  - rewrite IH; [apply Hone, Hk; left|]. intros p Hp. apply Hk. by right.
Qed.

(** X1.  Only the immediate entries of a directory that is processed can
    change: whatever [renumber_files] does on [path], rollback included, a full
    path that does not name an immediate entry of [path] has the same node, or
    none, afterwards; and [main] leaves alone every path that is not an
    immediate entry of one of the directories it is given, or of the current
    directory when it is given none. *)
Theorem only_directory_entries_change now start width w k :
  (∀ path, entry_name path k = None →
     nodes (renumber_files now path start width w).1 !! k = nodes w !! k) ∧
  (∀ args cwd,
     (∀ path, path ∈ match args with [] => [cwd] | _ => args end →
        entry_name path k = None) →
     nodes (main now start width args cwd w).1 !! k = nodes w !! k).
Proof.
  split.
  - intros path. apply renumber_files_outside.
  - intros args cwd Hk. unfold main. by apply main_loop_outside.
Qed.

(** ** Names that the first loop skips *)

Lemma split_singleton sep s x : Py.split sep s = [x] → s = x.
Proof. intros E. by rewrite <- (join_split sep s), E. Qed.

(** A name whose middle part carries the temporary suffix of any run does
    not follow the convention. *)
Lemma parse_seq_suffixed now name number ext :
  parse_seq (name +:+ "." +:+ (number +:+ TEMP_SUFIX now) +:+ "." +:+ ext) = None.
Proof.
  unfold parse_seq. sapp. rewrite !split_app.
  pose proof (split_nonempty "." name) as H1.
  pose proof (split_nonempty "." ext) as H3.
  destruct (Py.split "." (number +:+ TEMP_SUFIX now)) as [|b lb] eqn:Eb.
  { by apply split_nonempty in Eb. }
  destruct (Py.split "." name) as [|a la]; [done|].
  destruct (Py.split "." ext) as [|c lc]; [done|].
  destruct la as [|a' la]; cbn.
  - destruct lb as [|b' lb]; cbn.
    + destruct lc; [|done].
      apply split_singleton in Eb. subst b. by rewrite isnumeric_suffixed.
    + by destruct lb.
  - destruct la as [|a'' la]; cbn; [by destruct lb|].
    destruct la; cbn; [done|]. done.
Qed.

(** X3.  Temporary names stay behind: an entry that carries a temporary name,
    made by this run or left by an earlier one whose rollback failed, is
    skipped by the first loop of every run: no rename, and no change to either
    dictionary. *)
Theorem temporary_names_are_skipped now now' path name number ext s :
  stage_file now' path (name +:+ "." +:+ (number +:+ TEMP_SUFIX now) +:+ "." +:+ ext) s
  = Done s.
Proof.
  rewrite stage_file_cases. unfold seq_member.
  rewrite parse_seq_suffixed. by destruct (nodes (world s) !! _) as [[?|]|].
Qed.

(** ** Numbers that [int] refuses *)

Lemma mapM_int_elem l keys t : mapM Py.int l = Some keys → t ∈ l → is_Some (Py.int t).
Proof.
  intros H Hin. apply mapM_Some in H.
  apply list_elem_of_lookup in Hin as [i Hi].
  destruct (Forall2_lookup_l _ _ _ _ _ H Hi) as (k & _ & Hk). by rewrite Hk.
Qed.

Lemma sort_key_int_elem l sorted t :
  Py.sort_key_int l = Some sorted → t ∈ l → is_Some (Py.int t).
Proof.
  unfold Py.sort_key_int. destruct (mapM Py.int l) as [keys|] eqn:E; [|done].
  intros _. by eapply mapM_int_elem.
Qed.

(** X4.  A single file is enough to make the [try] block raise: if a listed
    regular file follows the convention with a middle part that [isnumeric]
    accepts and [int] refuses (a superscript digit or a fraction character),
    the [try] block does not complete, whatever the other entries are. *)
Theorem refused_number_fails_the_run now path start width files w file name number ext :
  NoDup files → file ∈ files →
  os_path_isfile w (full_path_of path file) = true →
  Py.split "." file = [name; number; ext] →
  Py.isnumeric number = true → Py.int number = None →
  ∃ e s, renumber_try now path start width files w = Raised e s.
Proof.
  intros Hnd Hin Hfile Hsplit Hnum Hint.
  destruct (renumber_try now path start width files w) as [s|e s] eqn:Htry; [|by eauto].
  exfalso.
  destruct (renumber_try_trace now _ _ _ _ _ _ Hnd Htry)
    as (ps1 & ps2 & _ & _ & _ & Hdone & _).
  destruct (Hdone I) as (_ & _ & Hsorted).
  assert ((file, (name, number, ext)) ∈ staged (nodes w) path files) as Hm.
  { apply elem_of_staged. split; [done|]. unfold seq_member, os_path_isfile, full_path_of in *.
    destruct (nodes w !! _) as [[?|]|]; try done.
    unfold parse_seq. by rewrite Hsplit, Hnum. }
  assert (number ∈ bucket (staged (nodes w) path files).*2 (name, ext)) as Hb.
  { apply elem_of_bucket. exists (name, number, ext). split; [|done].
    apply list_elem_of_fmap. by exists (file, (name, number, ext)). }
  destruct (bucket (staged (nodes w) path files).*2 (name, ext)) as [|t0 toks0] eqn:Eb.
  { by apply elem_of_nil in Hb. }
  assert (dict_get (name, ext) (foldl add_token [] (staged (nodes w) path files).*2)
          = Some (t0 :: toks0)) as Hg.
  { apply dict_get_grouped. by rewrite Eb. }
  destruct (Hsorted (name, ext)) as (toks & sorted & Hg' & Hs).
  { apply dict_get_Some in Hg. apply list_elem_of_fmap. by eexists (_, _). }
  rewrite Hg in Hg'. injection Hg' as <-.
  destruct (sort_key_int_elem _ _ number Hs Hb) as [? E]. congruence.
Qed.

(** ** Renames that nothing disturbs *)

Lemma os_rename_succeeds src dst w i :
  undisturbed w → nodes w !! src = Some (File i) → nodes w !! dst ≠ Some Dir →
  ∃ w', os_rename src dst w = (w', None) ∧ undisturbed w' ∧
        nodes w' = mv (nodes w) (src, dst).
Proof.
  unfold undisturbed, os_rename, mv. intros Hf Hsrc Hdst. cbn. rewrite Hsrc.
  assert (Forall (λ b, b = false) (tail (faults w))) as Ht.
  { destruct (faults w); [done|]. by apply Forall_cons in Hf as [_ ?]. }
  destruct (faults w) as [|[|] l]; [|by apply Forall_cons in Hf as [? _]|].
  - destruct (nodes w !! dst) as [[?|]|]; [|done|]; eexists; split_and!; done.
  - destruct (nodes w !! dst) as [[?|]|]; [|done|]; eexists; split_and!; done.
Qed.

Lemma mv_file m src dst i q :
  m !! src = Some (File i) → q ≠ src →
  (∃ j, m !! q = Some (File j)) → ∃ j, mv m (src, dst) !! q = Some (File j).
Proof.
  intros Hsrc Hq [j Hj]. unfold mv. cbn. rewrite Hsrc.
  destruct (decide (q = dst)) as [->|].
  - rewrite lookup_insert_eq. eauto.
  - rewrite lookup_insert_ne, lookup_delete_ne by done. eauto.
Qed.

(** ** More on the sort *)

Lemma zip_keys l keys : mapM Py.int l = Some keys → zip keys l = keyed <$> l.
Proof.
  intros H%mapM_Some. induction H as [|t k l keys Hk H IH]; [done|].
  cbn. unfold keyed at 1. by rewrite Hk, IH.
Qed.

Lemma sort_key_int_keyed l sorted :
  Py.sort_key_int l = Some sorted → sorted = (Py.sort_by_key (keyed <$> l)).*2.
Proof.
  unfold Py.sort_key_int. destruct (mapM Py.int l) as [keys|] eqn:E; [|done].
  cbn. intros [= <-]. by rewrite (zip_keys _ _ E).
Qed.

Lemma insert_by_key_sublist {A} (x : Z * A) l : l `sublist_of` Py.insert_by_key x l.
Proof.
  induction l as [|y l IH]; cbn; [apply sublist_nil_l|].
  destruct (x.1 <=? y.1); [by apply sublist_cons|by apply sublist_skip].
Qed.

Lemma insert_by_key_before {A} (x b : Z * A) l :
  b ∈ l → x.1 ≤ b.1 → [x; b] `sublist_of` Py.insert_by_key x l.
Proof.
  induction l as [|y l IH]; intros Hb Hle; [by apply elem_of_nil in Hb|]. cbn.
  destruct (x.1 <=? y.1) eqn:E.
  - apply sublist_skip. by apply singleton_sublist_l.
  - apply Z.leb_gt in E. apply elem_of_cons in Hb as [->|Hb]; [lia|].
    apply sublist_cons. by apply IH.
Qed.

(** The sort is stable: of two elements, the one that stands first stays
    first unless its key is larger. *)
Lemma sort_by_key_stable {A} (a b : Z * A) l :
  [a; b] `sublist_of` l → a.1 ≤ b.1 → [a; b] `sublist_of` Py.sort_by_key l.
Proof.
  induction l as [|x l IH]; intros Hs Hle; [by apply sublist_nil_r in Hs|].
  change (Py.sort_by_key (x :: l)) with (Py.insert_by_key x (Py.sort_by_key l)).
  apply sublist_cons_r in Hs as [Hs|(l' & [= <- <-] & Hs)].
  - etrans; [by apply IH|]. apply insert_by_key_sublist.
  - apply insert_by_key_before; [|done].
    rewrite sort_by_key_perm. by apply singleton_sublist_l.
Qed.

Lemma sort_key_int_stable l sorted t1 t2 k1 k2 :
  Py.sort_key_int l = Some sorted →
  [t1; t2] `sublist_of` l → Py.int t1 = Some k1 → Py.int t2 = Some k2 → k1 ≤ k2 →
  [t1; t2] `sublist_of` sorted.
Proof.
  intros ->%sort_key_int_keyed Hs H1 H2 Hle.
  change [t1; t2] with ([keyed t1; keyed t2].*2). apply fmap_sublist.
  apply sort_by_key_stable.
  - apply (fmap_sublist keyed _ _ Hs).
  - unfold keyed. cbn. by rewrite H1, H2.
Qed.

Lemma sublist_pair_lookup {A} (a b : A) l :
  NoDup l → [a; b] `sublist_of` l →
  ∃ i j, (i < j)%nat ∧ l !! i = Some a ∧ l !! j = Some b.
Proof.
  induction l as [|x l IH]; intros Hnd Hs; [by apply sublist_nil_r in Hs|].
  apply NoDup_cons in Hnd as [_ Hnd].
  apply sublist_cons_r in Hs as [Hs|(l' & [= <- <-] & Hs)].
  - destruct (IH Hnd Hs) as (i & j & ? & ? & ?). exists (S i), (S j). split; [lia|done].
  - apply singleton_sublist_l, list_elem_of_lookup in Hs as [j Hj].
    exists 0%nat, (S j). split; [lia|done].
Qed.

(** Two sorted arrangements of the same elements are equal when no two
    keys are equal. *)
Lemma sorted_perm_unique {A} (sp1 sp2 : list (Z * A)) :
  StronglySorted key_le sp1 → StronglySorted key_le sp2 →
  sp1 ≡ₚ sp2 → NoDup sp1.*1 → sp1 = sp2.
Proof.
  revert sp2. induction sp1 as [|a r1 IH]; intros sp2 H1 H2 Hp Hnd.
  { by apply Permutation_nil_l in Hp. }
  destruct sp2 as [|b r2]; [by apply Permutation_nil_r in Hp|].
  apply StronglySorted_inv in H1 as [H1 Ha]. apply StronglySorted_inv in H2 as [H2 Hb].
  cbn in Hnd. apply NoDup_cons in Hnd as [Hna Hnd].
  assert (a = b) as <-.
  { assert (a ∈ b :: r2) as [|Ha2]%elem_of_cons by (rewrite <- Hp; left); [done|].
    assert (b ∈ a :: r1) as [|Hb1]%elem_of_cons by (rewrite Hp; left); [done|].
    exfalso. eapply Forall_forall in Ha; [|done]. eapply Forall_forall in Hb; [|done].
    unfold key_le in *. apply Hna. apply list_elem_of_fmap. exists b. split; [lia|done]. }
  f_equal. apply IH; [done..| |done]. by apply Permutation_cons_inv in Hp.
Qed.

Lemma sort_by_key_unique {A} (sp l : list (Z * A)) :
  StronglySorted key_le sp → sp ≡ₚ l → NoDup sp.*1 → Py.sort_by_key l = sp.
Proof.
  intros Hs Hp Hnd. symmetry. apply sorted_perm_unique; [done| |by rewrite sort_by_key_perm|done].
  apply sort_by_key_sorted.
Qed.

Lemma keyed_snd l : (keyed <$> l).*2 = l.
Proof. rewrite <- list_fmap_compose. rewrite <- (list_fmap_id l) at 2. done. Qed.

Lemma keyed_fst_NoDup l :
  (∀ t, t ∈ l → is_Some (Py.int t)) → NoDup (Py.int <$> l) → NoDup (keyed <$> l).*1.
Proof.
  intros Hint Hnd. apply (NoDup_fmap_1 Some). rewrite <- !list_fmap_compose.
  erewrite list_fmap_ext; [exact Hnd|].
  intros i t Hi. cbn. destruct (Hint t) as [k Hk]; [by eapply list_elem_of_lookup_2|].
  by rewrite Hk.
Qed.

(** Sorting a list whose numbers are pairwise different gives the
    arrangement in increasing order, whatever the order of the list was. *)
Lemma sort_key_int_unique l l' sorted :
  StronglySorted key_le (keyed <$> l) → NoDup (Py.int <$> l) →
  l' ≡ₚ l → Py.sort_key_int l' = Some sorted → sorted = l.
Proof.
  intros Hs Hnd Hp Hsort.
  assert (∀ t, t ∈ l → is_Some (Py.int t)) as Hint.
  { intros t Ht. eapply sort_key_int_elem; [done|]. by rewrite Hp. }
  rewrite (sort_key_int_keyed _ _ Hsort).
  rewrite (sort_by_key_unique (keyed <$> l)); [apply keyed_snd|done| |].
  - by rewrite Hp.
  - by apply keyed_fst_NoDup.
Qed.

Lemma sort_key_int_sorted l sorted :
  Py.sort_key_int l = Some sorted → StronglySorted key_le (keyed <$> sorted).
Proof.
  intros Hs. rewrite (sort_key_int_keyed _ _ Hs).
  pose proof (sort_by_key_sorted (keyed <$> l)) as Hsp.
  pose proof (sort_by_key_perm (keyed <$> l)) as Hp.
  set (sp := Py.sort_by_key (keyed <$> l)) in *.
  assert (keyed <$> sp.*2 = sp) as ->; [|done].
  rewrite <- list_fmap_compose. rewrite <- (list_fmap_id sp) at 2.
  apply list_fmap_ext. intros i p Hi. cbn.
  assert (p ∈ keyed <$> l) as (t & -> & _)%list_elem_of_fmap; [|done].
  rewrite <- Hp. by eapply list_elem_of_lookup_2.
Qed.

(** The result of the sort does not depend on the order of the list when
    no two numbers are equal. *)
Lemma sort_key_int_perm l1 l2 s1 s2 :
  l1 ≡ₚ l2 → NoDup (Py.int <$> l1) →
  Py.sort_key_int l1 = Some s1 → Py.sort_key_int l2 = Some s2 → s1 = s2.
Proof.
  intros Hp Hnd H1 H2. symmetry.
  apply (sort_key_int_unique s1 l2); [by eapply sort_key_int_sorted| |
    |done].
  - apply sort_key_int_Some in H1 as (_ & _ & Hp1 & _). by rewrite Hp1.
  - apply sort_key_int_Some in H1 as (_ & _ & Hp1 & _). by rewrite Hp1, Hp.
Qed.

(** ** The directory after a run that completed *)

Section completed.
Variable now : datetime.
Variables (path : string) (start width : Z) (files : list string) (w : World) (s : State).
Hypothesis Hlist : listing_of w path files.
Hypothesis Htemp : no_temp_names now files.
Hypothesis Hstart : 0 ≤ start.
Hypothesis Hdone : renumber_try now path start width files w = Done s.

Local Abbreviation st := (staged (nodes w) path files).
Local Abbreviation seqs := (foldl add_token [] (staged (nodes w) path files).*2).
Local Abbreviation P1 := (stage_pairs now path (staged (nodes w) path files)).
Local Abbreviation P2 :=
  (renumber_pairs now path start width
     (foldl add_token [] (staged (nodes w) path files).*2)
     (foldl add_token [] (staged (nodes w) path files).*2).*1).

Lemma done_nodes : nodes (world s) = moved (moved (nodes w) P1) P2.
Proof.
  destruct (renumber_try_trace now _ _ _ _ _ _ (listing_of_NoDup _ _ _ Hlist) Hdone)
    as (ps1 & ps2 & _ & _ & _ & Hd & Hnodes & _).
  destruct (Hd I) as (-> & -> & _). cbn in Hnodes. by rewrite Hnodes, moved_app.
Qed.

Lemma done_sorted key :
  key ∈ seqs.*1 →
  ∃ sorted, Py.sort_key_int (bucket st.*2 key) = Some sorted.
Proof.
  intros Hkey.
  destruct (renumber_try_trace now _ _ _ _ _ _ (listing_of_NoDup _ _ _ Hlist) Hdone)
    as (ps1 & ps2 & _ & _ & _ & Hd & _).
  destruct (Hd I) as (_ & _ & Hs). destruct (Hs key Hkey) as (toks & sorted & Hg & Hsort).
  apply dict_get_grouped in Hg as [<- _]. eauto.
Qed.

Lemma bucket_key key : bucket st.*2 key ≠ [] ↔ key ∈ seqs.*1.
Proof.
  split.
  - intros Hne.
    assert (dict_get key seqs = Some (bucket st.*2 key)) as Hg by (by apply dict_get_grouped).
    apply dict_get_Some in Hg. apply list_elem_of_fmap. by eexists (_, _).
  - intros ([key' toks] & -> & Hin)%list_elem_of_fmap. cbn.
    apply dict_get_elem in Hin; [|apply seqs_keys_NoDup].
    by apply dict_get_grouped in Hin as [-> ?].
Qed.

Lemma bucket_member key t :
  t ∈ bucket st.*2 key ↔ ∃ f, (f, (key.1, t, key.2)) ∈ st.
Proof.
  rewrite elem_of_bucket. split.
  - intros ([[n t'] e] & Hx & <- & E). cbn in E. subst t'.
    apply list_elem_of_fmap in Hx as ([f x] & Ex & Hin). cbn in Ex. subst x. eauto.
  - intros [f Hin]. exists (key.1, t, key.2). split; [|by destruct key].
    apply list_elem_of_fmap. by exists (f, (key.1, t, key.2)).
Qed.

Lemma P2_elem p :
  p ∈ P2 ↔
  ∃ key sorted i t,
    Py.sort_key_int (bucket st.*2 key) = Some sorted ∧ sorted !! i = Some t ∧
    p = (full_path_of path (tmp_name now (key.1, t, key.2)),
         full_path_of path (new_name key.1 (start + Z.of_nat i) width key.2)).
Proof.
  split.
  - intros (key & Hkey & Hp)%elem_of_concat_fmap.
    apply seq_pairs_elem in Hp as (toks & sorted & i & t & Hg & Hs & Hi & ->).
    apply dict_get_grouped in Hg as [<- _]. by exists key, sorted, i, t.
  - intros (key & sorted & i & t & Hs & Hi & ->).
    assert (bucket st.*2 key ≠ []) as Hne.
    { intros E. rewrite E in Hs. cbn in Hs. injection Hs as <-. done. }
    eapply renumber_pairs_elem; [by apply bucket_key| |done..].
    by apply dict_get_grouped.
Qed.

Lemma P1_distinct : distinct_moves P1.
Proof. apply stage_pairs_distinct. by eapply listing_of_NoDup. Qed.

Lemma P2_distinct : distinct_moves P2.
Proof. apply renumber_pairs_distinct; [by eapply seqs_valid|apply seqs_keys_NoDup]. Qed.

Lemma P2_src_staged a : a ∈ P2.*1 → a ∈ P1.*2.
Proof.
  intros (p & -> & (key & sorted & i & t & Hs & Hi & ->)%P2_elem)%list_elem_of_fmap. cbn.
  assert (t ∈ bucket st.*2 key) as [f Hin]%bucket_member.
  { apply sort_key_int_Some in Hs as (_ & _ & Hp & _). rewrite <- Hp.
    by eapply list_elem_of_lookup_2. }
  rewrite stage_pairs_snd. apply list_elem_of_fmap. eexists. split; [done|].
  apply list_elem_of_fmap. by exists (f, (key.1, t, key.2)).
Qed.

Lemma P1_dst_renumbered a : a ∈ P1.*2 → a ∈ P2.*1.
Proof.
  rewrite stage_pairs_snd. intros (x & -> & Hx)%list_elem_of_fmap.
  apply list_elem_of_fmap in Hx as ([f x'] & Ex & Hin). cbn in Ex. subst x'.
  destruct x as [[n t] e].
  assert (t ∈ bucket st.*2 (n, e)) as Ht by (apply bucket_member; eauto).
  destruct (done_sorted (n, e)) as [sorted Hs].
  { apply bucket_key. intros E. rewrite E in Ht. by apply elem_of_nil in Ht. }
  assert (t ∈ sorted) as [i Hi]%list_elem_of_lookup.
  { apply sort_key_int_Some in Hs as (_ & _ & Hp & _). by rewrite Hp. }
  apply list_elem_of_fmap. eexists (_, _). split; [|apply P2_elem; by exists (n, e), sorted, i, t].
  done.
Qed.

(** The original path of a member is free after the run, unless a final
    name landed on it. *)
Lemma done_src k : k ∈ P1.*1 → k ∉ P2.*2 → nodes (world s) !! k = None.
Proof.
  intros H1 H2. rewrite done_nodes, moved_lookup_ne; [|
    |done].
  - by apply moved_lookup_src; [apply P1_distinct|].
  - intros H%P2_src_staged. rewrite stage_pairs_snd in H.
    apply list_elem_of_fmap in H as (x & -> & _).
    by eapply (P1_src_not_tmp now path files w Htemp).
Qed.

(** What is neither an original path of a member nor a final name is as it
    was. *)
Lemma done_other k : k ∉ P1.*1 → k ∉ P2.*2 → nodes (world s) !! k = nodes w !! k.
Proof.
  intros H1 H2. rewrite done_nodes.
  destruct (decide (k ∈ P1.*2)) as [Hd|Hd].
  - rewrite moved_lookup_src; [|apply P2_distinct|by apply P1_dst_renumbered].
    rewrite stage_pairs_snd in Hd. apply list_elem_of_fmap in Hd as (x & -> & Hx).
    apply list_elem_of_fmap in Hx as ([f x'] & Ex & Hin). cbn in Ex. subst x'.
    symmetry. by eapply tmp_fresh.
  - rewrite !moved_lookup_ne; try done. intros H%P2_src_staged. done.
Qed.

Lemma key_nochar key :
  bucket st.*2 key ≠ [] →
  nochar "." key.1 = true ∧ nochar "." key.2 = true ∧
  nochar "/" key.1 = true ∧ nochar "/" key.2 = true.
Proof.
  intros Hne. destruct (bucket st.*2 key) as [|t l] eqn:Eb; [done|].
  assert (t ∈ bucket st.*2 key) as [f Hin]%bucket_member by (rewrite Eb; left).
  destruct (member_nochar _ _ _ Hlist _ _ Hin) as (? & _ & ?).
  apply staged_parse in Hin as (_ & ? & _ & ? & _)%parse_seq_Some. done.
Qed.

Lemma new_name_nochar name k ext :
  nochar "/" name = true → nochar "/" ext = true →
  nochar "/" (new_name name k width ext) = true.
Proof.
  intros Hn He. unfold new_name. rewrite !nochar_app, Hn, He. cbn.
  rewrite (all_chars_nochar digit_or_minus); [done..|apply zfill_str_chars].
Qed.

(** Where the members are after the run: the files of sequence
    [(name, ext)] are exactly the ones numbered [start], [start + 1], ...,
    one for each token of the bucket. *)
Lemma done_member_intro name ext i :
  (i < length (bucket st.*2 (name, ext)))%nat →
  seq_member (nodes (world s)) path (new_name name (start + Z.of_nat i) width ext)
  = Some (name, Py.zfill (Py.str (start + Z.of_nat i)) width, ext) ∧
  nochar "/" (new_name name (start + Z.of_nat i) width ext) = true.
Proof.
  intros Hi.
  assert (bucket st.*2 (name, ext) ≠ []) as Hne by (intros E; rewrite E in Hi; cbn in Hi; lia).
  destruct (key_nochar _ Hne) as (Hn & He & Hn' & He'). cbn [fst snd] in *.
  split; [|by apply new_name_nochar].
  destruct (renumber_try_done now _ _ _ _ _ _ name ext (listing_of_NoDup _ _ _ Hlist) Hdone)
    as (sorted & Hs & Hfiles).
  assert (is_Some (sorted !! i)) as [t Ht].
  { apply lookup_lt_is_Some. apply sort_key_int_Some in Hs as (_ & _ & Hp & _).
    by rewrite Hp. }
  destruct (Hfiles i t Ht) as (ino & _ & Hino).
  unfold seq_member. rewrite new_path_of_name in Hino. unfold full_path_of in Hino.
  rewrite Hino. apply parse_seq_join; [done..|]. apply zfill_str_isnumeric. lia.
Qed.

Lemma done_member_elim f x :
  nochar "/" f = true → seq_member (nodes (world s)) path f = Some x →
  ∃ i, (i < length (bucket st.*2 (x.1.1, x.2)))%nat ∧
       x.1.2 = Py.zfill (Py.str (start + Z.of_nat i)) width ∧
       f = new_name x.1.1 (start + Z.of_nat i) width x.2.
Proof.
  intros Hc Hm. apply seq_member_Some in Hm as [[ino Hino] Hparse].
  destruct (decide (full_path_of path f ∈ P2.*2)) as [Hd|Hd].
  - apply list_elem_of_fmap in Hd as (p & E & (key & sorted & i & t & Hs & Hi & ->)%P2_elem).
    destruct key as [n e].
    cbn in E. apply full_path_of_inj in E. subst f. cbn [fst snd] in *.
    assert (bucket st.*2 (n, e) ≠ []) as Hne.
    { intros E. rewrite E in Hs. cbn in Hs. injection Hs as <-. done. }
    destruct (key_nochar _ Hne) as (Hn & He & _).
    cbn [fst snd] in *.
    assert (parse_seq (new_name n (start + Z.of_nat i) width e)
            = Some (n, Py.zfill (Py.str (start + Z.of_nat i)) width, e)) as Hp'.
    { apply parse_seq_join; [done..|]. apply zfill_str_isnumeric. lia. }
    rewrite Hp' in Hparse. injection Hparse as <-. cbn [fst snd].
    exists i. split; [|done]. apply lookup_lt_Some in Hi.
    apply sort_key_int_Some in Hs as (_ & _ & Hp & _). by rewrite <- Hp.
  - exfalso. destruct (decide (full_path_of path f ∈ P1.*1)) as [Hsrc|Hsrc].
    + rewrite done_src in Hino; done.
    + rewrite done_other in Hino by done. apply Hsrc.
      rewrite stage_pairs_fst. apply list_elem_of_fmap. exists f. split; [done|].
      apply list_elem_of_fmap. exists (f, x). split; [done|].
      apply elem_of_staged. split.
      * apply (listed_complete _ _ _ Hlist); [|done|by rewrite Hino].
        intros ->. done.
      * unfold seq_member. fold (full_path_of path f). by rewrite Hino.
Qed.
End completed.

Lemma seq_member_split w path file name number ext :
  is_seq_file w path file = true → Py.split "." file = [name; number; ext] →
  seq_member (nodes w) path file = Some (name, number, ext).
Proof.
  intros [x Hx]%seq_member_is_seq_file Hsplit. rewrite Hx. f_equal.
  apply seq_member_Some in Hx as [_ Hx]. unfold parse_seq in Hx. rewrite Hsplit in Hx.
  by destruct (Py.isnumeric number); simplify_eq.
Qed.

Lemma seq_member_parts m path file x :
  seq_member m path file = Some x →
  Py.split "." file = [x.1.1; x.1.2; x.2] ∧ file = x.1.1 +:+ "." +:+ x.1.2 +:+ "." +:+ x.2.
Proof.
  intros [_ (E & ? & ? & ? & _)%parse_seq_Some]%seq_member_Some. split; [|done].
  rewrite E. sapp. by apply split_three.
Qed.

(** X6.  After a run that completed, the numbering has no gaps. For a listing
    without temporary names and a non-negative [start], the entries of the
    directory that follow the convention with name [name] and extension [ext]
    are, after the run, exactly the files numbered [start], [start + 1], ...,
    [start + n - 1], padded, where [n] is the number of files that the sequence
    had before the run. *)
Theorem frames_are_consecutive now path start width files w s name ext :
  listing_of w path files → no_temp_names now files → 0 ≤ start →
  renumber_try now path start width files w = Done s →
  ∀ file number,
    (file ∈ os_listdir (world s) path ∧ is_seq_file (world s) path file = true ∧
     Py.split "." file = [name; number; ext])
    ↔ ∃ i, (i < length (bucket (staged (nodes w) path files).*2 (name, ext)))%nat ∧
           number = Py.zfill (Py.str (start + Z.of_nat i)) width ∧
           file = name +:+ "." +:+ number +:+ "." +:+ ext.
Proof.
  intros Hlist Htemp Hstart Hdone file number. split.
  - intros (Hin & Hseq & Hsplit).
    apply elem_of_os_listdir in Hin as (_ & Hc & _).
    rewrite contains_char in Hc. apply negb_false_iff in Hc.
    pose proof (seq_member_split _ _ _ _ _ _ Hseq Hsplit) as Hm.
    destruct (done_member_elim now path start width files w s Hlist Htemp Hstart Hdone
                _ _ Hc Hm) as (i & Hi & Hnum & Hfile).
    cbn [fst snd] in *. exists i. split; [done|]. split; [done|]. by rewrite Hnum.
  - intros (i & Hi & -> & ->).
    destruct (done_member_intro now path start width files w s Hlist Hstart Hdone
                name ext i Hi) as [Hm Hc].
    unfold new_name in Hm, Hc. split; [|split].
    + apply elem_of_os_listdir. split; [|split].
      * intros E. rewrite E in Hm. apply seq_member_Some in Hm as [_ Hm]. done.
      * by rewrite contains_char, Hc.
      * apply seq_member_Some in Hm as [[ino ->] _]. eauto.
    + apply seq_member_is_seq_file. by rewrite Hm.
    + by apply seq_member_parts in Hm as [? _].
Qed.

(** X7.  The order in which the operating system lists the directory does not
    matter when, in every sequence, the numbers are pairwise different: two
    runs that completed on the same directory, read in two different orders,
    leave the same name space. *)
Theorem listing_order_is_irrelevant now path start width files1 files2 w s1 s2 :
  listing_of w path files1 → listing_of w path files2 →
  no_temp_names now files1 → 0 ≤ start →
  (∀ key, NoDup (Py.int <$> bucket (staged (nodes w) path files1).*2 key)) →
  renumber_try now path start width files1 w = Done s1 →
  renumber_try now path start width files2 w = Done s2 →
  nodes (world s1) = nodes (world s2).
Proof.
  intros Hl1 Hl2 Ht1 Hstart Hdistinct Hd1 Hd2.
  assert (files1 ≡ₚ files2) as Hperm by (unfold listing_of in *; by rewrite Hl1, Hl2).
  assert (no_temp_names now files2) as Ht2 by (unfold no_temp_names; by rewrite <- Hperm).
  assert (staged (nodes w) path files1 ≡ₚ staged (nodes w) path files2) as Hst.
  { unfold staged. by rewrite Hperm. }
  assert (∀ key, bucket (staged (nodes w) path files1).*2 key
                 ≡ₚ bucket (staged (nodes w) path files2).*2 key) as Hb.
  { intros key. unfold bucket. by rewrite Hst. }
  assert (∀ key sorted,
            Py.sort_key_int (bucket (staged (nodes w) path files1).*2 key) = Some sorted ↔
            Py.sort_key_int (bucket (staged (nodes w) path files2).*2 key) = Some sorted)
    as Hsort.
  { intros key sorted.
    destruct (bucket (staged (nodes w) path files1).*2 key) as [|t l] eqn:E1.
    { specialize (Hb key). rewrite E1 in Hb. apply Permutation_nil_l in Hb. by rewrite Hb. }
    assert (bucket (staged (nodes w) path files1).*2 key ≠ []) as Hne1 by (by rewrite E1).
    assert (bucket (staged (nodes w) path files2).*2 key ≠ []) as Hne2.
    { intros E2. specialize (Hb key). rewrite E2 in Hb. by apply Permutation_nil_r in Hb. }
    destruct (done_sorted now path start width files1 w s1 Hl1 Hd1 key) as [r1 Hr1];
      [by apply bucket_key|].
    destruct (done_sorted now path start width files2 w s2 Hl2 Hd2 key) as [r2 Hr2];
      [by apply bucket_key|].
    assert (r1 = r2) as <-.
    { eapply sort_key_int_perm; [apply Hb|apply Hdistinct|done..]. }
    rewrite <- E1, Hr1, Hr2. done. }
  assert (∀ p, p ∈ renumber_pairs now path start width
                     (foldl add_token [] (staged (nodes w) path files1).*2)
                     (foldl add_token [] (staged (nodes w) path files1).*2).*1 ↔
               p ∈ renumber_pairs now path start width
                     (foldl add_token [] (staged (nodes w) path files2).*2)
                     (foldl add_token [] (staged (nodes w) path files2).*2).*1) as HP2.
  { intros p. rewrite !P2_elem. by setoid_rewrite Hsort. }
  assert (∀ k, k ∈ (stage_pairs now path (staged (nodes w) path files1)).*1 ↔
               k ∈ (stage_pairs now path (staged (nodes w) path files2)).*1) as HP1.
  { intros k. by rewrite !stage_pairs_fst, Hst. }
  apply map_eq. intros k.
  destruct (decide (k ∈ (renumber_pairs now path start width
                     (foldl add_token [] (staged (nodes w) path files1).*2)
                     (foldl add_token [] (staged (nodes w) path files1).*2).*1).*2))
    as [Hk|Hk].
  - apply list_elem_of_fmap in Hk as (p & -> & (key & sorted & i & t & Hs & Hi & ->)%P2_elem).
    cbn. destruct key as [name ext]. cbn [fst snd].
    destruct (renumber_try_done now _ _ _ _ _ _ name ext (listing_of_NoDup _ _ _ Hl1) Hd1)
      as (r1 & Hr1 & Hf1).
    destruct (renumber_try_done now _ _ _ _ _ _ name ext (listing_of_NoDup _ _ _ Hl2) Hd2)
      as (r2 & Hr2 & Hf2).
    apply Hsort in Hr2. rewrite Hs in Hr1, Hr2. injection Hr1 as <-. injection Hr2 as <-.
    destruct (Hf1 i t Hi) as (ino1 & Hw1 & E1). destruct (Hf2 i t Hi) as (ino2 & Hw2 & E2).
    rewrite new_path_of_name in E1, E2. rewrite E1, E2. congruence.
  - assert (k ∉ (renumber_pairs now path start width
                     (foldl add_token [] (staged (nodes w) path files2).*2)
                     (foldl add_token [] (staged (nodes w) path files2).*2).*1).*2) as Hk'.
    { intros (p & E & Hp)%list_elem_of_fmap. apply Hk. apply list_elem_of_fmap.
      exists p. split; [done|]. by apply HP2. }
    destruct (decide (k ∈ (stage_pairs now path (staged (nodes w) path files1)).*1)) as [H1|H1].
    + rewrite (done_src now path start width files1 w s1) by done.
      rewrite (done_src now path start width files2 w s2); try done. by apply HP1.
    + rewrite (done_other now path start width files1 w s1) by done.
      rewrite (done_other now path start width files2 w s2); try done.
      intros ?. by apply H1, HP1.
Qed.

Lemma frames_lookup start width n i :
  (i < n)%nat → frames start width n !! i = Some (Py.zfill (Py.str (start + Z.of_nat i)) width).
Proof. intros Hi. unfold frames. by rewrite list_lookup_fmap, lookup_seq_lt. Qed.

Lemma frames_length start width n : length (frames start width n) = n.
Proof. unfold frames. by rewrite length_fmap, length_seq. Qed.

Lemma elem_of_frames start width n t :
  t ∈ frames start width n ↔ ∃ i, (i < n)%nat ∧ t = Py.zfill (Py.str (start + Z.of_nat i)) width.
Proof.
  unfold frames. rewrite list_elem_of_fmap. split.
  - intros (i & -> & Hi%elem_of_seq). exists i. split; [lia|done].
  - intros (i & Hi & ->). exists i. split; [done|]. apply elem_of_seq. lia.
Qed.

Lemma frames_int start width n :
  0 ≤ start →
  Py.int <$> frames start width n = (λ i : nat, Some (start + Z.of_nat i)) <$> seq 0 n.
Proof.
  intros Hs. unfold frames. rewrite <- list_fmap_compose. apply list_fmap_ext.
  intros i j _. cbn. apply int_zfill_str. lia.
Qed.

Lemma frames_NoDup_int start width n : 0 ≤ start → NoDup (Py.int <$> frames start width n).
Proof.
  intros Hs. rewrite frames_int by done. apply NoDup_fmap_2; [|apply NoDup_seq].
  intros i j [= E]. lia.
Qed.

Lemma frames_NoDup start width n : 0 ≤ start → NoDup (frames start width n).
Proof. intros Hs. eapply NoDup_fmap_1. by apply frames_NoDup_int. Qed.

Lemma frames_sorted start width n :
  0 ≤ start → StronglySorted key_le (keyed <$> frames start width n).
Proof.
  intros Hs. unfold frames. rewrite <- list_fmap_compose.
  generalize 0%nat. induction n as [|n IH]; intros a; cbn; [constructor|].
  constructor; [apply IH|]. apply Forall_fmap, Forall_forall. intros i Hi%elem_of_seq.
  unfold key_le, keyed. cbn. rewrite !int_zfill_str by lia. cbn. lia.
Qed.

(** X8.  Renumbering is idempotent. After a run that completed on a listing
    without temporary names, with a non-negative [start], a second run with the
    same [start] and [length], at any later time and for any order of the
    listing, leaves every entry under the name it has, provided it completes. *)
Theorem second_run_changes_nothing now now' path start width files w s files' s' :
  listing_of w path files → no_temp_names now files → 0 ≤ start →
  renumber_try now path start width files w = Done s →
  listing_of (world s) path files' → no_temp_names now' files' →
  renumber_try now' path start width files' (world s) = Done s' →
  nodes (world s') = nodes (world s).
Proof.
  intros Hlist Htemp Hstart Hdone Hlist' Htemp' Hdone'.
  set (st := staged (nodes w) path files).
  set (st' := staged (nodes (world s)) path files').
  assert (∀ name ext, bucket st'.*2 (name, ext)
                      ≡ₚ frames start width (length (bucket st.*2 (name, ext)))) as Hb.
  { intros name ext. apply NoDup_Permutation.
    - apply bucket_NoDup, staged_snd_NoDup. by eapply listing_of_NoDup.
    - by apply frames_NoDup.
    - intros t. rewrite elem_of_frames. unfold st'. rewrite bucket_member. cbn [fst snd]. split.
      + intros [f [Hf Hm]%elem_of_staged].
        apply (listed_nochar _ _ _ Hlist') in Hf.
        destruct (done_member_elim now path start width files w s Hlist Htemp Hstart Hdone
                    _ _ Hf Hm) as (i & Hi & Hnum & _).
        cbn [fst snd] in *. eauto.
      + intros (i & Hi & ->).
        destruct (done_member_intro now path start width files w s Hlist Hstart Hdone
                    name ext i Hi) as [Hm Hc].
        exists (new_name name (start + Z.of_nat i) width ext).
        apply elem_of_staged. split; [|done].
        apply (listed_complete _ _ _ Hlist'); [apply new_name_nonempty|done|].
        apply seq_member_Some in Hm as [[ino ->] _]. eauto. }
  assert (∀ name ext sorted,
            Py.sort_key_int (bucket st'.*2 (name, ext)) = Some sorted →
            sorted = frames start width (length (bucket st.*2 (name, ext)))) as Hsort.
  { intros name ext sorted Hs.
    eapply sort_key_int_unique; [by apply frames_sorted|by apply frames_NoDup_int| |done].
    apply Hb. }
  subst st st'. apply map_eq. intros k.
  destruct (decide (k ∈ (renumber_pairs now' path start width
                     (foldl add_token [] (staged (nodes (world s)) path files').*2)
                     (foldl add_token [] (staged (nodes (world s)) path files').*2).*1).*2))
    as [Hk|Hk].
  - apply list_elem_of_fmap in Hk as (p & -> & (key & sorted & i & t & Hs & Hi & ->)%P2_elem).
    cbn. destruct key as [name ext]. cbn [fst snd].
    destruct (renumber_try_done now' _ _ _ _ _ _ name ext (listing_of_NoDup _ _ _ Hlist') Hdone')
      as (r & Hr & Hf).
    rewrite Hs in Hr. injection Hr as <-.
    destruct (Hf i t Hi) as (ino & Hbefore & Hafter).
    rewrite new_path_of_name in Hafter. rewrite Hafter, <- Hbefore.
    pose proof (Hsort _ _ _ Hs) as ->.
    rewrite frames_lookup in Hi by (apply lookup_lt_Some in Hi; by rewrite frames_length in Hi).
    injection Hi as <-. done.
  - destruct (decide (k ∈ (stage_pairs now' path (staged (nodes (world s)) path files')).*1))
      as [H1|H1].
    + exfalso. apply Hk. rewrite stage_pairs_fst in H1.
      apply list_elem_of_fmap in H1 as (f & -> & Hf).
      apply list_elem_of_fmap in Hf as ([f' x] & -> & Hin). cbn.
      pose proof Hin as [Hf Hm]%elem_of_staged.
      apply (listed_nochar _ _ _ Hlist') in Hf.
      destruct (done_member_elim now path start width files w s Hlist Htemp Hstart Hdone
                  _ _ Hf Hm) as (i & Hi & Hnum & ->).
      assert (x.1.2 ∈ bucket (staged (nodes (world s)) path files').*2 (x.1.1, x.2)) as Hx.
      { apply bucket_member. exists (new_name x.1.1 (start + Z.of_nat i) width x.2).
        by destruct x as [[??]?]. }
      destruct (done_sorted now' path start width files' (world s) s' Hlist' Hdone' (x.1.1, x.2))
        as [sorted Hs].
      { apply bucket_key. intros E. rewrite E in Hx. by apply elem_of_nil in Hx. }
      pose proof (Hsort _ _ _ Hs) as ->.
      apply list_elem_of_fmap. eexists (_, _). split; [|apply P2_elem].
      2:{ exists (x.1.1, x.2). eexists _, i, _. split; [exact Hs|]. split; [|done].
          by apply frames_lookup. }
      done.
    + by rewrite (done_other now' path start width files' (world s) s').
Qed.

Lemma omap_sublist {A B} (g : A → option B) (l1 l2 : list A) :
  l1 `sublist_of` l2 → omap g l1 `sublist_of` omap g l2.
Proof.
  induction 1 as [|x l1 l2 _ IH|x l1 l2 _ IH]; cbn; [done| |].
  - destruct (g x); [by apply sublist_skip|done].
  - destruct (g x); [by apply sublist_cons|done].
Qed.

Lemma filter_sublist {A} (P : A → Prop) `{∀ x, Decision (P x)} (l1 l2 : list A) :
  l1 `sublist_of` l2 → filter P l1 `sublist_of` filter P l2.
Proof.
  induction 1 as [|x l1 l2 _ IH|x l1 l2 _ IH]; [done| |].
  - rewrite !filter_cons. destruct (decide (P x)); [by apply sublist_skip|done].
  - rewrite filter_cons. destruct (decide (P x)); [by apply sublist_cons|done].
Qed.

Lemma bucket_sublist m path files f1 f2 name ext t1 t2 :
  [f1; f2] `sublist_of` files →
  seq_member m path f1 = Some (name, t1, ext) →
  seq_member m path f2 = Some (name, t2, ext) →
  [t1; t2] `sublist_of` bucket (staged m path files).*2 (name, ext).
Proof.
  intros Hs H1 H2. unfold bucket, staged.
  apply (omap_sublist (λ f, pair f <$> seq_member m path f)) in Hs.
  cbn in Hs. rewrite H1, H2 in Hs. cbn in Hs.
  apply (fmap_sublist snd) in Hs.
  apply (filter_sublist (λ x, (x.1.1, x.2) = (name, ext))) in Hs.
  apply (fmap_sublist (λ x, x.1.2)) in Hs.
  change ([(f1, (name, t1, ext)); (f2, (name, t2, ext))].*2)
    with [(name, t1, ext); (name, t2, ext)] in Hs.
  rewrite !filter_cons, !decide_True, filter_nil in Hs by done. done.
Qed.

(** X9.  The sort is stable, so the listing decides between equal numbers. Of
    two files of one sequence, if the one that the listing gives first has a
    number that is not larger than the number of the other (equal, for
    instance, as with [1] and [01]), it gets the smaller new frame number in a
    run that completes. *)
Theorem listing_decides_between_equal_numbers
    now path start width files w s file1 file2 name ext t1 t2 k1 k2 :
  NoDup files → renumber_try now path start width files w = Done s →
  [file1; file2] `sublist_of` files →
  is_seq_file w path file1 = true → Py.split "." file1 = [name; t1; ext] →
  is_seq_file w path file2 = true → Py.split "." file2 = [name; t2; ext] →
  Py.int t1 = Some k1 → Py.int t2 = Some k2 → k1 ≤ k2 →
  ∃ (i1 i2 ino1 ino2 : nat),
    (i1 < i2)%nat ∧
    nodes w !! full_path_of path file1 = Some (File ino1) ∧
    nodes (world s) !! new_path_of path name (start + Z.of_nat i1) width ext
    = Some (File ino1) ∧
    nodes w !! full_path_of path file2 = Some (File ino2) ∧
    nodes (world s) !! new_path_of path name (start + Z.of_nat i2) width ext
    = Some (File ino2).
Proof.
  intros Hnd Hdone Hsub Hseq1 Hsp1 Hseq2 Hsp2 Hk1 Hk2 Hle.
  pose proof (seq_member_split _ _ _ _ _ _ Hseq1 Hsp1) as Hm1.
  pose proof (seq_member_split _ _ _ _ _ _ Hseq2 Hsp2) as Hm2.
  pose proof (bucket_sublist _ _ _ _ _ _ _ _ _ Hsub Hm1 Hm2) as Hb.
  destruct (renumber_try_done now _ _ _ _ _ _ name ext Hnd Hdone) as (sorted & Hs & Hf).
  pose proof (sort_key_int_stable _ _ _ _ _ _ Hs Hb Hk1 Hk2 Hle) as Hsorted.
  destruct (sublist_pair_lookup t1 t2 sorted) as (i1 & i2 & Hlt & Hi1 & Hi2); [|done|].
  { apply sort_key_int_Some in Hs as (_ & _ & Hp & _). rewrite Hp.
    by apply bucket_NoDup, staged_snd_NoDup. }
  destruct (Hf _ _ Hi1) as (ino1 & Hw1 & Hs1). destruct (Hf _ _ Hi2) as (ino2 & Hw2 & Hs2).
  apply seq_member_parts in Hm1 as [_ E1]. apply seq_member_parts in Hm2 as [_ E2].
  cbn [fst snd] in E1, E2. rewrite <- E1 in Hw1. rewrite <- E2 in Hw2.
  by exists i1, i2, ino1, ino2.
Qed.

(** ** The rollback on its own *)

Lemma restore_succeeds d w :
  undisturbed w → NoDup d.*2 →
  (∀ p, p ∈ d → (∃ i, nodes w !! p.2 = Some (File i)) ∧ nodes w !! p.1 ≠ Some Dir) →
  ∃ w', restore_original_names d w = (w', None).
Proof.
  revert w. induction d as [|[org curr] d IH]; intros w Hu Hnd Hd; cbn; [by eauto|].
  cbn in Hnd. apply NoDup_cons in Hnd as [Hnc Hnd].
  destruct (Hd (org, curr)) as [[i Hi] Ho]; [left|]. cbn in Hi, Ho.
  destruct (os_rename_succeeds curr org w i Hu Hi Ho) as (w' & Hr & Hu' & Hn').
  rewrite Hr. apply IH; [done..|].
  intros p Hp. destruct (Hd p) as [Hf Hdir]; [by right|]. split.
  - rewrite Hn'. eapply mv_file; [done| |done].
    intros E. apply Hnc. apply list_elem_of_fmap. by exists p.
  - eapply os_rename_keeps_nodir; done.
Qed.

(** X11.  The rollback undoes what was done. Take renames that were carried out
    one after the other from a name space [m], each on a regular file and onto
    a free name, with all the names involved pairwise different, and let
    [renaming_dict] list them as (original name, current name). A rollback that
    nothing disturbs then raises nothing and gives [m] back. *)
Theorem rollback_round_trip (renaming_dict : list (string * string)) m w :
  undisturbed w → distinct_moves renaming_dict →
  (∀ p, p ∈ renaming_dict → (∃ i, m !! p.1 = Some (File i)) ∧ m !! p.2 = None) →
  nodes w = moved m renaming_dict →
  ∃ w', restore_original_names renaming_dict w = (w', None) ∧ nodes w' = m.
Proof.
  intros Hu Hd Hm Hw.
  destruct (restore_succeeds renaming_dict w) as [w' Hr]; [done|by destruct Hd as (_ & ? & _)| |].
  - intros [a b] Hp. destruct (Hm _ Hp) as [[i Hi] Hb]. cbn in *. rewrite Hw. split.
    + exists i. rewrite <- Hi. apply moved_lookup_dst; [done..|]. by rewrite Hi.
    + rewrite moved_lookup_src; [done..|]. apply list_elem_of_fmap. by exists (a, b).
  - exists w'. split; [done|]. eapply restore_moved; [done| |done..].
    intros p Hp. destruct (Hm p Hp) as [[i ->] ?]. eauto.
Qed.

Lemma restore_app d1 d2 w :
  restore_original_names (d1 ++ d2) w =
  match restore_original_names d1 w with
  | (w', None) => restore_original_names d2 w'
  | r => r
  end.
Proof.
  revert w. induction d1 as [|[org curr] d1 IH]; intros w; cbn; [done|].
  destruct (os_rename curr org w) as [w' [e|]]; [done|]. apply IH.
Qed.

(** A rollback that has an entry whose current name does not exist, and
    cannot come to exist, raises. *)
Lemma restore_missing d w org curr :
  (org, curr) ∈ d → nodes w !! curr = None → curr ∉ d.*1 →
  is_Some (restore_original_names d w).2.
Proof.
  revert w. induction d as [|[o1 c1] d IH]; intros w Hin Hc Hk; [by apply elem_of_nil in Hin|].
  cbn. destruct (os_rename c1 o1 w) as [w' [e|]] eqn:Er; [by eauto|].
  apply os_rename_None in Er as ([i Hi] & _ & Hn & _). cbn in Hk.
  apply not_elem_of_cons in Hk as [Hk1 Hk].
  apply elem_of_cons in Hin as [[= -> ->]|Hin]; [congruence|].
  apply IH; [done| |done]. rewrite Hn, mv_lookup_ne; [done|cbn..]; congruence.
Qed.

(** X12.  When the numbering pass raises after it has renamed at least one
    file, the rollback raises as well, so that an exception escapes from
    [renumber_files]: the rollback looks for the staged file under its
    temporary name, which it no longer has. *)
Theorem rollback_raises_after_numbering now path start width files w s1 e s :
  listing_of w path files → no_temp_names now files →
  stage_loop now path files {| world := w; renaming_dict := []; seqs_data_dict := [] |}
  = Done s1 →
  seqs_loop now path start width (seqs_data_dict s1).*1 s1 = Raised e s →
  renames (world s) ≠ renames (world s1) →
  is_Some (renumber_listing now path start width files w).2.
Proof.
  intros Hlist Htemp Hstage Hseqs Hren.
  pose proof (listing_of_NoDup _ _ _ Hlist) as Hnd.
  destruct (stage_loop_trace now path files _ _ Hnd Hstage)
    as (pre & post & Hfiles & Hpost & Htr1 & Hsd).
  specialize (Hpost I) as ->. specialize (Hsd I). rewrite app_nil_r in Hfiles. subst pre.
  cbn in Hsd. destruct Htr1 as (_ & Hn1 & _ & _ & Hrd1). cbn in Hn1, Hrd1.
  assert (NoDup (seqs_data_dict s1).*1) as Hkeys by (rewrite Hsd; apply seqs_keys_NoDup).
  destruct (seqs_loop_trace now path start width _ _ _ Hkeys Hseqs)
    as (ps2 & Hpre2 & _ & Htr2).
  destruct Htr2 as (_ & Hn2 & Hr2 & _ & Hrd2). cbn in Hn2, Hr2, Hrd2.
  rewrite Hsd in Hpre2.
  set (P1 := stage_pairs now path (staged (nodes w) path files)) in *.
  assert (distinct_moves P1) as Hd1 by (by apply stage_pairs_distinct).
  assert (distinct_moves ps2) as Hd2.
  { eapply distinct_moves_prefix; [done|].
    apply renumber_pairs_distinct; [by eapply seqs_valid|apply seqs_keys_NoDup]. }
  destruct ps2 as [|[a b] ps2]; [by rewrite Hr2, app_nil_r in Hren|].
  assert (a ∈ P1.*2) as Ha.
  { apply (P2_src_staged now path start width files w).
    apply list_elem_of_fmap. exists (a, b). split; [done|].
    eapply elem_of_prefix; [done|left]. }
  assert (a ∉ P1.*1) as Ha1.
  { intros H. unfold P1 in Ha. rewrite stage_pairs_snd in Ha.
    apply list_elem_of_fmap in Ha as (x & -> & _).
    by eapply (P1_src_not_tmp now path files w Htemp). }
  apply list_elem_of_fmap in Ha as ([org a'] & E & Hin). cbn in E. subst a'.
  rewrite foldl_dict_set_fresh in Hrd1 by (by destruct Hd1 as (? & _)). cbn in Hrd1.
  assert (∃ d2, renaming_dict s = P1 ++ d2) as [d2 Hrd].
  { rewrite Hrd2, Hrd1. rewrite foldl_dict_set_fresh; [by eauto|].
    apply NoDup_app. split; [by destruct Hd1 as (? & _)|]. split; [|by destruct Hd2 as (? & _)].
    intros k Hk1 Hk2. apply list_elem_of_fmap in Hk2 as (p & -> & Hp).
    apply (elem_of_prefix _ _ _ Hpre2), elem_of_concat_fmap in Hp as (key & _ & Hp).
    apply seq_pairs_elem in Hp as (? & ? & ? & t & _ & _ & _ & ->).
    by eapply (P1_src_not_tmp now path files w Htemp). }
  unfold renumber_listing, renumber_try. rewrite Hstage, Hseqs.
  destruct files as [|f0 files0]; [by apply elem_of_nil in Hin|].
  unfold handle_error. rewrite Hrd, restore_app.
  match goal with |- context [restore_original_names P1 ?w0] =>
    pose proof (restore_missing P1 w0 org a Hin) as Hm end.
  destruct Hm as [e' He']; [|done|].
  - cbn. rewrite Hn2. apply moved_lookup_src; [done|left].
  - destruct (restore_original_names P1 _) as [w' [x|]]; [by eauto|done].
Qed.

(** ** The date of the help screen *)

Lemma upper_app a b : Py.upper (a +:+ b) = Py.upper a +:+ Py.upper b.
Proof. induction a as [|c a IH]; sapp; [done|]. cbn. sapp. by rewrite IH. Qed.

Lemma upper_digit n : Py.upper_char (digit n) = digit n.
Proof.
  unfold digit. assert (n mod 10 < 10)%nat as H by (apply Nat.mod_upper_bound; lia).
  destruct (n mod 10)%nat as [|[|[|[|[|[|[|[|[|[|?]]]]]]]]]]; try done. lia.
Qed.

Lemma upper_two_digits n : Py.upper (two_digits n) = two_digits n.
Proof. unfold two_digits. cbn. by rewrite !upper_digit. Qed.

Lemma upper_space_padded n : Py.upper (space_padded n) = space_padded n.
Proof.
  unfold space_padded. destruct (n <? 10)%nat; [|apply upper_two_digits].
  cbn. by rewrite upper_digit.
Qed.

Lemma upper_am_pm t : Py.upper (am_pm t) = am_pm t.
Proof. unfold am_pm. by destruct (hour t <? 12)%nat. Qed.

Lemma upper_is_digit c : is_digit c = true → Py.upper_char c = c.
Proof.
  unfold is_digit, Py.upper_char. cbn zeta. intros [H1 H2]%andb_true_iff.
  destruct ((97 <=? N_of_ascii c)%N && (N_of_ascii c <=? 122)%N) eqn:E; [|done].
  apply andb_true_iff in E as [E1 E2]. apply N.leb_le in H1, H2, E1, E2. lia.
Qed.

Lemma elem_of_zrange n a z : a ≤ z < a + Z.of_nat n → z ∈ zrange n a.
Proof.
  revert a. induction n as [|n IH]; intros a Hz; [lia|]. cbn.
  destruct (decide (z = a)) as [->|]; [left|right; apply IH; lia].
Qed.

Lemma str_four_digits y : 1000 ≤ y ≤ 9999 → four_digits (Py.str y) = true.
Proof.
  intros Hy.
  assert (forallb (λ z, four_digits (Py.str z)) (zrange (Z.to_nat 9000) 1000) = true) as H
    by (by vm_compute).
  rewrite forallb_forall in H. apply H. apply list_elem_of_In, elem_of_zrange. lia.
Qed.

Lemma month_abbr_letters m :
  (1 ≤ m ≤ 12)%nat → ∃ a b c, month_abbr m = String a (String b (String c EmptyString)).
Proof.
  intros Hm. unfold month_abbr.
  destruct m as [|[|[|[|[|[|[|[|[|[|[|[|[|?]]]]]]]]]]]]]; try lia; cbn; eauto.
Qed.

Lemma hour12_cases t :
  (∃ h, (1 ≤ h ≤ 9)%nat ∧ hour12 t = h ∧
        two_digits h = String "0" (String (digit h) EmptyString) ∧
        Py.str (Z.of_nat h) = String (digit h) EmptyString) ∨
  (∃ h, (10 ≤ h ≤ 12)%nat ∧ hour12 t = h ∧
        two_digits h = String "1" (String (digit h) EmptyString) ∧
        Py.str (Z.of_nat h) = String "1" (String (digit h) EmptyString)).
Proof.
  unfold hour12. assert (hour t mod 12 < 12)%nat as H by (apply Nat.mod_upper_bound; lia).
  destruct (hour t mod 12)%nat as [|[|[|[|[|[|[|[|[|[|[|[|?]]]]]]]]]]]]; try lia.
  1,11,12: right; eexists; split; [|split; [reflexivity|split; reflexivity]]; lia.
  all: left; eexists; split; [|split; [reflexivity|split; reflexivity]]; lia.
Qed.

(** X13.  The date in the help screen. For a modification time in a year of
    four digits, [get_script_last_mod_datetime] returns the month in capitals,
    the day, the year and the time on the 12-hour clock with [AM] or [PM],
    where the hour has no leading zero: the characters that the function cuts
    out by position are the space before the hour and the zero of the hour.
    When the modification time cannot be read it returns [N/A]. *)
Theorem last_modified_text :
  get_script_last_mod_datetime None = "N/A" ∧
  ∀ t, 1000 ≤ Z.of_nat (year t) ≤ 9999 → (1 ≤ month t ≤ 12)%nat →
    get_script_last_mod_datetime (Some t)
    = Py.upper (month_abbr (month t)) +:+ space_padded (day t) +:+ " " +:+
      Py.str (Z.of_nat (year t)) +:+ " " +:+
      Py.str (Z.of_nat (hour12 t)) +:+ ":" +:+ two_digits (minute t) +:+ ":" +:+
      two_digits (second t) +:+ " " +:+ am_pm t.
Proof.
  split; [done|]. intros t Hy Hm.
  unfold get_script_last_mod_datetime, strftime_last_mod.
  destruct (month_abbr_letters _ Hm) as (a & b & c & ->).
  pose proof (str_four_digits _ Hy) as Hyear.
  destruct (Py.str (Z.of_nat (year t))) as [|y1 [|y2 [|y3 [|y4 [|? ?]]]]]; try done.
  unfold four_digits in Hyear.
  apply andb_true_iff in Hyear as [[[Hy1 Hy2]%andb_true_iff Hy3]%andb_true_iff Hy4].
  apply upper_is_digit in Hy1, Hy2, Hy3, Hy4.
  assert (Py.upper_char " " = " "%char) as Hsp by done.
  assert (Py.upper_char ":" = ":"%char) as Hcol by done.
  pose proof (upper_two_digits (minute t)) as Hmm.
  pose proof (upper_two_digits (second t)) as Hss.
  pose proof (upper_space_padded (day t)) as Hd. pose proof (upper_am_pm t) as Hp.
  assert (∃ d1 d2, space_padded (day t) = String d1 (String d2 EmptyString)) as (d1 & d2 & Ed).
  { unfold space_padded, two_digits. destruct (day t <? 10)%nat; eauto. }
  rewrite Ed in *.
  set (mm := two_digits (minute t)) in *. set (ss := two_digits (second t)) in *.
  set (ap := am_pm t) in *. clearbody mm ss ap.
  cbn in Hd. injection Hd as Hd1 Hd2.
  destruct (hour12_cases t) as [(h & Hh & -> & -> & ->)|(h & Hh & -> & -> & ->)].
  - pose proof (upper_digit h) as Hh1. set (h1 := digit h) in *. clearbody h1.
    sapp. cbn. rewrite decide_True by done. sapp. cbn. repeat (rewrite upper_app; cbn).
    by rewrite Hd1, Hd2, Hy1, Hy2, Hy3, Hy4, Hh1, Hmm, Hss, Hp, !Hsp, !Hcol.
  - pose proof (upper_digit h) as Hh1. set (h1 := digit h) in *. clearbody h1.
    sapp. cbn. rewrite decide_False by done. sapp. cbn. repeat (rewrite upper_app; cbn).
    by rewrite Hd1, Hd2, Hy1, Hy2, Hy3, Hy4, Hh1, Hmm, Hss, Hp, !Hsp, !Hcol.
Qed.

(** ** Exceptions that stay inside *)

Lemma os_rename_exn src dst w w' e : os_rename src dst w = (w', Some e) → rename_exn e.
Proof.
  unfold os_rename, rename_exn. intros H.
  destruct (faults w) as [|[|] ?]; destruct (nodes w !! src) as [[?|]|];
    try destruct (nodes w !! dst) as [[?|]|]; simplify_eq; eauto.
Qed.

Lemma restore_exn d w e : (restore_original_names d w).2 = Some e → rename_exn e.
Proof.
  revert w. induction d as [|[org curr] d IH]; intros w; cbn; [done|].
  destruct (os_rename curr org w) as [w' [e'|]] eqn:Er; [|apply IH].
  cbn. intros [= <-]. by eapply os_rename_exn.
Qed.

Section raised.
Variable now : datetime.

Lemma stage_loop_exn path files s e s' :
  stage_loop now path files s = Raised e s' → rename_exn e.
Proof.
  revert s. induction files as [|f files IH]; intros s; cbn [stage_loop]; [done|].
  rewrite stage_file_cases.
  destruct (seq_member (nodes (world s)) path f) as [x|]; [|apply IH].
  destruct (os_rename _ _ (world s)) as [w' [e'|]] eqn:Er; [|apply IH].
  intros [= ? ?]; subst. by eapply os_rename_exn.
Qed.

Lemma number_loop_exn path name ext width toks k s e s' :
  number_loop now path name ext width toks k s = Raised e s' →
  rename_exn e ∧ (seqs_data_dict s').*1 = (seqs_data_dict s).*1.
Proof.
  revert k s. induction toks as [|t toks IH]; intros k s; cbn [number_loop]; [done|].
  destruct (os_rename _ _ (world s)) as [w' [e'|]] eqn:Er.
  - intros [= ? ?]; subst. split; [by eapply os_rename_exn|done].
  - intros H. by apply IH in H.
Qed.

Lemma number_loop_keys path name ext width toks k s s' :
  number_loop now path name ext width toks k s = Done s' →
  seqs_data_dict s' = seqs_data_dict s.
Proof.
  intros H. by destruct (number_loop_trace now _ _ _ _ _ _ _ _ H) as (? & ? & _ & _ & _ & ?).
Qed.

(** The loop over the keys of [seqs_data_dict] looks up only keys that the
    dictionary has, so the lookup never fails. *)
Lemma seqs_loop_exn path start width keys s e s' :
  (∀ key, key ∈ keys → key ∈ (seqs_data_dict s).*1) →
  seqs_loop now path start width keys s = Raised e s' →
  rename_exn e ∨ e = ValueError.
Proof.
  revert s. induction keys as [|key keys IH]; intros s Hk; cbn [seqs_loop]; [done|].
  unfold renumber_seq.
  destruct (dict_get key (seqs_data_dict s)) as [toks|] eqn:Eg.
  2:{ apply dict_get_None in Eg. destruct Eg. apply Hk. left. }
  destruct (Py.sort_key_int toks) as [sorted|]; [|intros [= ? ?]; subst; by right].
  assert (key ∈ (seqs_data_dict s).*1) as Hkey by (apply Hk; left).
  destruct (number_loop now path key.1 key.2 width sorted start _) as [s1|e1 s1] eqn:En.
  - apply number_loop_keys in En. apply IH. intros key' Hkey'.
    rewrite En. cbn. rewrite dict_set_keys by done. apply Hk. by right.
  - intros [= ? ?]; subst. left. by apply number_loop_exn in En as [? _].
Qed.

Lemma renumber_try_exn path start width files w e s :
  renumber_try now path start width files w = Raised e s → rename_exn e ∨ e = ValueError.
Proof.
  unfold renumber_try.
  destruct (stage_loop now path files _) as [s1|e1 s1] eqn:Es.
  - by apply seqs_loop_exn.
  - intros [= ? ?]; subst. left. by eapply stage_loop_exn.
Qed.
End raised.

(** X15.  Two exceptions that never leave [renumber_files].  The lookup
    [seqs_data_dict[name, ext]] of the numbering pass never raises
    [KeyError]: the loop asks only for keys that the dictionary has.  The
    [ValueError] of the sort is raised inside the [try] block and caught
    there, and the rollback converts no text to a number and looks up
    nothing: whatever escapes from [renumber_files], and so from [main], is
    neither a [ValueError] nor a [KeyError]. *)
Theorem value_and_key_errors_stay_inside now start width :
  (∀ path files w e s,
     renumber_try now path start width files w = Raised e s → e ≠ KeyError) ∧
  (∀ path w e,
     (renumber_files now path start width w).2 = Some e →
     e ≠ ValueError ∧ e ≠ KeyError) ∧
  (∀ args cwd w e,
     (main now start width args cwd w).2 = Some e →
     e ≠ ValueError ∧ e ≠ KeyError).
Proof.
  assert (∀ e, rename_exn e → e ≠ ValueError ∧ e ≠ KeyError) as Hren.
  { intros e [->|[->|[->| ->]]]; by split. }
  assert (∀ path w e,
            (renumber_files now path start width w).2 = Some e →
            e ≠ ValueError ∧ e ≠ KeyError) as Hfiles.
  { intros path w e He. apply Hren. revert He. unfold renumber_files.
    destruct (negb (os_path_exists w path)); [done|].
    destruct (negb (os_path_isdir w path)); [done|].
    unfold renumber_listing. destruct (os_listdir w path); [done|].
    destruct (renumber_try _ _ _ _ _ _) as [s1|e0 s1]; [done|].
    unfold handle_error. apply restore_exn. }
  split; [|split; [done|]].
  - intros path files w e s Htry.
    apply renumber_try_exn in Htry as [[_ ?]%Hren| ->]; done.
  - intros args cwd w e. unfold main.
    generalize (match args with [] => [cwd] | _ => args end). clear args.
    intros args. revert w. induction args as [|path args IH]; intros w; [done|]. cbn.
    pose proof (Hfiles path w) as Hone.
    destruct (renumber_files now path start width w) as [w' [e'|]]; cbn in *.
    + intros [= <-]. by apply Hone.
    + apply IH.
Qed.

(** ** A failure before the numbering pass has renamed anything *)

(** X16.  A failure that comes early is undone.  On a listing without
    temporary names, if the [try] block raises while every current name
    recorded in [renaming_dict] still exists (a failed staging rename, or
    the [ValueError] of the first sort), and nothing disturbs the rollback,
    then [renumber_files] returns normally and every path has the node it
    had before the call. *)
Theorem early_failure_is_undone now path start width files w e s :
  listing_of w path files → no_temp_names now files →
  renumber_try now path start width files w = Raised e s →
  (∀ p, p ∈ renaming_dict s → is_Some (nodes (world s) !! p.2)) →
  undisturbed (world s) →
  ∃ w', renumber_listing now path start width files w = (w', None) ∧ nodes w' = nodes w.
Proof.
  intros Hlist Htemp Htry Hcur Hu.
  pose proof (listing_of_NoDup _ _ _ Hlist) as Hnd.
  destruct (renumber_try_trace now path start width files w _ Hnd Htry)
    as (ps1 & ps2 & Hpre1 & Hpre2 & Hor & _ & Hnodes & _ & _ & _ & Hrd).
  cbn in Hnodes, Hrd.
  set (P1 := stage_pairs now path (staged (nodes w) path files)) in *.
  assert (distinct_moves P1) as HdP1 by (by apply stage_pairs_distinct).
  assert (distinct_moves ps1) as Hd1 by (by eapply distinct_moves_prefix).
  assert (distinct_moves ps2) as Hd2.
  { eapply distinct_moves_prefix; [done|].
    apply renumber_pairs_distinct; [by eapply seqs_valid|apply seqs_keys_NoDup]. }
  assert (renaming_dict s = ps1 ++ ps2) as Hdict.
  { rewrite Hrd. rewrite foldl_dict_set_fresh; [done|].
    change (NoDup ((ps1 ++ ps2).*1)). rewrite fmap_app.
    apply NoDup_app. split; [by destruct Hd1 as (? & _)|]. split; [|by destruct Hd2 as (? & _)].
    intros k Hk1 Hk2. apply list_elem_of_fmap in Hk2 as (p & -> & Hp).
    apply (elem_of_prefix _ _ _ Hpre2), elem_of_concat_fmap in Hp as (key & _ & Hp).
    apply seq_pairs_elem in Hp as (? & ? & ? & t & _ & _ & _ & ->).
    eapply (P1_src_not_tmp now path files w Htemp); [|done].
    apply list_elem_of_fmap in Hk1 as (q & Eq & Hq). apply list_elem_of_fmap.
    exists q. split; [done|]. by eapply elem_of_prefix. }
  assert (ps2 = []) as ->.
  { destruct ps2 as [|[a b] ps2]; [done|]. exfalso.
    destruct Hor as [->|?]; [|done].
    assert (a ∈ P1.*2) as Ha.
    { apply (P2_src_staged now path start width files w).
      apply list_elem_of_fmap. exists (a, b). split; [done|].
      eapply elem_of_prefix; [done|left]. }
    apply list_elem_of_fmap in Ha as ([org a'] & E & Hin). cbn in E. subst a'.
    destruct (Hcur (org, a)) as [n Hn].
    { rewrite Hdict. apply elem_of_app. by left. }
    cbn in Hn. rewrite Hnodes, moved_app, moved_lookup_src in Hn; [done..|left]. }
  rewrite app_nil_r in *.
  assert (∀ p, p ∈ ps1 → (∃ i, nodes w !! p.1 = Some (File i)) ∧ nodes w !! p.2 = None)
    as Hfresh.
  { intros p Hp. apply (elem_of_prefix _ _ _ Hpre1) in Hp.
    split; [|by eapply stage_pairs_fresh].
    apply stage_pairs_elem in Hp as (f & x & Hin & ->). by eapply staged_file. }
  unfold renumber_listing. rewrite Htry.
  destruct files as [|f0 files0]; [done|]. unfold handle_error. rewrite Hdict.
  match goal with |- context [restore_original_names ps1 ?w0] => set (w1 := w0) end.
  destruct (restore_succeeds ps1 w1) as [w' Hr]; [done|by destruct Hd1 as (_ & ? & _)| |].
  - intros [a b] Hp. destruct (Hfresh _ Hp) as [[i Hi] Hb]. cbn in *. rewrite Hnodes. split.
    + exists i. rewrite <- Hi. apply moved_lookup_dst; [done..|]. by rewrite Hi.
    + rewrite moved_lookup_src; [done..|]. apply list_elem_of_fmap. by exists (a, b).
  - exists w'. split; [done|].
    eapply (restore_moved ps1 (nodes w) w1); [exact Hd1| |exact Hnodes|exact Hr].
    intros p Hp. destruct (Hfresh p Hp) as [[i ->] ?]. eauto.
Qed.

(** ** The further properties at work on the example runs *)

(** [only_directory_entries_change]: a run on [d] in [two_dirs_fail_rollback]
    does not touch the file of [e]. *)
Lemma only_directory_entries_change_witness :
  entry_name "d" "e/b.1.png" = None ∧
  nodes (renumber_files t0 "d" 1 2 two_dirs_fail_rollback).1 !! "e/b.1.png"
  = nodes two_dirs_fail_rollback !! "e/b.1.png".
Proof.
  assert (entry_name "d" "e/b.1.png" = None) as H by (by vm_compute).
  split; [exact H|].
  exact (proj1 (only_directory_entries_change t0 1 2 two_dirs_fail_rollback "e/b.1.png") "d" H).
Defined.

(** [value_and_key_errors_stay_inside] on [two_dirs_fail_rollback], where
    the rollback raises. *)
Lemma value_and_key_errors_stay_inside_witness :
  (renumber_files t0 "d" 1 2 two_dirs_fail_rollback).2 = Some PermissionError ∧
  PermissionError ≠ ValueError ∧ PermissionError ≠ KeyError.
Proof.
  assert ((renumber_files t0 "d" 1 2 two_dirs_fail_rollback).2 = Some PermissionError)
    as H by (by vm_compute).
  split; [exact H|].
  exact (proj1 (proj2 (value_and_key_errors_stay_inside t0 1 2))
           "d" two_dirs_fail_rollback _ H).
Defined.

(** [refused_number_fails_the_run] on [superscript_dir]. *)
Lemma refused_number_fails_the_run_witness :
  NoDup (os_listdir superscript_dir "d") ∧
  "a." +:+ superscript_two +:+ ".png" ∈ os_listdir superscript_dir "d" ∧
  os_path_isfile superscript_dir (full_path_of "d" ("a." +:+ superscript_two +:+ ".png")) = true ∧
  Py.split "." ("a." +:+ superscript_two +:+ ".png") = ["a"; superscript_two; "png"] ∧
  Py.isnumeric superscript_two = true ∧ Py.int superscript_two = None ∧
  ∃ e s, renumber_try t0 "d" 1 2 (os_listdir superscript_dir "d") superscript_dir = Raised e s.
Proof.
  assert (NoDup (os_listdir superscript_dir "d")) as H1 by compute_done.
  assert ("a." +:+ superscript_two +:+ ".png" ∈ os_listdir superscript_dir "d") as H2
    by compute_done.
  assert (os_path_isfile superscript_dir
            (full_path_of "d" ("a." +:+ superscript_two +:+ ".png")) = true) as H3
    by (by vm_compute).
  assert (Py.split "." ("a." +:+ superscript_two +:+ ".png") = ["a"; superscript_two; "png"])
    as H4 by (by vm_compute).
  assert (Py.isnumeric superscript_two = true) as H5 by (by vm_compute).
  assert (Py.int superscript_two = None) as H6 by (by vm_compute).
  split; [exact H1|]. split; [exact H2|]. split; [exact H3|]. split; [exact H4|].
  split; [exact H5|]. split; [exact H6|].
  exact (refused_number_fails_the_run t0 "d" 1 2 _ superscript_dir _ _ _ _ H1 H2 H3 H4 H5 H6).
Defined.

(** [frames_are_consecutive] on the sequence [a.*.png] of [frames_dir],
    which has three files. *)
Lemma frames_are_consecutive_witness :
  listing_of frames_dir "d" (os_listdir frames_dir "d") ∧
  no_temp_names t0 (os_listdir frames_dir "d") ∧ 0 ≤ 1 ∧
  renumber_try t0 "d" 1 2 (os_listdir frames_dir "d") frames_dir = Done frames_done ∧
  ∀ file number,
    (file ∈ os_listdir (world frames_done) "d" ∧
     is_seq_file (world frames_done) "d" file = true ∧
     Py.split "." file = ["a"; number; "png"])
    ↔ ∃ i, (i < length (bucket (staged (nodes frames_dir) "d"
                                  (os_listdir frames_dir "d")).*2 ("a", "png")))%nat ∧
           number = Py.zfill (Py.str (1 + Z.of_nat i)) 2 ∧
           file = "a" +:+ "." +:+ number +:+ "." +:+ "png".
Proof.
  assert (listing_of frames_dir "d" (os_listdir frames_dir "d")) as H1
    by (unfold listing_of; reflexivity).
  assert (no_temp_names t0 (os_listdir frames_dir "d")) as H2 by compute_done.
  assert (0 ≤ 1) as H3 by lia.
  assert (renumber_try t0 "d" 1 2 (os_listdir frames_dir "d") frames_dir = Done frames_done)
    as H4 by (by vm_compute).
  split; [exact H1|]. split; [exact H2|]. split; [exact H3|]. split; [exact H4|].
  exact (frames_are_consecutive t0 "d" 1 2 _ frames_dir frames_done "a" "png" H1 H2 H3 H4).
Defined.

Lemma bucket_int_NoDup xs key :
  NoDup (Py.int <$> ((λ x : string * string * string, x.1.2) <$> xs)) →
  NoDup (Py.int <$> bucket xs key).
Proof.
  intros H. eapply sublist_NoDup; [exact H|].
  unfold bucket. do 2 apply fmap_sublist. apply sublist_filter.
Qed.

(** [listing_order_is_irrelevant] on [frames_dir], listed in one order and
    in the opposite one. *)
Lemma listing_order_is_irrelevant_witness :
  listing_of frames_dir "d" (os_listdir frames_dir "d") ∧
  listing_of frames_dir "d" (reverse (os_listdir frames_dir "d")) ∧
  no_temp_names t0 (os_listdir frames_dir "d") ∧ 0 ≤ 1 ∧
  (∀ key, NoDup (Py.int <$> bucket (staged (nodes frames_dir) "d"
                                      (os_listdir frames_dir "d")).*2 key)) ∧
  renumber_try t0 "d" 1 2 (os_listdir frames_dir "d") frames_dir = Done frames_done ∧
  renumber_try t0 "d" 1 2 (reverse (os_listdir frames_dir "d")) frames_dir
  = Done frames_done_reversed ∧
  nodes (world frames_done) = nodes (world frames_done_reversed).
Proof.
  assert (listing_of frames_dir "d" (os_listdir frames_dir "d")) as H1
    by (unfold listing_of; reflexivity).
  assert (listing_of frames_dir "d" (reverse (os_listdir frames_dir "d"))) as H2
    by (unfold listing_of; apply reverse_Permutation).
  assert (no_temp_names t0 (os_listdir frames_dir "d")) as H3 by compute_done.
  assert (0 ≤ 1) as H4 by lia.
  assert (∀ key, NoDup (Py.int <$> bucket (staged (nodes frames_dir) "d"
                                            (os_listdir frames_dir "d")).*2 key)) as H5.
  { intros key. apply bucket_int_NoDup. compute_done. }
  assert (renumber_try t0 "d" 1 2 (os_listdir frames_dir "d") frames_dir = Done frames_done)
    as H6 by (by vm_compute).
  assert (renumber_try t0 "d" 1 2 (reverse (os_listdir frames_dir "d")) frames_dir
          = Done frames_done_reversed) as H7 by (by vm_compute).
  split; [exact H1|]. split; [exact H2|]. split; [exact H3|]. split; [exact H4|].
  split; [exact H5|]. split; [exact H6|]. split; [exact H7|].
  exact (listing_order_is_irrelevant t0 "d" 1 2 _ _ frames_dir _ _ H1 H2 H3 H4 H5 H6 H7).
Defined.

(** [listing_decides_between_equal_numbers] on [equal_values_dir]:
    [a.1.png], listed first, becomes frame 1 and [a.01.png] frame 2. *)
Lemma listing_decides_between_equal_numbers_witness :
  NoDup ["a.1.png"; "a.01.png"] ∧
  renumber_try t0 "d" 1 2 ["a.1.png"; "a.01.png"] equal_values_dir = Done equal_values_done ∧
  ["a.1.png"; "a.01.png"] `sublist_of` ["a.1.png"; "a.01.png"] ∧
  is_seq_file equal_values_dir "d" "a.1.png" = true ∧
  Py.split "." "a.1.png" = ["a"; "1"; "png"] ∧
  is_seq_file equal_values_dir "d" "a.01.png" = true ∧
  Py.split "." "a.01.png" = ["a"; "01"; "png"] ∧
  Py.int "1" = Some 1 ∧ Py.int "01" = Some 1 ∧ 1 ≤ 1 ∧
  ∃ (i1 i2 ino1 ino2 : nat),
    (i1 < i2)%nat ∧
    nodes equal_values_dir !! full_path_of "d" "a.1.png" = Some (File ino1) ∧
    nodes (world equal_values_done) !! new_path_of "d" "a" (1 + Z.of_nat i1) 2 "png"
    = Some (File ino1) ∧
    nodes equal_values_dir !! full_path_of "d" "a.01.png" = Some (File ino2) ∧
    nodes (world equal_values_done) !! new_path_of "d" "a" (1 + Z.of_nat i2) 2 "png"
    = Some (File ino2).
Proof.
  assert (NoDup ["a.1.png"; "a.01.png"]) as H1 by compute_done.
  assert (renumber_try t0 "d" 1 2 ["a.1.png"; "a.01.png"] equal_values_dir
          = Done equal_values_done) as H2 by (by vm_compute).
  assert (["a.1.png"; "a.01.png"] `sublist_of` ["a.1.png"; "a.01.png"]) as H3 by done.
  assert (is_seq_file equal_values_dir "d" "a.1.png" = true) as H4 by (by vm_compute).
  assert (Py.split "." "a.1.png" = ["a"; "1"; "png"]) as H5 by (by vm_compute).
  assert (is_seq_file equal_values_dir "d" "a.01.png" = true) as H6 by (by vm_compute).
  assert (Py.split "." "a.01.png" = ["a"; "01"; "png"]) as H7 by (by vm_compute).
  assert (Py.int "1" = Some 1) as H8 by (by vm_compute).
  assert (Py.int "01" = Some 1) as H9 by (by vm_compute).
  assert (1 ≤ 1) as H10 by lia.
  split; [exact H1|]. split; [exact H2|]. split; [exact H3|]. split; [exact H4|].
  split; [exact H5|]. split; [exact H6|]. split; [exact H7|]. split; [exact H8|].
  split; [exact H9|]. split; [exact H10|].
  exact (listing_decides_between_equal_numbers t0 "d" 1 2 _ equal_values_dir _ _ _ _ _ _ _ _ _
           H1 H2 H3 H4 H5 H6 H7 H8 H9 H10).
Defined.

(** [second_run_changes_nothing] on [frames_dir]: a second run, at [t1]. *)
Lemma second_run_changes_nothing_witness :
  listing_of frames_dir "d" (os_listdir frames_dir "d") ∧
  no_temp_names t0 (os_listdir frames_dir "d") ∧ 0 ≤ 1 ∧
  renumber_try t0 "d" 1 2 (os_listdir frames_dir "d") frames_dir = Done frames_done ∧
  listing_of (world frames_done) "d" (os_listdir (world frames_done) "d") ∧
  no_temp_names t1 (os_listdir (world frames_done) "d") ∧
  renumber_try t1 "d" 1 2 (os_listdir (world frames_done) "d") (world frames_done)
  = Done frames_done_again ∧
  nodes (world frames_done_again) = nodes (world frames_done).
Proof.
  assert (listing_of frames_dir "d" (os_listdir frames_dir "d")) as H1
    by (unfold listing_of; reflexivity).
  assert (no_temp_names t0 (os_listdir frames_dir "d")) as H2 by compute_done.
  assert (0 ≤ 1) as H3 by lia.
  assert (renumber_try t0 "d" 1 2 (os_listdir frames_dir "d") frames_dir = Done frames_done)
    as H4 by (by vm_compute).
  assert (listing_of (world frames_done) "d" (os_listdir (world frames_done) "d")) as H5
    by (unfold listing_of; reflexivity).
  assert (no_temp_names t1 (os_listdir (world frames_done) "d")) as H6 by compute_done.
  assert (renumber_try t1 "d" 1 2 (os_listdir (world frames_done) "d") (world frames_done)
          = Done frames_done_again) as H7 by (by vm_compute).
  split; [exact H1|]. split; [exact H2|]. split; [exact H3|]. split; [exact H4|].
  split; [exact H5|]. split; [exact H6|]. split; [exact H7|].
  exact (second_run_changes_nothing t0 t1 "d" 1 2 _ frames_dir _ _ _ H1 H2 H3 H4 H5 H6 H7).
Defined.

(** [rollback_round_trip] on [one_staged]: the file goes back to
    [a.1.png]. *)
Lemma rollback_round_trip_witness :
  undisturbed one_staged ∧ distinct_moves one_staged_dict ∧
  (∀ p, p ∈ one_staged_dict →
     (∃ i, nodes one_frame !! p.1 = Some (File i)) ∧ nodes one_frame !! p.2 = None) ∧
  nodes one_staged = moved (nodes one_frame) one_staged_dict ∧
  ∃ w', restore_original_names one_staged_dict one_staged = (w', None) ∧
        nodes w' = nodes one_frame.
Proof.
  assert (undisturbed one_staged) as H1 by (by apply Forall_nil).
  assert (distinct_moves one_staged_dict) as H2.
  { unfold distinct_moves, one_staged_dict. cbn. split_and!; [compute_done..|].
    intros a ->%list_elem_of_singleton. compute_done. }
  assert (∀ p, p ∈ one_staged_dict →
            (∃ i, nodes one_frame !! p.1 = Some (File i)) ∧ nodes one_frame !! p.2 = None)
    as H3.
  { intros p ->%list_elem_of_singleton. split; [by exists 1%nat|done]. }
  assert (nodes one_staged = moved (nodes one_frame) one_staged_dict) as H4 by reflexivity.
  split; [exact H1|]. split; [exact H2|]. split; [exact H3|]. split; [exact H4|].
  exact (rollback_round_trip one_staged_dict (nodes one_frame) one_staged H1 H2 H3 H4).
Defined.

(** [rollback_raises_after_numbering] on [two_frames_blocked]. *)
Lemma rollback_raises_after_numbering_witness :
  listing_of two_frames_blocked "d" (os_listdir two_frames_blocked "d") ∧
  no_temp_names t0 (os_listdir two_frames_blocked "d") ∧
  stage_loop t0 "d" (os_listdir two_frames_blocked "d")
    {| world := two_frames_blocked; renaming_dict := []; seqs_data_dict := [] |}
  = Done blocked_staged ∧
  seqs_loop t0 "d" 1 2 (seqs_data_dict blocked_staged).*1 blocked_staged
  = Raised IsADirectoryError blocked_stopped ∧
  renames (world blocked_stopped) ≠ renames (world blocked_staged) ∧
  is_Some (renumber_listing t0 "d" 1 2 (os_listdir two_frames_blocked "d")
             two_frames_blocked).2.
Proof.
  assert (listing_of two_frames_blocked "d" (os_listdir two_frames_blocked "d")) as H1
    by (unfold listing_of; reflexivity).
  assert (no_temp_names t0 (os_listdir two_frames_blocked "d")) as H2 by compute_done.
  assert (stage_loop t0 "d" (os_listdir two_frames_blocked "d")
            {| world := two_frames_blocked; renaming_dict := []; seqs_data_dict := [] |}
          = Done blocked_staged) as H3 by (by vm_compute).
  assert (seqs_loop t0 "d" 1 2 (seqs_data_dict blocked_staged).*1 blocked_staged
          = Raised IsADirectoryError blocked_stopped) as H4 by (by vm_compute).
  assert (renames (world blocked_stopped) ≠ renames (world blocked_staged)) as H5
    by (by vm_compute).
  split; [exact H1|]. split; [exact H2|]. split; [exact H3|]. split; [exact H4|].
  split; [exact H5|].
  exact (rollback_raises_after_numbering t0 "d" 1 2 _ two_frames_blocked _ _ _ H1 H2 H3 H4 H5).
Defined.

(** [last_modified_text] on [t0]. *)
Lemma last_modified_text_witness :
  1000 ≤ Z.of_nat (year t0) ≤ 9999 ∧ (1 ≤ month t0 ≤ 12)%nat ∧
  get_script_last_mod_datetime (Some t0)
  = Py.upper (month_abbr (month t0)) +:+ space_padded (day t0) +:+ " " +:+
    Py.str (Z.of_nat (year t0)) +:+ " " +:+
    Py.str (Z.of_nat (hour12 t0)) +:+ ":" +:+ two_digits (minute t0) +:+ ":" +:+
    two_digits (second t0) +:+ " " +:+ am_pm t0.
Proof.
  assert (1000 ≤ Z.of_nat (year t0) ≤ 9999) as H1 by (cbn; lia).
  assert (1 ≤ month t0 ≤ 12)%nat as H2 by (cbn; lia).
  split; [exact H1|]. split; [exact H2|].
  exact (proj2 last_modified_text t0 H1 H2).
Defined.

Example last_modified_t0 : get_script_last_mod_datetime (Some t0) = "FEB 5 2022 1:45:10 PM".
Proof. reflexivity. Qed.

(** [early_failure_is_undone] on [superscript_dir], where the sort raises. *)
Lemma early_failure_is_undone_witness :
  listing_of superscript_dir "d" (os_listdir superscript_dir "d") ∧
  no_temp_names t0 (os_listdir superscript_dir "d") ∧
  renumber_try t0 "d" 1 2 (os_listdir superscript_dir "d") superscript_dir
  = Raised ValueError superscript_stopped ∧
  (∀ p, p ∈ renaming_dict superscript_stopped →
     is_Some (nodes (world superscript_stopped) !! p.2)) ∧
  undisturbed (world superscript_stopped) ∧
  ∃ w', renumber_listing t0 "d" 1 2 (os_listdir superscript_dir "d") superscript_dir
        = (w', None) ∧
        nodes w' = nodes superscript_dir.
Proof.
  assert (listing_of superscript_dir "d" (os_listdir superscript_dir "d")) as H1
    by (unfold listing_of; reflexivity).
  assert (no_temp_names t0 (os_listdir superscript_dir "d")) as H2 by compute_done.
  assert (renumber_try t0 "d" 1 2 (os_listdir superscript_dir "d") superscript_dir
          = Raised ValueError superscript_stopped) as H3 by (by vm_compute).
  assert (∀ p, p ∈ renaming_dict superscript_stopped →
            is_Some (nodes (world superscript_stopped) !! p.2)) as H4.
  { apply Forall_forall. compute_done. }
  assert (undisturbed (world superscript_stopped)) as H5 by (by apply Forall_nil).
  split; [exact H1|]. split; [exact H2|]. split; [exact H3|]. split; [exact H4|].
  split; [exact H5|].
  exact (early_failure_is_undone t0 "d" 1 2 _ superscript_dir _ _ H1 H2 H3 H4 H5).
Defined.
